(** * shopware_bmecat: extraction of BMEcat articles and import into Shopware

    A shallow embedding of [shopware_bmecat/bmecat.py], [shopware.py],
    [importer.py] and the import command of [cli.py], together with the
    Python built-ins those modules rely on ([str.strip], [float], [repr] of
    a float, [round], [uuid.uuid5]).

    Conventions.
    - A Python [str] is the [string] of its UTF-8 bytes; code-point order of
      Python strings is the byte order of their encodings.
    - A Python [float] is a binary64 value of [SpecFloat.spec_float].
    - A function that may raise returns a [result]; code that talks to the
      remote system threads the state of the client and of the run. *)

From Stdlib Require Import ZArith List String Ascii Bool Lia SpecFloat.
From stdpp Require Import base list strings gmap sorting.
From Equations Require Import Equations.
Import ListNotations.

(** ** Python strings *)

Module PyStr.

Definition code (c : ascii) : nat := nat_of_ascii c.

(** [str.isspace] on the UTF-8 encoding: one-byte code points
    U+0009..U+000D, U+001C..U+0020; two-byte U+0085, U+00A0; three-byte
    U+1680, U+2000..U+200A, U+2028, U+2029, U+202F, U+205F, U+3000. *)
Definition ws1 (c : ascii) : bool :=
  let n := code c in
  ((9 <=? n) && (n <=? 13)) || ((28 <=? n) && (n <=? 32)).

Definition ws2 (c1 c2 : ascii) : bool :=
  (code c1 =? 194) && ((code c2 =? 133) || (code c2 =? 160)).

Definition ws3 (c1 c2 c3 : ascii) : bool :=
  let a := code c1 in let b := code c2 in let c := code c3 in
  ((a =? 225) && (b =? 154) && (c =? 128))
  || ((a =? 226) && (b =? 128)
      && (((128 <=? c) && (c <=? 138)) || (c =? 168) || (c =? 169) || (c =? 175)))
  || ((a =? 226) && (b =? 129) && (c =? 159))
  || ((a =? 227) && (b =? 128) && (c =? 128)).

(** Drop leading white space; with [back] the list is a reversed string, so
    the bytes of one code point arrive last byte first. *)
Fixpoint strip_front (back : bool) (l : list ascii) : list ascii :=
  match l with
  | [] => []
  | c1 :: t1 =>
      if ws1 c1 then strip_front back t1 else
      match t1 with
      | [] => l
      | c2 :: t2 =>
          if (if back then ws2 c2 c1 else ws2 c1 c2) then strip_front back t2 else
          match t2 with
          | [] => l
          | c3 :: t3 =>
              if (if back then ws3 c3 c2 c1 else ws3 c1 c2 c3)
              then strip_front back t3 else l
          end
      end
  end.

(** [s.strip()] *)
Definition strip (s : string) : string :=
  string_of_list_ascii
    (rev (strip_front true (rev (strip_front false (list_ascii_of_string s))))).

(** Truth value of a string: [bool(s)]. *)
Definition truthy (s : string) : bool :=
  match s with EmptyString => false | _ => true end.

(** Truth value of [s] when [s] may be [None]. *)
Definition otruthy (o : option string) : bool :=
  match o with Some s => truthy s | None => false end.

(** [text or None] *)
Definition or_none (s : string) : option string :=
  if truthy s then Some s else None.

Definition lower (c : ascii) : ascii :=
  let n := code c in
  if (65 <=? n) && (n <=? 90) then ascii_of_nat (n + 32) else c.

End PyStr.

(** ** Python floats: binary64 *)

Module PyFloat.
Local Open Scope Z_scope.

Definition float := spec_float.
Definition prec : Z := 53.
Definition emax : Z := 1024.

Definition add : float -> float -> float := SFadd prec emax.
Definition mul : float -> float -> float := SFmul prec emax.
Definition div : float -> float -> float := SFdiv prec emax.
Definition ltb : float -> float -> bool := SFltb.
Definition leb : float -> float -> bool := SFleb.
Definition eqb : float -> float -> bool := SFeqb.

(** [x > y] *)
Definition gtb (x y : float) : bool := ltb y x.

(** Structural identity (the same value and the same sign of zero). *)
Definition same (x y : float) : bool :=
  match x, y with
  | S754_zero a, S754_zero b => Bool.eqb a b
  | S754_infinity a, S754_infinity b => Bool.eqb a b
  | S754_nan, S754_nan => true
  | S754_finite a m e, S754_finite b n f =>
      Bool.eqb a b && Pos.eqb m n && Z.eqb e f
  | _, _ => false
  end.

(** [bool(x)]: zero is the only false float. *)
Definition truthy (x : float) : bool :=
  match x with S754_zero _ => false | _ => true end.

(** The float nearest to the integer [z] (ties to even): [float(z)]. *)
Definition of_Z (z : Z) : float := binary_normalize prec emax z 0 false.

(** The float nearest to [(-1)^s * n / d] for [n >= 0], [d > 0]. *)
Definition of_ratio (s : bool) (n d : Z) : float :=
  if n =? 0 then S754_zero s
  else
    let '(mz, ez, lz) := SFdiv_core_binary prec emax n 0 d 0 in
    binary_round_aux prec emax s mz ez lz.

(** The float nearest to [(-1)^s * m * 10^e], where [m >= 0] is written
    with at most [nd] digits. Values beyond the binary64 range are decided
    without building the power of ten. *)
Definition of_decimal (s : bool) (m : Z) (nd : Z) (e : Z) : float :=
  if m =? 0 then S754_zero s
  else if 310 <=? e then S754_infinity s
  else if e + nd <? -330 then S754_zero s
  else if 0 <=? e then of_ratio s (m * 10 ^ e) 1
  else of_ratio s m (10 ^ (- e)).

(** *** [float(s)] for a string *)

Definition is_digit (c : ascii) : bool :=
  let n := PyStr.code c in (48 <=? n)%nat && (n <=? 57)%nat.

Definition digit_val (c : ascii) : Z := Z.of_nat (PyStr.code c) - 48.

Definition is_char (n : nat) (c : ascii) : bool := (PyStr.code c =? n)%nat.

(** Read a run of digits; an underscore is accepted only between two
    digits. Returns the accumulated value, the number of digits read and
    the rest of the input. *)
Fixpoint read_digits (acc : Z) (n : nat) (l : list ascii)
  : Z * nat * list ascii :=
  match l with
  | [] => (acc, n, [])
  | c :: t =>
      if is_digit c then read_digits (acc * 10 + digit_val c) (S n) t
      else if is_char 95 c && (0 <? n)%nat then
        match t with
        | d :: _ => if is_digit d then read_digits acc n t else (acc, n, l)
        | [] => (acc, n, l)
        end
      else (acc, n, l)
  end.

Definition read_sign (l : list ascii) : bool * list ascii :=
  match l with
  | c :: t => if is_char 45 c then (true, t)
              else if is_char 43 c then (false, t) else (false, l)
  | [] => (false, [])
  end.

(** The exponent part: nothing, or [e], an optional sign and digits. *)
Definition read_exponent (l : list ascii) : option (Z * list ascii) :=
  match l with
  | c :: t =>
      if is_char 101 c || is_char 69 c then
        let '(neg, t') := read_sign t in
        let '(v, n, rest) := read_digits 0 0 t' in
        if (0 <? n)%nat then Some (if neg then - v else v, rest) else None
      else Some (0, l)
  | [] => Some (0, [])
  end.

Definition read_number (s : bool) (l : list ascii) : option float :=
  let '(ip, ni, r1) := read_digits 0 0 l in
  let '(m, nf, r2) :=
    match r1 with
    | c :: t => if is_char 46 c then read_digits ip 0 t else (ip, 0%nat, r1)
    | [] => (ip, 0%nat, r1)
    end in
  if (0 <? ni + nf)%nat then
    match read_exponent r2 with
    | Some (e, []) =>
        Some (of_decimal s m (Z.of_nat (ni + nf)) (e - Z.of_nat nf))
    | _ => None
    end
  else None.

Definition read_special (s : bool) (l : list ascii) : option float :=
  let w := string_of_list_ascii (map PyStr.lower l) in
  if String.eqb w "inf" || String.eqb w "infinity" then Some (S754_infinity s)
  else if String.eqb w "nan" then Some S754_nan
  else None.

(** White space to [float]: U+0009..U+000D and U+0020. *)
Definition is_space (c : ascii) : bool :=
  let n := PyStr.code c in
  ((9 <=? n)%nat && (n <=? 13)%nat) || (n =? 32)%nat.

(** White space beyond ASCII, by code point. *)
Definition is_unicode_space (cp : Z) : bool :=
  (cp =? 133) || (cp =? 160) || (cp =? 5760)
  || ((8192 <=? cp) && (cp <=? 8202))
  || (cp =? 8232) || (cp =? 8233) || (cp =? 8239) || (cp =? 8287)
  || (cp =? 12288).

(** The decimal digits beyond ASCII (of Unicode 14): the code point of the
    zero of each run of ten digits. *)
Definition digit_zeros : list Z :=
  [ 1632; 1776; 1984; 2406; 2534; 2662; 2790; 2918; 3046; 3174; 3302;
    3430; 3558; 3664; 3792; 3872; 4160; 4240; 6112; 6160; 6470; 6608;
    6784; 6800; 6992; 7088; 7232; 7248; 42528; 43216; 43264; 43472;
    43504; 43600; 44016; 65296; 66720; 68912; 69734; 69872; 69942; 70096;
    70384; 70736; 70864; 71248; 71360; 71472; 71904; 72016; 72784; 73040;
    73120; 92768; 92864; 93008; 120782; 120792; 120802; 120812; 120822;
    123200; 123632; 125264; 130032 ].

(** The value of the code point [cp] as a decimal digit. *)
Definition to_decimal (cp : Z) : option Z :=
  match List.find (fun zero => (zero <=? cp) && (cp <? zero + 10)) digit_zeros with
  | Some zero => Some (cp - zero)
  | None => None
  end.

Definition byte (c : ascii) : Z := Z.of_nat (PyStr.code c).

(** What is read in place of a code point beyond ASCII that is followed
    by [rest]: a space for white space, the ASCII digit for a decimal digit.
    Another code point cannot be read: a question mark ends the string. *)
Definition transform (cp : Z) (rest : list ascii) : list ascii :=
  if is_unicode_space cp then " "%char :: rest
  else
    match to_decimal cp with
    | Some d => ascii_of_nat (Z.to_nat (48 + d)) :: rest
    | None => ["?"%char]
    end.

(** The string as [float] reads it: code points below U+007F as they are,
    the others, decoded from UTF-8, by [transform]. (U+007F is kept in a
    string that is all ASCII; it cannot be read either way.) *)
Fixpoint to_ascii (l : list ascii) : list ascii :=
  match l with
  | [] => []
  | c1 :: t1 =>
      if byte c1 <? 127 then c1 :: to_ascii t1
      else if byte c1 <? 192 then ["?"%char]
      else
        match t1 with
        | [] => ["?"%char]
        | c2 :: t2 =>
            if byte c1 <? 224 then
              transform ((byte c1 - 192) * 64 + (byte c2 - 128)) (to_ascii t2)
            else
              match t2 with
              | [] => ["?"%char]
              | c3 :: t3 =>
                  if byte c1 <? 240 then
                    transform ((byte c1 - 224) * 4096 + (byte c2 - 128) * 64
                               + (byte c3 - 128)) (to_ascii t3)
                  else
                    match t3 with
                    | [] => ["?"%char]
                    | c4 :: t4 =>
                        transform ((byte c1 - 240) * 262144
                                   + (byte c2 - 128) * 4096
                                   + (byte c3 - 128) * 64 + (byte c4 - 128))
                          (to_ascii t4)
                    end
              end
        end
  end.

Fixpoint drop_spaces (l : list ascii) : list ascii :=
  match l with
  | c :: t => if is_space c then drop_spaces t else l
  | [] => []
  end.

(** White space stripped at both ends. *)
Definition strip_spaces (l : list ascii) : list ascii :=
  rev (drop_spaces (rev (drop_spaces l))).

(** [float(s)]; [None] stands for [ValueError]. Decimal digits and white
    space beyond ASCII count as their ASCII counterparts; white space is
    stripped at both ends; the value is the nearest float, infinite beyond
    the range. *)
Definition of_string (s : string) : option float :=
  let '(neg, l) :=
    read_sign (strip_spaces (to_ascii (list_ascii_of_string s))) in
  match read_special neg l with
  | Some x => Some x
  | None => read_number neg l
  end.

(** *** [round(x, 2)] *)

(** Nearest integer to [n / d], ties to even ([n >= 0], [d > 0]). *)
Definition div_half_even (n d : Z) : Z :=
  let q := n / d in
  let r := n mod d in
  match 2 * r ?= d with
  | Lt => q
  | Gt => q + 1
  | Eq => if Z.even q then q else q + 1
  end.

(** The number of hundredths nearest to [m * 2^e]. *)
Definition hundredths (m : positive) (e : Z) : Z :=
  if 0 <=? e then Z.pos m * 2 ^ e * 100
  else div_half_even (Z.pos m * 100) (2 ^ (- e)).

(** [round(x, 2)]: the decimal with two places nearest to the exact value
    of [x] (ties to even), read back as a float. *)
Definition round2 (x : float) : float :=
  match x with
  | S754_finite s m e => of_ratio s (hundredths m e) 100
  | _ => x
  end.

(** *** [repr(x)], which is also [str(x)] *)

(** [10^k * den <= num] *)
Definition pow10_le (k num den : Z) : bool :=
  if 0 <=? k then 10 ^ k * den <=? num else den <=? num * 10 ^ (- k).

(** The largest [k] at or above the start value with [10^k <= num/den]. *)
Fixpoint floor_log10 (fuel : nat) (k num den : Z) : Z :=
  match fuel with
  | O => k
  | S f => if pow10_le (k + 1) num den then floor_log10 f (k + 1) num den else k
  end.

Fixpoint digits_of (fuel : nat) (z : Z) (acc : list ascii) : list ascii :=
  match fuel with
  | O => acc
  | S f =>
      let acc' := ascii_of_nat (48 + Z.to_nat (z mod 10)) :: acc in
      if z <? 10 then acc' else digits_of f (z / 10) acc'
  end.

(** Decimal digits of [z >= 0]. *)
Definition str_of_Z (z : Z) : list ascii :=
  digits_of (S (Z.to_nat (Z.log2 z))) z [].

(** The [n]-digit decimal [c * 10^p] that reads back as [x = num/den] and
    is nearest to it, if there is one. *)
Definition candidate (x : float) (num den k10 n : Z) : option (Z * Z) :=
  let p := k10 - n + 1 in
  let '(a, b) :=
    if 0 <=? p then (num, den * 10 ^ p) else (num * 10 ^ (- p), den) in
  let lo := a / b in
  let r := a mod b in
  let ok c := same (of_decimal false c (n + 1) p) x in
  if r =? 0 then Some (lo, p)
  else
    match ok lo, ok (lo + 1) with
    | true, true =>
        match 2 * r ?= b with
        | Lt => Some (lo, p)
        | Gt => Some (lo + 1, p)
        | Eq => Some (if Z.even lo then lo else lo + 1, p)
        end
    | true, false => Some (lo, p)
    | false, true => Some (lo + 1, p)
    | false, false => None
    end.

(** The shortest decimal that reads back as [x]: try 1, 2, ... digits. *)
Fixpoint shortest (fuel : nat) (x : float) (num den k10 n : Z) : Z * Z :=
  match fuel with
  | O => (0, 0)
  | S f =>
      match candidate x num den k10 n with
      | Some cp => cp
      | None => shortest f x num den k10 (n + 1)
      end
  end.

Fixpoint drop_zeros (l : list ascii) : list ascii :=
  match l with
  | c :: t => if is_char 48 c then drop_zeros t else l
  | [] => []
  end.

(** Digits and decimal point position of a positive finite float: the
    value is [0.d1d2...dn * 10^decpt]. *)
Definition shortest_digits (m : positive) (e : Z) : list ascii * Z :=
  let '(num, den) :=
    if 0 <=? e then (Z.pos m * 2 ^ e, 1) else (Z.pos m, 2 ^ (- e)) in
  let k10 := floor_log10 800 (-400) num den in
  let '(c, p) := shortest 17 (S754_finite false m e) num den k10 1 in
  let ds := str_of_Z c in
  (rev (drop_zeros (rev ds)), p + Z.of_nat (length ds)).

Definition zeros (n : Z) : list ascii := repeat "0"%char (Z.to_nat n).

(** Exponent suffix: sign and at least two digits. *)
Definition exponent_suffix (e : Z) : list ascii :=
  let ds := str_of_Z (Z.abs e) in
  "e"%char :: (if e <? 0 then "-"%char else "+"%char)
    :: (if (length ds <? 2)%nat then "0"%char :: ds else ds).

Definition repr_finite (ds : list ascii) (decpt : Z) : list ascii :=
  if (decpt <=? -4) || (16 <? decpt) then
    match ds with
    | d :: [] => d :: exponent_suffix (decpt - 1)
    | d :: rest => d :: "."%char :: rest ++ exponent_suffix (decpt - 1)
    | [] => []
    end
  else if decpt <=? 0 then
    "0"%char :: "."%char :: zeros (- decpt) ++ ds
  else if Z.of_nat (length ds) <=? decpt then
    ds ++ zeros (decpt - Z.of_nat (length ds)) ++ [ "."%char; "0"%char ]
  else
    take (Z.to_nat decpt) ds ++ "."%char :: drop (Z.to_nat decpt) ds.

(** [repr(x)] *)
Definition repr (x : float) : string :=
  match x with
  | S754_nan => "nan"
  | S754_infinity s => if s then "-inf" else "inf"
  | S754_zero s => if s then "-0.0" else "0.0"
  | S754_finite s m e =>
      let '(ds, decpt) := shortest_digits m e in
      string_of_list_ascii
        ((if s then [ "-"%char ] else []) ++ repr_finite ds decpt)
  end.

End PyFloat.

(** ** [hashlib.sha1] and [uuid.uuid5] *)

Module Sha1.
Local Open Scope Z_scope.

Definition word (x : Z) : Z := x mod 2 ^ 32.

Definition rotl (n x : Z) : Z :=
  word (Z.lor (Z.shiftl x n) (Z.shiftr x (32 - n))).

Definition bytes_of_string (s : string) : list Z :=
  map (fun c => Z.of_nat (nat_of_ascii c)) (list_ascii_of_string s).

(** Big-endian value of a byte list. *)
Definition be_int (l : list Z) : Z :=
  fold_left (fun acc b => acc * 256 + b) l 0.

(** The [n] low bytes of [x], most significant first. *)
Fixpoint be_bytes (n : nat) (x : Z) : list Z :=
  match n with
  | O => []
  | S k => (Z.shiftr x (8 * Z.of_nat k)) mod 256 :: be_bytes k x
  end.

(** Message padding: a one bit, zeros up to 56 modulo 64, the bit length. *)
Definition pad (msg : list Z) : list Z :=
  let len := Z.of_nat (length msg) in
  let k := (55 - len) mod 64 in
  msg ++ 128 :: repeat 0 (Z.to_nat k) ++ be_bytes 8 (8 * len).

Fixpoint words_of (fuel : nat) (l : list Z) : list Z :=
  match fuel, l with
  | S f, a :: b :: c :: d :: t => be_int [a; b; c; d] :: words_of f t
  | _, _ => []
  end.

(** Message schedule, most recent word first. *)
Fixpoint schedule (n : nat) (ws : list Z) : list Z :=
  match n with
  | O => ws
  | S k =>
      let w := rotl 1 (Z.lxor (Z.lxor (nth 2 ws 0) (nth 7 ws 0))
                              (Z.lxor (nth 13 ws 0) (nth 15 ws 0))) in
      schedule k (w :: ws)
  end.

Definition state : Type := Z * Z * Z * Z * Z.

Definition round (t : Z) (st : state) (w : Z) : state :=
  let '(a, b, c, d, e) := st in
  let '(f, k) :=
    if t <? 20 then
      (Z.lor (Z.land b c) (Z.land (Z.lxor b 4294967295) d), 1518500249)
    else if t <? 40 then (Z.lxor (Z.lxor b c) d, 1859775393)
    else if t <? 60 then
      (Z.lor (Z.lor (Z.land b c) (Z.land b d)) (Z.land c d), 2400959708)
    else (Z.lxor (Z.lxor b c) d, 3395469782) in
  (word (rotl 5 a + f + e + k + w), a, rotl 30 b, c, d).

Fixpoint rounds (t : Z) (st : state) (ws : list Z) : state :=
  match ws with
  | [] => st
  | w :: rest => rounds (t + 1) (round t st w) rest
  end.

Definition compress (h : state) (block : list Z) : state :=
  let ws := rev (schedule 64 (rev (words_of 16 block))) in
  let '(a, b, c, d, e) := rounds 0 h ws in
  let '(h0, h1, h2, h3, h4) := h in
  (word (h0 + a), word (h1 + b), word (h2 + c), word (h3 + d), word (h4 + e)).

Fixpoint blocks (fuel : nat) (h : state) (l : list Z) : state :=
  match fuel, l with
  | S f, _ :: _ => blocks f (compress h (take 64 l)) (drop 64 l)
  | _, _ => h
  end.

Definition init : state :=
  (1732584193, 4023233417, 2562383102, 271733878, 3285377520).

(** [hashlib.sha1(msg).digest()] *)
Definition digest (msg : list Z) : list Z :=
  let p := pad msg in
  let '(h0, h1, h2, h3, h4) := blocks (length p) init p in
  be_bytes 4 h0 ++ be_bytes 4 h1 ++ be_bytes 4 h2 ++ be_bytes 4 h3
    ++ be_bytes 4 h4.

End Sha1.

Module Uuid.
Local Open Scope Z_scope.

(** A UUID is its 128-bit integer. *)
Definition uuid := Z.

(** [uuid.NAMESPACE_URL], 6ba7b811-9dad-11d1-80b4-00c04fd430c8 *)
Definition NAMESPACE_URL : uuid := 0x6ba7b8119dad11d180b400c04fd430c8.

(** [u.bytes] *)
Definition bytes (u : uuid) : list Z := Sha1.be_bytes 16 u.

(** [UUID(bytes=b, version=v)]: variant and version bits are overwritten. *)
Definition of_bytes (b : list Z) (version : Z) : uuid :=
  let i := Sha1.be_int b in
  let i := Z.land i (Z.lnot (Z.shiftl 0xc000 48)) in
  let i := Z.lor i (Z.shiftl 0x8000 48) in
  let i := Z.land i (Z.lnot (Z.shiftl 0xf000 64)) in
  Z.lor i (Z.shiftl version 76).

(** [uuid.uuid5(namespace, name)] *)
Definition uuid5 (namespace : uuid) (name : string) : uuid :=
  of_bytes (take 16 (Sha1.digest (bytes namespace ++ Sha1.bytes_of_string name))) 5.

Definition hex_digit (d : Z) : ascii :=
  ascii_of_nat (Z.to_nat (if d <? 10 then 48 + d else 87 + d)).

(** The [n] low hexadecimal digits of [x], most significant first. *)
Fixpoint hex (n : nat) (x : Z) : list ascii :=
  match n with
  | O => []
  | S k => hex_digit ((Z.shiftr x (4 * Z.of_nat k)) mod 16) :: hex k x
  end.

(** [str(u)]: 8-4-4-4-12 lower-case hexadecimal digits. *)
Definition to_string (u : uuid) : string :=
  let h := hex 32 u in
  let dash := [ "-"%char ] in
  string_of_list_ascii
    (take 8 h ++ dash ++ take 4 (drop 8 h) ++ dash ++ take 4 (drop 12 h)
       ++ dash ++ take 4 (drop 16 h) ++ dash ++ drop 20 h).

End Uuid.

(** ** Python values and dictionaries used by the records *)

(** The scalars a record field can hold: [None], a float or a string. *)
Inductive pyval :=
| VNone
| VFloat (x : PyFloat.float)
| VStr (s : string).

(** A [dict] with string keys, in insertion order; keys are distinct. *)
Definition pydict (V : Type) : Type := list (string * V).

(** [d.get(key)] *)
Fixpoint dict_lookup {V} (d : pydict V) (key : string) : option V :=
  match d with
  | [] => None
  | (k, v) :: rest => if String.eqb k key then Some v else dict_lookup rest key
  end.

(** [d.get(key, default)]: the default answers for a missing key only. *)
Definition dict_get {V} (d : pydict V) (key : string) (default : V) : V :=
  match dict_lookup d key with
  | Some v => v
  | None => default
  end.

(** [a or b] on optional strings. *)
Definition str_or (a b : option string) : option string :=
  if PyStr.otruthy a then a else b.

(** ** lxml element trees *)

Module Etree.

(** An element: its tag in Clark notation ([{namespace}local] or [local]),
    its attributes, the text before its first child, and its children. *)
#[local] Unset Elimination Schemes.
Inductive element :=
| Element (tag : string) (attrib : list (string * string))
          (text : option string) (children : list element).
#[local] Set Elimination Schemes.

Definition tag (e : element) : string := let 'Element t _ _ _ := e in t.
Definition attrib (e : element) := let 'Element _ a _ _ := e in a.
Definition text (e : element) : option string := let 'Element _ _ t _ := e in t.
Definition children (e : element) : list element := let 'Element _ _ _ c := e in c.

(** [e.get(key)] *)
Definition get (e : element) (key : string) : option string :=
  dict_lookup (attrib e) key.

(** The part of [s] after its first closing brace, if it has one. *)
Fixpoint after_brace (s : string) : option string :=
  match s with
  | EmptyString => None
  | String c rest => if Ascii.eqb c "}" then Some rest else after_brace rest
  end.

(** Local name of a tag. *)
Definition localname (t : string) : string :=
  match t with
  | String "{" _ => match after_brace t with Some l => l | None => t end
  | _ => t
  end.

(** The proper descendants of [e] in document order. *)
Fixpoint descendants (e : element) : list element :=
  let 'Element _ _ _ cs := e in
  (fix go (l : list element) : list element :=
     match l with
     | [] => []
     | c :: rest => c :: descendants c ++ go rest
     end) cs.

Definition named (name : string) (e : element) : bool :=
  String.eqb (localname (tag e)) name.

(** [e.findall(".//{*}name")] *)
Definition findall (e : element) (name : string) : list element :=
  List.filter (named name) (descendants e).

(** [e.find(".//{*}name")] *)
Definition find (e : element) (name : string) : option element :=
  List.find (named name) (descendants e).

(** [e.findall(".//{*}parent/{*}name")] *)
Definition findall_in (e : element) (parent name : string) : list element :=
  flat_map (fun p => List.filter (named name) (children p)) (findall e parent).

End Etree.

(** ** config.py *)

Module Config.

Record PriceSelector := {
  price_type : string;
  currency : string
}.

Record MappingConfig := {
  product_number : string;
  name : string;
  description : string;
  ean : string;
  manufacturer : string;
  price_selector : PriceSelector
}.

Record ShopwareConfig := {
  base_url : string;
  client_id : option string;
  client_secret : option string;
  token : option string;
  sales_channel_id : option string;
  default_visibility : option Z
}.

Record TaxConfig := {
  default_rate : PyFloat.float;
  tax_mapping : gmap string PyFloat.float
}.

Record Settings := {
  source_name : string;
  mapping : MappingConfig;
  shopware : ShopwareConfig;
  tax : TaxConfig
}.

End Config.

(** ** The intermediate product record *)

Module Product.

(** One feature entry; the key [unit] is present only when set. *)
Record feature := {
  fname : option string;
  fvalue : option string;
  funit : option string
}.

(** What the key [price] of a record holds: nothing (the key is missing),
    a dictionary, or anything that is not a dictionary ([null], a number, a
    string, a list). *)
Inductive price_field :=
| PriceMissing
| PriceDict (d : pydict pyval)
| PriceOther.

(** [product.get("price", {})] as far as [get] can be called on it: the
    dictionary, the empty one for a missing key, nothing for another
    value. *)
Definition price_dict (p : price_field) : option (pydict pyval) :=
  match p with
  | PriceMissing => Some []
  | PriceDict d => Some d
  | PriceOther => None
  end.

(** The record as a dictionary read with [get]: a field is [None] when its
    key is missing or null. [price] tells a dictionary (with the keys [net]
    and [currency] when it comes from the extractor) from a missing key and
    from any other value; [media] is empty when the key is missing. *)
Record t := {
  productNumber : option string;
  name : option string;
  description : option string;
  ean : option string;
  manufacturer : option string;
  price : price_field;
  tax_rate : pyval;
  customFields : option (pydict (list feature));
  media : list string
}.

End Product.

(** ** bmecat.py *)

Module Bmecat.
Import Etree.

Definition _strip_ns (t : string) : string :=
  match after_brace t with
  | Some rest => rest
  | None => t
  end.

Definition _find_text (elem : element) (tag : string) : option string :=
  match find elem tag with
  | None => None
  | Some found =>
      match text found with
      | None => None
      | Some raw => PyStr.or_none (PyStr.strip raw)
      end
  end.

(** The first price element of the wanted type decides. *)
Fixpoint _find_price_in (prices : list element) (price_type : string)
  : pydict pyval :=
  match prices with
  | [] => [("net", VNone); ("currency", VNone)]
  | price :: rest =>
      if negb (bool_decide (get price "price_type" = Some price_type))
      then _find_price_in rest price_type
      else
        let amount := _find_text price "PRICE_AMOUNT" in
        let currency := _find_text price "PRICE_CURRENCY" in
        let net :=
          match amount with
          | Some a =>
              match PyFloat.of_string a with
              | Some x => VFloat x
              | None => VNone
              end
          | None => VNone
          end in
        [("net", net);
         ("currency", match currency with Some c => VStr c | None => VNone end)]
  end.

Definition _find_price (elem : element) (price_type : string) : pydict pyval :=
  _find_price_in (findall elem "ARTICLE_PRICE") price_type.

Fixpoint _find_tax_in (elem : element) (tags : list string)
  : option PyFloat.float :=
  match tags with
  | [] => None
  | tag :: rest =>
      match _find_text elem tag with
      | None => _find_tax_in elem rest
      | Some value => PyFloat.of_string value
      end
  end.

Definition tax_tags : list string := ["TAX"; "TAX_RATE"; "TAX_RATE_PERCENT"].

Definition _find_tax (elem : element) : option PyFloat.float :=
  _find_tax_in elem tax_tags.

Definition feature_entry (feature : element) : list Product.feature :=
  let name := str_or (_find_text feature "FNAME") (_find_text feature "NAME") in
  let value := str_or (_find_text feature "FVALUE") (_find_text feature "VALUE") in
  let unit := str_or (_find_text feature "FUNIT") (_find_text feature "UNIT") in
  if negb (PyStr.otruthy name) && negb (PyStr.otruthy value) then []
  else [ {| Product.fname := name; Product.fvalue := value;
            Product.funit := if PyStr.otruthy unit then unit else None |} ].

Definition _find_features (elem : element) : list Product.feature :=
  flat_map
    (fun parent_tag => flat_map feature_entry (findall_in elem parent_tag "FEATURE"))
    ["ARTICLE_FEATURES"; "PRODUCT_FEATURES"].

Definition _find_media (elem : element) : list string :=
  flat_map
    (fun mime =>
       match _find_text mime "MIME_SOURCE" with
       | Some source => if PyStr.truthy source then [source] else []
       | None => []
       end)
    (findall_in elem "MIME_INFO" "MIME").

Definition _parse_article (elem : element) (mapping : Config.MappingConfig)
  : option Product.t :=
  let product_number := _find_text elem (Config.product_number mapping) in
  let name := _find_text elem (Config.name mapping) in
  if negb (PyStr.otruthy product_number) || negb (PyStr.otruthy name) then None
  else
    let description := _find_text elem (Config.description mapping) in
    let ean := _find_text elem (Config.ean mapping) in
    let manufacturer := _find_text elem (Config.manufacturer mapping) in
    let price_info :=
      _find_price elem (Config.price_type (Config.price_selector mapping)) in
    let price_net := dict_get price_info "net" VNone in
    let currency :=
      dict_get price_info "currency"
        (VStr (Config.currency (Config.price_selector mapping))) in
    let tax_rate := _find_tax elem in
    let features := _find_features elem in
    let media := _find_media elem in
    Some {| Product.productNumber := product_number;
            Product.name := name;
            Product.description := description;
            Product.ean := ean;
            Product.manufacturer := manufacturer;
            Product.price :=
              Product.PriceDict [("net", price_net); ("currency", currency)];
            Product.tax_rate :=
              match tax_rate with Some x => VFloat x | None => VNone end;
            Product.customFields := Some [("etim", features)];
            Product.media := media |}.

(** The parser delivers the elements at their end events, each as it
    stands at that moment; every ARTICLE among them is parsed.
    [_cleanup_element], which frees the element afterwards, is part of what
    the parser delivers next and has no equation of its own here. *)
Fixpoint iter_bmecat_products (context : list element)
         (mapping : Config.MappingConfig) : list Product.t :=
  match context with
  | [] => []
  | elem :: rest =>
      (if String.eqb (_strip_ns (tag elem)) "ARTICLE" then
         match _parse_article elem mapping with
         | Some product => [product]
         | None => []
         end
       else [])
      ++ iter_bmecat_products rest mapping
  end.

End Bmecat.

(** ** Exceptions and results *)

(** The exception classes the importer tells apart: [ValueError],
    [SyncError], [httpx.HTTPError] with its subclasses, and any other. *)
Inductive exn :=
| ValueError (msg : string)
| SyncError (msg : string)
| HTTPError (msg : string)
| OtherError (msg : string).

(** [str(exc)] *)
Definition exn_str (e : exn) : string :=
  match e with
  | ValueError m | SyncError m | HTTPError m | OtherError m => m
  end.

Inductive result (A : Type) :=
| Ok (a : A)
| Raise (e : exn).
Arguments Ok {A} a.
Arguments Raise {A} e.

(** [str(n)] for an integer. *)
Definition str_of_int (n : Z) : string :=
  string_of_list_ascii
    ((if (n <? 0)%Z then [ "-"%char ] else []) ++ PyFloat.str_of_Z (Z.abs n)).

(** ** The upload payload *)

Module Payload.

Record price_entry := {
  currencyId : string;
  net : PyFloat.float;
  gross : PyFloat.float;
  linked : bool
}.

Record visibility_entry := {
  salesChannelId : string;
  visibility : Z
}.

(** The product entity sent to the remote system; [visibilities] is
    [None] when the key is not set. *)
Record t := {
  id : string;
  productNumber : string;
  name : string;
  description : option string;
  ean : option string;
  manufacturerId : option string;
  taxId : string;
  price : list price_entry;
  stock : Z;
  active : bool;
  customFields : pydict (list Product.feature);
  visibilities : option (list visibility_entry)
}.

(** The manufacturer entity. *)
Record manufacturer := {
  m_id : string;
  m_name : string
}.

(** An element of the payload list of one sync call. *)
Inductive item :=
| ProductItem (p : t)
| ManufacturerItem (m : manufacturer).

End Payload.

(** ** shopware.py *)

Module Shopware.

Record ShopwareResponse := {
  status_code : Z;
  (** [json.get("errors")], empty when missing *)
  json_errors : list string
}.

(** The table of [load_taxes]: a dictionary keyed by floats, in insertion
    order. *)
Definition tax_table : Type := list (PyFloat.float * string).

(** [taxes.get(rate)]: the entry of the key equal to [rate]. A NaN equals
    no key and finds nothing. (Python also finds a key that is the very
    object asked for; among floats this matters only for a NaN rate that is
    the same object as a NaN key, which is not told apart here.) *)
Fixpoint tax_get (taxes : tax_table) (rate : PyFloat.float) : option string :=
  match taxes with
  | [] => None
  | (k, v) :: rest => if PyFloat.eqb k rate then Some v else tax_get rest rate
  end.

(** The remote system behind the client. [_request_sync] is [_request]
    for the POST of one sync operation; [get_currency_id] and [load_taxes]
    are the client's look-ups, whose bodies play no part below. *)
Class Remote := {
  remote_state : Type;
  _request_sync :
    remote_state -> string -> list Payload.item ->
    remote_state * result ShopwareResponse;
  get_currency_id : remote_state -> string -> remote_state * result string;
  load_taxes : remote_state -> remote_state * result tax_table
}.

(** One sync operation that was posted, with how it ended. *)
Record call := {
  entity : string;
  payload : list Payload.item;
  outcome : result unit
}.

(** The client object: the remote system it talks to and, as a record of
    what happened, the sync operations posted so far (oldest first). *)
Record client_state `{Remote} := {
  remote : remote_state;
  posted : list call
}.

Definition sync_upsert `{Remote} (entity : string) (payload : list Payload.item)
           (c : client_state) : client_state * result unit :=
  match payload with
  | [] => (c, Ok tt)
  | _ =>
      let '(r, response) := _request_sync (remote c) entity payload in
      let outcome :=
        match response with
        | Raise e => Raise e
        | Ok response =>
            if (400 <=? status_code response)%Z then
              Raise (HTTPError ("Sync request failed with status "
                                  +:+ str_of_int (status_code response)))
            else
              match json_errors response with
              | _ :: _ => Raise (SyncError "Sync returned errors")
              | [] => Ok tt
              end
        end in
      ({| remote := r;
          posted := posted c ++ [ {| entity := entity; payload := payload;
                                     outcome := outcome |} ] |},
       outcome)
  end.

End Shopware.

(** ** importer.py *)

Module Importer.
Import Shopware.

Record ImportStats := {
  products_processed : Z;
  products_uploaded : Z;
  errors : Z
}.

(** What an error line carries as its item: the record that was rejected,
    or the payload that could not be uploaded. *)
Inductive error_item :=
| ItemProduct (p : Product.t)
| ItemPayload (p : Payload.t).

(** One line of errors.ndjson. *)
Record error_line := {
  item : error_item;
  reason : string
}.

(** One line of media_queue.ndjson. *)
Record media_line := {
  ml_productNumber : option string;
  ml_media : list string
}.

(** The state an import run works on: the client, the two side-channel
    files (lines in the order appended) and the statistics object. *)
Record state `{Remote} := {
  client : client_state;
  errors_ndjson : list error_line;
  media_queue_ndjson : list media_line;
  stats : ImportStats
}.

Section Updates.
Context `{Remote}.

Definition set_client (c : client_state) (s : state) : state :=
  {| client := c; errors_ndjson := errors_ndjson s;
     media_queue_ndjson := media_queue_ndjson s; stats := stats s |}.

Definition set_stats (st : ImportStats) (s : state) : state :=
  {| client := client s; errors_ndjson := errors_ndjson s;
     media_queue_ndjson := media_queue_ndjson s; stats := st |}.

(** [stats.products_processed += 1] *)
Definition bump_processed (s : state) : state :=
  set_stats {| products_processed := products_processed (stats s) + 1;
               products_uploaded := products_uploaded (stats s);
               errors := errors (stats s) |} s.

(** [stats.products_uploaded += n] *)
Definition bump_uploaded (n : nat) (s : state) : state :=
  set_stats {| products_processed := products_processed (stats s);
               products_uploaded := products_uploaded (stats s) + Z.of_nat n;
               errors := errors (stats s) |} s.

(** [stats.errors += 1] *)
Definition bump_errors (s : state) : state :=
  set_stats {| products_processed := products_processed (stats s);
               products_uploaded := products_uploaded (stats s);
               errors := errors (stats s) + 1 |} s.

(** [append_ndjson(line, error_path)] *)
Definition append_error (line : error_line) (s : state) : state :=
  {| client := client s; errors_ndjson := errors_ndjson s ++ [line];
     media_queue_ndjson := media_queue_ndjson s; stats := stats s |}.

(** [append_ndjson(line, media_queue_path)] *)
Definition append_media (line : media_line) (s : state) : state :=
  {| client := client s; errors_ndjson := errors_ndjson s;
     media_queue_ndjson := media_queue_ndjson s ++ [line]; stats := stats s |}.
End Updates.

Definition one : PyFloat.float := PyFloat.of_Z 1.
Definition hundred : PyFloat.float := PyFloat.of_Z 100.

Definition calculate_gross (net tax_rate : PyFloat.float) : PyFloat.float :=
  let rate :=
    if PyFloat.gtb tax_rate one then PyFloat.div tax_rate hundred
    else tax_rate in
  PyFloat.round2 (PyFloat.mul net (PyFloat.add one rate)).

(** [float(value)] for a field value; [None] stands for the error. *)
Definition float_of (value : pyval) : option PyFloat.float :=
  match value with
  | VNone => None
  | VFloat x => Some x
  | VStr s => PyFloat.of_string s
  end.

(** [str(value)] *)
Definition str_of (value : pyval) : string :=
  match value with
  | VNone => "None"
  | VFloat x => PyFloat.repr x
  | VStr s => s
  end.

(** [a or b] on optional floats. *)
Definition float_or (a b : option PyFloat.float) : option PyFloat.float :=
  match a with
  | Some x => if PyFloat.truthy x then a else b
  | None => b
  end.

Definition _resolve_tax_rate (raw_rate : pyval) (settings : Config.Settings)
  : PyFloat.float :=
  match raw_rate with
  | VNone => Config.default_rate (Config.tax settings)
  | _ =>
      match float_of raw_rate with
      | None => Config.default_rate (Config.tax settings)
      | Some rate =>
          let rate_percent :=
            if PyFloat.leb rate one then PyFloat.mul rate hundred else rate in
          let m := Config.tax_mapping (Config.tax settings) in
          let mapped :=
            float_or (float_or (m !! str_of raw_rate) (m !! PyFloat.repr rate))
                     (m !! PyFloat.repr rate_percent) in
          match mapped with
          | Some x => x
          | None => rate_percent
          end
      end
  end.

Definition _coerce_float (value : pyval) : option PyFloat.float :=
  match value with
  | VNone => None
  | _ => float_of value
  end.

Definition _stable_uuid (prefix value : string) : string :=
  Uuid.to_string (Uuid.uuid5 Uuid.NAMESPACE_URL (prefix +:+ ":" +:+ value)).

Definition _build_product_payload (product : Product.t)
           (settings : Config.Settings) (currency_id : string)
           (tax_cache : tax_table) : result (option Payload.t) :=
  let product_number := Product.productNumber product in
  let name := Product.name product in
  match product_number, name with
  | Some product_number, Some name =>
      if negb (PyStr.truthy product_number) || negb (PyStr.truthy name)
      then Ok None
      else
        match Product.price_dict (Product.price product) with
        | None => Raise (OtherError "AttributeError")
        | Some price =>
        match _coerce_float (dict_get price "net" VNone) with
        | None => Ok None
        | Some price_net =>
            let tax_rate := _resolve_tax_rate (Product.tax_rate product) settings in
            let tax_id := tax_get tax_cache tax_rate in
            if negb (PyStr.otruthy tax_id) then
              Raise (ValueError ("Tax rate " +:+ PyFloat.repr tax_rate
                                   +:+ " not available in Shopware."))
            else
              let manufacturer := Product.manufacturer product in
              let manufacturer_id :=
                match manufacturer with
                | Some m =>
                    if PyStr.truthy m then Some (_stable_uuid "manufacturer" m)
                    else None
                | None => None
                end in
              let sales_channel_id :=
                Config.sales_channel_id (Config.shopware settings) in
              Ok (Some
                {| Payload.id := _stable_uuid "product" product_number;
                   Payload.productNumber := product_number;
                   Payload.name := name;
                   Payload.description := Product.description product;
                   Payload.ean := Product.ean product;
                   Payload.manufacturerId := manufacturer_id;
                   Payload.taxId := default "" tax_id;
                   Payload.price :=
                     [ {| Payload.currencyId := currency_id;
                          Payload.net := price_net;
                          Payload.gross := calculate_gross price_net tax_rate;
                          Payload.linked := true |} ];
                   Payload.stock := 0;
                   Payload.active := true;
                   Payload.customFields := default [] (Product.customFields product);
                   Payload.visibilities :=
                     match sales_channel_id with
                     | Some sc =>
                         if PyStr.truthy sc then
                           Some [ {| Payload.salesChannelId := sc;
                                     Payload.visibility :=
                                       match Config.default_visibility
                                               (Config.shopware settings) with
                                       | Some v => if (v =? 0)%Z then 30%Z else v
                                       | None => 30%Z
                                       end |} ]
                         else None
                     | None => None
                     end |})
        end
        end
  | _, _ => Ok None
  end.

(** The exceptions [_send_batch] handles. *)
Definition caught (e : exn) : bool :=
  match e with
  | SyncError _ | HTTPError _ => true
  | _ => false
  end.

Definition inspect {A} (a : A) : {b | a = b} := exist _ a eq_refl.

Equations? _send_batch `{Remote} (batch : list Payload.t) (s : state)
  : state * result unit by wf (length batch) lt :=
  _send_batch batch s
    with inspect (sync_upsert "product" (map Payload.ProductItem batch) (client s)) := {
    | exist _ (c, Ok _) _ =>
        (bump_uploaded (length batch) (set_client c s), Ok tt)
    | exist _ (c, Raise exc) Hcall with caught exc := {
      | false => (set_client c s, Raise exc)
      | true with inspect (length batch =? 1)%nat := {
        | exist _ true _ =>
            match batch with
            | first :: _ =>
                (append_error {| item := ItemPayload first; reason := exn_str exc |}
                   (bump_errors (set_client c s)), Ok tt)
            | [] => (set_client c s, Raise (OtherError "IndexError"))
            end
        | exist _ false Hlen =>
            let mid := (length batch / 2)%nat in
            match _send_batch (take mid batch) (set_client c s) with
            | (s1, Ok _) => _send_batch (drop mid batch) s1
            | (s1, Raise e) => (s1, Raise e)
            end } } }.
Proof.
  all: assert (2 <= length batch) as Hge
    by (destruct batch as [|? [|? ?]];
        [discriminate Hcall | discriminate Hlen | simpl; lia]).
  all: subst mid; rewrite ?length_take, ?length_drop.
  all: change (fst (Nat.divmod (length batch) 1 0 1)) with (length batch / 2).
  all: pose proof (Nat.div_lt (length batch) 2);
    pose proof (Nat.div_str_pos (length batch) 2); lia.
Qed.

(** [_send_sync_batches], the loop over [payload] with the batch built so
    far. *)
Fixpoint _send_sync_batches_loop `{Remote} (entity : string)
         (payload batch : list Payload.item) (batch_size : Z)
         (c : client_state) : client_state * result unit :=
  match payload with
  | [] =>
      match batch with
      | [] => (c, Ok tt)
      | _ => sync_upsert entity batch c
      end
  | item :: rest =>
      let batch := batch ++ [item] in
      if (batch_size <=? Z.of_nat (length batch))%Z then
        match sync_upsert entity batch c with
        | (c', Ok _) => _send_sync_batches_loop entity rest [] batch_size c'
        | (c', Raise e) => (c', Raise e)
        end
      else _send_sync_batches_loop entity rest batch batch_size c
  end.

Definition _send_sync_batches `{Remote} (entity : string)
           (payload : list Payload.item) (batch_size : Z) (c : client_state)
  : client_state * result unit :=
  _send_sync_batches_loop entity payload [] batch_size c.

Fixpoint _collect_manufacturer_names (records : list Product.t) : gset string :=
  match records with
  | [] => ∅
  | product :: rest =>
      let names := _collect_manufacturer_names rest in
      match Product.manufacturer product with
      | Some name => if PyStr.truthy name then {[ name ]} ∪ names else names
      | None => names
      end
  end.

(** [sorted(names)] *)
Definition sorted (names : gset string) : list string :=
  merge_sort String.le (elements names).

Definition manufacturer_payload (name : string) : Payload.item :=
  Payload.ManufacturerItem
    {| Payload.m_id := _stable_uuid "manufacturer" name; Payload.m_name := name |}.

Definition _upsert_manufacturers `{Remote} (names : gset string)
           (c : client_state) : client_state * result unit :=
  _send_sync_batches "product_manufacturer"
    (map manufacturer_payload (sorted names)) 200 c.

(** The [for product in iter_ndjson(...)] loop of [import_products] with
    the batch built so far; it returns the batch left to flush. *)
Fixpoint import_loop `{Remote} (records : list Product.t)
         (settings : Config.Settings) (currency_id : string)
         (tax_cache : tax_table) (batch_size : Z)
         (batch : list Payload.t) (s : state)
  : state * result (list Payload.t) :=
  match records with
  | [] => (s, Ok batch)
  | product :: rest =>
      let s := bump_processed s in
      match _build_product_payload product settings currency_id tax_cache with
      | Raise e => (s, Raise e)
      | Ok None =>
          let s := bump_errors s in
          let s :=
            append_error {| item := ItemProduct product;
                            reason := "missing_required_fields" |} s in
          import_loop rest settings currency_id tax_cache batch_size batch s
      | Ok (Some payload) =>
          let s :=
            match Product.media product with
            | _ :: _ =>
                append_media
                  {| ml_productNumber := Product.productNumber product;
                     ml_media := Product.media product |} s
            | [] => s
            end in
          let batch := batch ++ [payload] in
          if (batch_size <=? Z.of_nat (length batch))%Z then
            match _send_batch batch s with
            | (s', Ok _) =>
                import_loop rest settings currency_id tax_cache batch_size [] s'
            | (s', Raise e) => (s', Raise e)
            end
          else
            import_loop rest settings currency_id tax_cache batch_size batch s
      end
  end.

Definition zero_stats : ImportStats :=
  {| products_processed := 0; products_uploaded := 0; errors := 0 |}.

(** [import_products]; [records] is the content of the record store, read
    once for the manufacturer names and once for the products. Logging and
    [client.close()] leave no trace in the state. *)
Definition import_products `{Remote} (records : list Product.t)
           (settings : Config.Settings) (batch_size : Z) (s : state)
  : state * result ImportStats :=
  let s := set_stats zero_stats s in
  let '(r, currency_id) :=
    get_currency_id (remote (client s))
      (Config.currency (Config.price_selector (Config.mapping settings))) in
  let s := set_client {| remote := r; posted := posted (client s) |} s in
  match currency_id with
  | Raise e => (s, Raise e)
  | Ok currency_id =>
      let '(r, tax_cache) := load_taxes (remote (client s)) in
      let s := set_client {| remote := r; posted := posted (client s) |} s in
      match tax_cache with
      | Raise e => (s, Raise e)
      | Ok tax_cache =>
          let manufacturer_names := _collect_manufacturer_names records in
          let '(c, upserted) := _upsert_manufacturers manufacturer_names (client s) in
          let s := set_client c s in
          match upserted with
          | Raise e => (s, Raise e)
          | Ok _ =>
              match import_loop records settings currency_id tax_cache
                      batch_size [] s with
              | (s, Raise e) => (s, Raise e)
              | (s, Ok []) => (s, Ok (stats s))
              | (s, Ok batch) =>
                  match _send_batch batch s with
                  | (s, Ok _) => (s, Ok (stats s))
                  | (s, Raise e) => (s, Raise e)
                  end
              end
          end
      end
  end.

End Importer.

(** ** Decidable equality of payloads *)

#[global] Instance spec_float_eq_dec : EqDecision spec_float.
Proof. solve_decision. Defined.
#[global] Instance pyval_eq_dec : EqDecision pyval.
Proof. solve_decision. Defined.
#[global] Instance exn_eq_dec : EqDecision exn.
Proof. solve_decision. Defined.
#[global] Instance feature_eq_dec : EqDecision Product.feature.
Proof. solve_decision. Defined.
#[global] Instance price_entry_eq_dec : EqDecision Payload.price_entry.
Proof. solve_decision. Defined.
#[global] Instance visibility_entry_eq_dec : EqDecision Payload.visibility_entry.
Proof. solve_decision. Defined.
#[global] Instance payload_eq_dec : EqDecision Payload.t.
Proof. solve_decision. Defined.
#[global] Instance manufacturer_eq_dec : EqDecision Payload.manufacturer.
Proof. solve_decision. Defined.
#[global] Instance item_eq_dec : EqDecision Payload.item.
Proof. solve_decision. Defined.

(** ** Sample data *)

Module Sample.
Import Etree.

(** The float a decimal literal denotes. *)
Definition lit (s : string) : PyFloat.float :=
  default S754_nan (PyFloat.of_string s).

Definition leaf (tag value : string) : element :=
  Element tag [] (Some value) [].

Definition node (tag : string) (children : list element) : element :=
  Element tag [] None children.

(** The mapping of the repository's parsing test. *)
Definition mapping : Config.MappingConfig :=
  {| Config.product_number := "SUPPLIER_PID";
     Config.name := "DESCRIPTION_SHORT";
     Config.description := "DESCRIPTION_LONG";
     Config.ean := "INTERNATIONAL_PID";
     Config.manufacturer := "MANUFACTURER_NAME";
     Config.price_selector :=
       {| Config.price_type := "net_list"; Config.currency := "EUR" |} |}.

Definition price_element (children : list element) : element :=
  node "ARTICLE_ORDER_DETAILS"
    [ node "ARTICLE_PRICE_DETAILS"
        [ Element "ARTICLE_PRICE" [("price_type", "net_list")] None children ] ].

Definition details : element :=
  node "ARTICLE_DETAILS"
    [ leaf "DESCRIPTION_SHORT" "Test Product";
      leaf "DESCRIPTION_LONG" "Long Description";
      leaf "INTERNATIONAL_PID" "4012345678901";
      leaf "MANUFACTURER_NAME" "Acme" ].

(** The article of the parsing test. *)
Definition article : element :=
  node "ARTICLE"
    [ leaf "SUPPLIER_PID" " ABC123 ";
      details;
      price_element [ leaf "PRICE_AMOUNT" "10.00"; leaf "PRICE_CURRENCY" "EUR" ];
      leaf "TAX" "0.19" ].

(** The same article with a price that names no currency. *)
Definition article_without_currency : element :=
  node "ARTICLE"
    [ leaf "SUPPLIER_PID" "ABC123";
      details;
      price_element [ leaf "PRICE_AMOUNT" "10.00" ];
      leaf "TAX" "0.19" ].

(** An article with no price element at all. *)
Definition article_without_price : element :=
  node "ARTICLE" [ leaf "SUPPLIER_PID" "ABC123"; details ].

(** An article whose product number is blank. *)
Definition article_without_number : element :=
  node "{urn:bmecat}ARTICLE" [ leaf "SUPPLIER_PID" "   "; details ].

(** An article whose first tax tag does not hold a number. *)
Definition article_with_two_taxes : element :=
  node "ARTICLE"
    [ leaf "SUPPLIER_PID" "ABC123"; details;
      leaf "TAX" "abc"; leaf "TAX_RATE" "19" ].

Definition shopware : Config.ShopwareConfig :=
  {| Config.base_url := "https://shop.example";
     Config.client_id := None;
     Config.client_secret := None;
     Config.token := Some "token";
     Config.sales_channel_id := None;
     Config.default_visibility := None |}.

Definition settings (tax_mapping : gmap string PyFloat.float) : Config.Settings :=
  {| Config.source_name := "bmecat";
     Config.mapping := mapping;
     Config.shopware := shopware;
     Config.tax := {| Config.default_rate := lit "19";
                      Config.tax_mapping := tax_mapping |} |}.

Definition taxes : Shopware.tax_table := [(lit "19", "tax-19"); (lit "7", "tax-7")].

(** A record with the given product number, name, manufacturer and net price. *)
Definition record (number name : option string) (manufacturer : option string)
           (net : pyval) : Product.t :=
  {| Product.productNumber := number;
     Product.name := name;
     Product.description := None;
     Product.ean := None;
     Product.manufacturer := manufacturer;
     Product.price := Product.PriceDict [("net", net); ("currency", VStr "EUR")];
     Product.tax_rate := VFloat (lit "0.19");
     Product.customFields := Some [("etim", [])];
     Product.media := [] |}.

(** The payload built for product number [number]. *)
Definition payload (number : string) : Payload.t :=
  {| Payload.id := Importer._stable_uuid "product" number;
     Payload.productNumber := number;
     Payload.name := "Test Product";
     Payload.description := None;
     Payload.ean := None;
     Payload.manufacturerId := None;
     Payload.taxId := "tax-19";
     Payload.price :=
       [ {| Payload.currencyId := "cur-eur"; Payload.net := lit "10.0";
            Payload.gross := lit "11.9"; Payload.linked := true |} ];
     Payload.stock := 0;
     Payload.active := true;
     Payload.customFields := [];
     Payload.visibilities := None |}.

(** A remote system that rejects exactly the sync calls containing the
    payload of product number [bad], knows one currency and two taxes. *)
Definition remote_rejecting (bad : string) : Shopware.Remote :=
  {| Shopware.remote_state := unit;
     Shopware._request_sync := fun r _ items =>
       (r, Ok {| Shopware.status_code :=
                   if bool_decide (Payload.ProductItem (payload bad) ∈ items)
                   then 400%Z else 200%Z;
                 Shopware.json_errors := [] |});
     Shopware.get_currency_id := fun r _ => (r, Ok "cur-eur");
     Shopware.load_taxes := fun r => (r, Ok taxes) |}.

(** A remote system that rejects exactly the sync calls containing the
    manufacturer named [bad], knows one currency and two taxes. *)
Definition remote_rejecting_manufacturer (bad : string) : Shopware.Remote :=
  {| Shopware.remote_state := unit;
     Shopware._request_sync := fun r _ items =>
       (r, Ok {| Shopware.status_code :=
                   if bool_decide (Importer.manufacturer_payload bad ∈ items)
                   then 400%Z else 200%Z;
                 Shopware.json_errors := [] |});
     Shopware.get_currency_id := fun r _ => (r, Ok "cur-eur");
     Shopware.load_taxes := fun r => (r, Ok taxes) |}.

(** A remote system that accepts every sync call, has two taxes and does
    not know the currency asked for. *)
Definition remote_without_currency : Shopware.Remote :=
  {| Shopware.remote_state := unit;
     Shopware._request_sync := fun r _ _ =>
       (r, Ok {| Shopware.status_code := 200%Z; Shopware.json_errors := [] |});
     Shopware.get_currency_id := fun r iso_code =>
       (r, Raise (ValueError ("Currency " +:+ iso_code +:+ " not found.")));
     Shopware.load_taxes := fun r => (r, Ok taxes) |}.

Definition start (R : Shopware.Remote) (r : @Shopware.remote_state R)
  : @Importer.state R :=
  {| Importer.client := {| Shopware.remote := r; Shopware.posted := [] |};
     Importer.errors_ndjson := [];
     Importer.media_queue_ndjson := [];
     Importer.stats := Importer.zero_stats |}.

(** The product number made of [n] letters after a first one. *)
Definition number_of_length (n : nat) : string :=
  string_of_list_ascii (repeat "x"%char (S n)).

End Sample.

(** ** Vocabulary of the properties *)

Module Spec.

(** The first descendant of [elem] named [tag] has text, and [value] is
    that text trimmed and is not empty. *)
Definition has_text (elem : Etree.element) (tag value : string) : Prop :=
  exists found raw,
    Etree.find elem tag = Some found
    /\ Etree.text found = Some raw
    /\ PyStr.strip raw = value
    /\ value <> "".

(** The field is there and is not empty. *)
Definition present (field : option string) : Prop :=
  exists value, field = Some value /\ value <> "".

(** The record has a net price that is a number or reads as one. *)
Definition net_price (product : Product.t) : option PyFloat.float :=
  match Product.price product with
  | Product.PriceDict price =>
      match dict_lookup price "net" with
      | Some (VFloat x) => Some x
      | Some (VStr s) => PyFloat.of_string s
      | _ => None
      end
  | _ => None
  end.

(** Product number, name and a net price are all there. *)
Definition complete (product : Product.t) : Prop :=
  present (Product.productNumber product)
  /\ present (Product.name product)
  /\ is_Some (net_price product).

(** Product number and name are both there. *)
Definition named (product : Product.t) : Prop :=
  present (Product.productNumber product)
  /\ present (Product.name product).

(** Product number and name are there and the key [price] holds something
    that is not a dictionary, so that the net price cannot be asked for. *)
Definition price_unreadable (product : Product.t) : Prop :=
  named product /\ Product.price product = Product.PriceOther.

(** The tax table has an entry with a non-empty id for the rate. *)
Definition tax_known (taxes : Shopware.tax_table) (rate : PyFloat.float) : Prop :=
  exists tax_id, Shopware.tax_get taxes rate = Some tax_id /\ tax_id <> "".

(** Counter-wise order of statistics. *)
Definition stats_le (a b : Importer.ImportStats) : Prop :=
  (Importer.products_processed a <= Importer.products_processed b)%Z
  /\ (Importer.products_uploaded a <= Importer.products_uploaded b)%Z
  /\ (Importer.errors a <= Importer.errors b)%Z.

(** The bulk upsert of products fails, with an exception [_send_batch]
    handles, exactly when the group it is given contains [bad]. *)
Definition rejects_exactly `{Shopware.Remote} (bad : Payload.t) : Prop :=
  forall (c : Shopware.client_state) (group : list Payload.item),
    (Payload.ProductItem bad ∈ group ->
     exists e, Importer.caught e = true
               /\ (Shopware.sync_upsert "product" group c).2 = Raise e)
    /\ (Payload.ProductItem bad ∉ group ->
        (Shopware.sync_upsert "product" group c).2 = Ok tt).

(** The call ended without an error. *)
Definition succeeded (c : Shopware.call) : Prop :=
  Shopware.outcome c = Ok tt.

(** [chunk_run entity size items calls r]: sending [items] in groups of
    [size] posts [calls] and ends with [r]. Full groups go out in order,
    each in one call; the first call that fails is the last one and its
    error is the result; what is left at the end goes out in a last,
    shorter call. *)
Inductive chunk_run (entity : string) (size : Z)
  : list Payload.item -> list Shopware.call -> result unit -> Prop :=
| chunk_run_done : chunk_run entity size [] [] (Ok tt)
| chunk_run_last (items : list Payload.item) (r : result unit) :
    items <> [] -> (Z.of_nat (length items) < size)%Z ->
    chunk_run entity size items
      [ {| Shopware.entity := entity; Shopware.payload := items;
           Shopware.outcome := r |} ] r
| chunk_run_fail (items rest : list Payload.item) (e : exn) :
    Z.of_nat (length items) = size ->
    chunk_run entity size (items ++ rest)
      [ {| Shopware.entity := entity; Shopware.payload := items;
           Shopware.outcome := Raise e |} ] (Raise e)
| chunk_run_step (items rest : list Payload.item)
                 (calls : list Shopware.call) (r : result unit) :
    Z.of_nat (length items) = size ->
    chunk_run entity size rest calls r ->
    chunk_run entity size (items ++ rest)
      ({| Shopware.entity := entity; Shopware.payload := items;
          Shopware.outcome := Ok tt |} :: calls) r.

(** The upload strategy of the specification, read for a group of
    manufacturers: one call for the group; when the call fails and the group
    has more than one item, the group is split in half and each half is sent
    in the same way, the first before the second; the failure of a group of
    one item is not set aside but is the result. [fuel] bounds the depth of
    the halving. *)
Fixpoint bisecting_upsert_within `{Shopware.Remote} (fuel : nat)
         (entity : string) (group : list Payload.item)
         (c : Shopware.client_state) : Shopware.client_state * result unit :=
  match Shopware.sync_upsert entity group c with
  | (c, Ok _) => (c, Ok tt)
  | (c, Raise e) =>
      match fuel with
      | O => (c, Raise e)
      | S fuel =>
          if (length group <=? 1)%nat then (c, Raise e)
          else
            let mid := (length group / 2)%nat in
            match bisecting_upsert_within fuel entity (take mid group) c with
            | (c, Ok _) =>
                bisecting_upsert_within fuel entity (drop mid group) c
            | (c, Raise e) => (c, Raise e)
            end
      end
  end.

(** A group of n items is halved to a depth of less than n. *)
Definition bisecting_upsert `{Shopware.Remote} (entity : string)
           (group : list Payload.item) (c : Shopware.client_state)
  : Shopware.client_state * result unit :=
  bisecting_upsert_within (length group) entity group c.

(** A byte value. *)
Definition is_byte (b : Z) : Prop := (0 <= b < 256)%Z.

End Spec.

(** ** shopware.py: authentication and the look-ups of the client *)

Module Client.

(** An entity of a search result, with the keys the client reads: [None]
    is a missing key; a tax rate is the JSON number under [taxRate]. *)
Record entity_json := {
  e_id : option string;
  e_taxRate : option PyFloat.float
}.

(** The JSON object of a response, with the keys the client reads; an
    empty body is the empty object. *)
Record body := {
  data : option (list entity_json);
  errors : list string
}.

Record response := {
  r_status_code : Z;
  r_json : body
}.

(** The [json] argument of a request. For a sync operation the key of the
    operation, which is drawn at random, is left out. *)
Inductive request_body :=
| SearchBody (field value : string) (limit : Z)
| LimitBody (limit : Z)
| SyncBody (entity : string) (payload : list Payload.item).

(** The HTTP connection of the client. [fetch_token] is the POST of the
    client credentials to /api/oauth/token with [raise_for_status] and the
    [access_token] of the answer; [request] is [self._client.request] with
    method, path, bearer token and body, followed by the decoding of the
    answer. *)
Class Http := {
  http_state : Type;
  fetch_token : http_state -> string -> string -> http_state * result string;
  request :
    http_state -> string -> string -> string -> request_body ->
    http_state * result response
}.

(** The attributes of a [ShopwareClient]; the dictionaries are in
    insertion order. *)
Record t `{Http} := {
  http : http_state;
  config : Config.ShopwareConfig;
  _token : option string;
  _currency_cache : pydict string;
  _tax_cache : Shopware.tax_table
}.

(** [ShopwareClient(config)] over a connection. *)
Definition init `{Http} (config : Config.ShopwareConfig) (h : http_state) : t :=
  {| http := h; config := config; _token := Config.token config;
     _currency_cache := []; _tax_cache := [] |}.

Definition set_http `{Http} (h : http_state) (c : t) : t :=
  {| http := h; config := config c; _token := _token c;
     _currency_cache := _currency_cache c; _tax_cache := _tax_cache c |}.

Definition set_token `{Http} (token : string) (c : t) : t :=
  {| http := http c; config := config c; _token := Some token;
     _currency_cache := _currency_cache c; _tax_cache := _tax_cache c |}.

Definition set_currency_cache `{Http} (cache : pydict string) (c : t) : t :=
  {| http := http c; config := config c; _token := _token c;
     _currency_cache := cache; _tax_cache := _tax_cache c |}.

Definition set_tax_cache `{Http} (cache : Shopware.tax_table) (c : t) : t :=
  {| http := http c; config := config c; _token := _token c;
     _currency_cache := _currency_cache c; _tax_cache := cache |}.

(** [d[key] = value] on a dictionary with string keys. *)
Fixpoint dict_set {V} (d : pydict V) (key : string) (value : V) : pydict V :=
  match d with
  | [] => [(key, value)]
  | (k, v) :: rest =>
      if String.eqb k key then (k, value) :: rest
      else (k, v) :: dict_set rest key value
  end.

(** Whether the key [k] of the table is the key [rate] that is being set: a
    dictionary takes two keys for one when they are the same object or are
    equal. The rates [load_taxes] sets are the JSON numbers of one answer,
    and the decoder hands out one and the same object for every NaN it
    reads: two NaN rates are one key although they are not equal. *)
Definition same_key (k rate : PyFloat.float) : bool :=
  match k, rate with
  | S754_nan, S754_nan => true
  | _, _ => PyFloat.eqb k rate
  end.

(** [taxes[rate] = tax_id] in [load_taxes]: a key that is [rate] keeps its
    place and gets the new value; otherwise the entry is appended. *)
Fixpoint tax_set (taxes : Shopware.tax_table) (rate : PyFloat.float)
         (tax_id : string) : Shopware.tax_table :=
  match taxes with
  | [] => [(rate, tax_id)]
  | (k, v) :: rest =>
      if same_key k rate then (k, tax_id) :: rest
      else (k, v) :: tax_set rest rate tax_id
  end.

Definition _get_token `{Http} (c : t) : t * result string :=
  if PyStr.otruthy (_token c) then (c, Ok (default "" (_token c)))
  else if negb (PyStr.otruthy (Config.client_id (config c)))
          || negb (PyStr.otruthy (Config.client_secret (config c)))
  then (c, Raise (ValueError
                    "Shopware auth requires token or client credentials."))
  else
    let '(h, fetched) :=
      fetch_token (http c)
        (default "" (Config.client_id (config c)))
        (default "" (Config.client_secret (config c))) in
    match fetched with
    | Raise e => (set_http h c, Raise e)
    | Ok token => (set_token token (set_http h c), Ok token)
    end.

Definition _request `{Http} (c : t) (method path : string)
           (json : request_body) : t * result response :=
  let '(c, token) := _get_token c in
  match token with
  | Raise e => (c, Raise e)
  | Ok token =>
      let '(h, answered) := request (http c) method path token json in
      (set_http h c, answered)
  end.

Definition get_currency_id `{Http} (c : t) (iso_code : string)
  : t * result string :=
  match dict_lookup (_currency_cache c) iso_code with
  | Some currency_id => (c, Ok currency_id)
  | None =>
      let '(c, answered) :=
        _request c "POST" "/api/search/currency"
          (SearchBody "isoCode" iso_code 1) in
      match answered with
      | Raise e => (c, Raise e)
      | Ok response =>
          match default [] (data (r_json response)) with
          | [] => (c, Raise (ValueError
                               ("Currency " +:+ iso_code +:+ " not found.")))
          | first :: _ =>
              match e_id first with
              | None => (c, Raise (OtherError "KeyError"))
              | Some currency_id =>
                  (set_currency_cache
                     (dict_set (_currency_cache c) iso_code currency_id) c,
                   Ok currency_id)
              end
          end
      end
  end.

(** The loop of [load_taxes] over the entities of the answer; what it has
    put into the cache stays there when a later entity fails. *)
Fixpoint fill_taxes (items : list entity_json) (cache : Shopware.tax_table)
  : Shopware.tax_table * result unit :=
  match items with
  | [] => (cache, Ok tt)
  | item :: rest =>
      match e_taxRate item with
      | None => (cache, Raise (OtherError "KeyError"))
      | Some rate =>
          match e_id item with
          | None => (cache, Raise (OtherError "KeyError"))
          | Some tax_id => fill_taxes rest (tax_set cache rate tax_id)
          end
      end
  end.

Definition load_taxes `{Http} (c : t) : t * result Shopware.tax_table :=
  match _tax_cache c with
  | _ :: _ => (c, Ok (_tax_cache c))
  | [] =>
      let '(c, answered) := _request c "POST" "/api/search/tax" (LimitBody 500) in
      match answered with
      | Raise e => (c, Raise e)
      | Ok response =>
          let '(cache, filled) :=
            fill_taxes (default [] (data (r_json response))) (_tax_cache c) in
          match filled with
          | Raise e => (set_tax_cache cache c, Raise e)
          | Ok _ => (set_tax_cache cache c, Ok cache)
          end
      end
  end.

Definition get_tax_id `{Http} (c : t) (tax_rate : PyFloat.float)
  : t * result string :=
  let '(c, loaded) := load_taxes c in
  match loaded with
  | Raise e => (c, Raise e)
  | Ok taxes =>
      match Shopware.tax_get taxes tax_rate with
      | None => (c, Raise (ValueError ("Tax rate " +:+ PyFloat.repr tax_rate
                                         +:+ " not found in Shopware.")))
      | Some tax_id => (c, Ok tax_id)
      end
  end.

Definition get_manufacturer_id `{Http} (c : t) (name : string)
  : t * result (option string) :=
  let '(c, answered) :=
    _request c "POST" "/api/search/product-manufacturer"
      (SearchBody "name" name 1) in
  match answered with
  | Raise e => (c, Raise e)
  | Ok response =>
      match default [] (data (r_json response)) with
      | [] => (c, Ok None)
      | first :: _ =>
          match e_id first with
          | None => (c, Raise (OtherError "KeyError"))
          | Some manufacturer_id => (c, Ok (Some manufacturer_id))
          end
      end
  end.

(** The client as the remote system of the importer: [sync_upsert] posts
    its operation through [_request]. *)
Definition remote `{Http} : Shopware.Remote :=
  {| Shopware.remote_state := t;
     Shopware._request_sync := fun c entity payload =>
       let '(c, answered) :=
         _request c "POST" "/api/_action/sync" (SyncBody entity payload) in
       (c, match answered with
           | Raise e => Raise e
           | Ok response =>
               Ok {| Shopware.status_code := r_status_code response;
                     Shopware.json_errors := errors (r_json response) |}
           end);
     Shopware.get_currency_id := get_currency_id;
     Shopware.load_taxes := load_taxes |}.

End Client.

(** ** cli.py *)

Module Cli.

(** How a command ends: it returns, it leaves through [sys.exit], or an
    exception escapes it. *)
Inductive ending :=
| Returned
| SystemExit (code : Z)
| Uncaught (e : exn).

(** The line the import commands print. *)
Definition summary (stats : Importer.ImportStats) : string :=
  "Processed=" +:+ str_of_int (Importer.products_processed stats)
  +:+ " uploaded=" +:+ str_of_int (Importer.products_uploaded stats)
  +:+ " errors=" +:+ str_of_int (Importer.errors stats).

(** [shopware_import_cmd] once the settings are loaded and the path of the
    record store is known; [stdout] is what has been printed so far. *)
Definition shopware_import_cmd `{Shopware.Remote} (records : list Product.t)
           (settings : Config.Settings) (batch_size : Z)
           (s : Importer.state) (stdout : list string)
  : Importer.state * list string * ending :=
  match Importer.import_products records settings batch_size s with
  | (s, Raise e) => (s, stdout, Uncaught e)
  | (s, Ok stats) =>
      (s, stdout ++ [summary stats],
       if (Importer.errors stats =? 0)%Z then Returned else SystemExit 1)
  end.

End Cli.

(** ** Vocabulary of the further properties *)

Module Inv.

(** The list starts with a white-space code point; with [back] the list is
    a reversed string. *)
Definition starts_with_space (back : bool) (l : list ascii) : bool :=
  match l with
  | [] => false
  | c1 :: t1 =>
      PyStr.ws1 c1
      || match t1 with
         | [] => false
         | c2 :: t2 =>
             (if back then PyStr.ws2 c2 c1 else PyStr.ws2 c1 c2)
             || match t2 with
                | [] => false
                | c3 :: _ =>
                    if back then PyStr.ws3 c3 c2 c1 else PyStr.ws3 c1 c2 c3
                end
         end
  end.

(** [s] has no white space at either end. *)
Definition trimmed (s : string) : Prop :=
  starts_with_space false (list_ascii_of_string s) = false
  /\ starts_with_space true (rev (list_ascii_of_string s)) = false.

(** A text field as [_find_text] delivers it: [None], or a string that is
    not empty and has no white space at either end. *)
Definition text_field (o : option string) : Prop :=
  match o with
  | None => True
  | Some s => s <> "" /\ trimmed s
  end.

(** A feature entry has a name or a value, and no empty field. *)
Definition feature_ok (f : Product.feature) : Prop :=
  (Spec.present (Product.fname f) \/ Spec.present (Product.fvalue f))
  /\ text_field (Product.fname f)
  /\ text_field (Product.fvalue f)
  /\ text_field (Product.funit f).

(** The shape of a record that comes out of the extractor. *)
Definition extracted (p : Product.t) : Prop :=
  Spec.present (Product.productNumber p)
  /\ Spec.present (Product.name p)
  /\ Forall text_field
       [Product.productNumber p; Product.name p; Product.description p;
        Product.ean p; Product.manufacturer p]
  /\ (exists net currency,
         Product.price p = Product.PriceDict [("net", net); ("currency", currency)]
         /\ (net = VNone \/ exists x, net = VFloat x)
         /\ (currency = VNone \/ exists c, currency = VStr c /\ c <> ""))
  /\ (Product.tax_rate p = VNone \/ exists x, Product.tax_rate p = VFloat x)
  /\ (exists features,
         Product.customFields p = Some [("etim", features)]
         /\ Forall feature_ok features)
  /\ Forall (fun source => source <> "") (Product.media p).

(** The element is one the extractor parses. *)
Definition is_article (elem : Etree.element) : bool :=
  String.eqb (Bmecat._strip_ns (Etree.tag elem)) "ARTICLE".

(** A lower-case hexadecimal digit. *)
Definition is_hex_digit (c : ascii) : bool :=
  let n := PyStr.code c in
  ((48 <=? n) && (n <=? 57)) || ((97 <=? n) && (n <=? 102)).

(** One character against one character of a pattern: [x] stands for a
    hexadecimal digit, [y] for one of 8, 9, a, b, anything else for itself. *)
Definition char_matches (p c : ascii) : bool :=
  if Ascii.eqb p "x" then is_hex_digit c
  else if Ascii.eqb p "y" then
    Ascii.eqb c "8" || Ascii.eqb c "9" || Ascii.eqb c "a" || Ascii.eqb c "b"
  else Ascii.eqb p c.

Fixpoint matches (pattern l : list ascii) : bool :=
  match pattern, l with
  | [], [] => true
  | p :: pattern, c :: l => char_matches p c && matches pattern l
  | _, _ => false
  end.

(** The text of a version-5 UUID of the RFC 4122 variant. *)
Definition uuid5_pattern : string := "xxxxxxxx-xxxx-5xxx-yxxx-xxxxxxxxxxxx".

Definition uuid5_text (s : string) : Prop :=
  matches (list_ascii_of_string uuid5_pattern) (list_ascii_of_string s) = true.

(** The entity has the tax rate [q] (as Python compares floats). *)
Definition has_rate (q : PyFloat.float) (item : Client.entity_json) : bool :=
  match Client.e_taxRate item with
  | Some rate => PyFloat.eqb rate q
  | None => false
  end.

(** The items of the calls that succeeded. *)
Definition uploaded_items (calls : list Shopware.call) : list Payload.item :=
  flat_map
    (fun c =>
       match Shopware.outcome c with
       | Ok _ => Shopware.payload c
       | Raise _ => []
       end) calls.

(** The payloads that error lines report. *)
Definition rejected_items (lines : list Importer.error_line)
  : list Payload.item :=
  flat_map
    (fun l =>
       match Importer.item l with
       | Importer.ItemPayload p => [Payload.ProductItem p]
       | Importer.ItemProduct _ => []
       end) lines.

(** The records that error lines report. *)
Definition rejected_records (lines : list Importer.error_line)
  : list Product.t :=
  flat_map
    (fun l =>
       match Importer.item l with
       | Importer.ItemProduct r => [r]
       | Importer.ItemPayload _ => []
       end) lines.

(** What a stretch of a run from [s] to [s'] has added: the calls posted,
    the lines appended to the error file and to the media queue, and the
    counters moved by as much. *)
Definition extends `{Shopware.Remote} (s s' : Importer.state)
           (calls : list Shopware.call) (lines : list Importer.error_line)
           (media : list Importer.media_line) : Prop :=
  Shopware.posted (Importer.client s')
  = Shopware.posted (Importer.client s) ++ calls
  /\ Importer.errors_ndjson s' = Importer.errors_ndjson s ++ lines
  /\ Importer.media_queue_ndjson s' = Importer.media_queue_ndjson s ++ media
  /\ Importer.products_uploaded (Importer.stats s')
     = (Importer.products_uploaded (Importer.stats s)
        + Z.of_nat (length (uploaded_items calls)))%Z
  /\ Importer.errors (Importer.stats s')
     = (Importer.errors (Importer.stats s) + Z.of_nat (length lines))%Z.

(** An error line of [_send_batch] for a payload of [batch]. *)
Definition upload_error (batch : list Payload.t) (l : Importer.error_line)
  : Prop :=
  exists p e,
    Importer.item l = Importer.ItemPayload p
    /\ p ∈ batch
    /\ Importer.caught e = true
    /\ Importer.reason l = exn_str e.

(** The reason an error line of the run gives: a record that was turned
    down lacks required fields, a payload was refused by the remote system
    with an error that [_send_batch] handles. *)
Definition import_error (l : Importer.error_line) : Prop :=
  match Importer.item l with
  | Importer.ItemProduct _ => Importer.reason l = "missing_required_fields"
  | Importer.ItemPayload _ =>
      exists e, Importer.caught e = true /\ Importer.reason l = exn_str e
  end.

(** A call that upserts between one and [limit] manufacturers. *)
Definition manufacturer_call (limit : nat) (c : Shopware.call) : Prop :=
  Shopware.entity c = "product_manufacturer"
  /\ 1 <= length (Shopware.payload c) <= limit.

(** The largest group of products the run sends at once. *)
Definition batch_limit (batch_size : Z) : nat := Z.to_nat (Z.max batch_size 1).

(** A call that upserts between one and [limit] products. *)
Definition product_call (limit : nat) (c : Shopware.call) : Prop :=
  Shopware.entity c = "product"
  /\ 1 <= length (Shopware.payload c) <= limit.

(** The payloads built from the records that have all required fields. *)
Definition built (settings : Config.Settings) (currency_id : string)
           (tax_cache : Shopware.tax_table) (records : list Product.t)
  : list Payload.t :=
  omap
    (fun r =>
       match Importer._build_product_payload r settings currency_id tax_cache with
       | Ok payload => payload
       | Raise _ => None
       end) records.

(** The records the payload builder turns down. *)
Definition turned_down (settings : Config.Settings) (currency_id : string)
           (tax_cache : Shopware.tax_table) (records : list Product.t)
  : list Product.t :=
  List.filter
    (fun r =>
       match Importer._build_product_payload r settings currency_id tax_cache with
       | Ok None => true
       | _ => false
       end) records.

(** The media lines of the records a payload is built from. *)
Definition media_lines (settings : Config.Settings) (currency_id : string)
           (tax_cache : Shopware.tax_table) (records : list Product.t)
  : list Importer.media_line :=
  flat_map
    (fun r =>
       match Importer._build_product_payload r settings currency_id tax_cache,
             Product.media r with
       | Ok (Some _), _ :: _ =>
           [ {| Importer.ml_productNumber := Product.productNumber r;
                Importer.ml_media := Product.media r |} ]
       | _, _ => []
       end) records.

End Inv.

(** ** Further sample data *)

Module Fixture.
Import Etree.

(** An article with a price of another type before the wanted one, and a
    third price after it. *)
Definition article_with_three_prices : element :=
  Sample.node "ARTICLE"
    [ Sample.leaf "SUPPLIER_PID" "ABC123";
      Sample.details;
      Sample.node "ARTICLE_PRICE_DETAILS"
        [ Element "ARTICLE_PRICE" [("price_type", "net_customer")] None
            [ Sample.leaf "PRICE_AMOUNT" "8.50" ];
          Element "ARTICLE_PRICE" [("price_type", "net_list")] None
            [ Sample.leaf "PRICE_AMOUNT" " 10.00 ";
              Sample.leaf "PRICE_CURRENCY" "EUR" ];
          Element "ARTICLE_PRICE" [("price_type", "net_list")] None
            [ Sample.leaf "PRICE_AMOUNT" "12.00" ] ] ].

(** A record whose tax rate is the fraction 0.01, one percent. *)
Definition record_at_one_percent : Product.t :=
  {| Product.productNumber := Some "A1";
     Product.name := Some "n";
     Product.description := None;
     Product.ean := None;
     Product.manufacturer := Some "Acme";
     Product.price := Product.PriceDict [("net", VFloat (Sample.lit "10.0"));
                                         ("currency", VStr "EUR")];
     Product.tax_rate := VFloat (Sample.lit "0.01");
     Product.customFields := Some [("etim", [])];
     Product.media := ["a.jpg"] |}.

(** A record with two media sources. *)
Definition record_with_media : Product.t :=
  {| Product.productNumber := Some "A1";
     Product.name := Some "n";
     Product.description := None;
     Product.ean := None;
     Product.manufacturer := None;
     Product.price := Product.PriceDict [("net", VFloat (Sample.lit "10.0"));
                                         ("currency", VStr "EUR")];
     Product.tax_rate := VFloat (Sample.lit "0.19");
     Product.customFields := Some [("etim", [])];
     Product.media := ["a.jpg"; "b.jpg"] |}.

(** A connection that counts the requests it gets and answers every API
    request with the same entities. *)
Definition http (entities : list Client.entity_json) : Client.Http :=
  {| Client.http_state := nat;
     Client.fetch_token := fun n _ _ => (S n, Ok "fetched");
     Client.request := fun n _ _ _ _ =>
       (S n, Ok {| Client.r_status_code := 200;
                   Client.r_json := {| Client.data := Some entities;
                                       Client.errors := [] |} |}) |}.

(** Two tax entities, the second without an id. *)
Definition broken_taxes : list Client.entity_json :=
  [ {| Client.e_id := Some "tax-19"; Client.e_taxRate := Some (Sample.lit "19") |};
    {| Client.e_id := None; Client.e_taxRate := Some (Sample.lit "7") |} ].

(** Three tax entities, the third with the rate of the first; then an
    entity whose rate is NaN. *)
Definition repeated_taxes : list Client.entity_json :=
  [ {| Client.e_id := Some "tax-19"; Client.e_taxRate := Some (Sample.lit "19") |};
    {| Client.e_id := Some "tax-7"; Client.e_taxRate := Some (Sample.lit "7") |};
    {| Client.e_id := Some "tax-19b";
       Client.e_taxRate := Some (Sample.lit "19.0") |};
    {| Client.e_id := Some "tax-nan"; Client.e_taxRate := Some S754_nan |} ].

(** Settings without a token and without client credentials. *)
Definition settings_without_credentials : Config.Settings :=
  {| Config.source_name := "bmecat";
     Config.mapping := Sample.mapping;
     Config.shopware :=
       {| Config.base_url := "https://shop.example";
          Config.client_id := Some "id";
          Config.client_secret := None;
          Config.token := None;
          Config.sales_channel_id := None;
          Config.default_visibility := None |};
     Config.tax := {| Config.default_rate := Sample.lit "19";
                      Config.tax_mapping := ∅ |} |}.

End Fixture.

(** * Properties *)

(** ** Gross prices *)

Section Gross.
Import PyFloat.
Local Open Scope Z_scope.

Lemma SFcompare_antisym (x y : float) :
  SFcompare y x = option_map CompOpp (SFcompare x y).
Proof.
  destruct x as [[]|[]| |[] m1 e1], y as [[]|[]| |[] m2 e2]; simpl; try reflexivity.
  all: rewrite (Z.compare_antisym e1 e2); destruct (e1 ?= e2); simpl; try reflexivity.
  all: rewrite (Pos.compare_cont_antisym m1 m2 Eq); simpl.
  all: destruct (Pos.compare_cont Eq m1 m2); reflexivity.
Qed.

Lemma leb_not_gtb (x y : float) : leb x y = true -> gtb x y = false.
Proof.
  unfold leb, gtb, ltb, SFleb, SFltb. rewrite (SFcompare_antisym x y).
  destruct (SFcompare x y) as [[]|]; simpl; congruence.
Qed.

Lemma div_half_even_nearest (n d : Z) :
  0 < d -> Z.abs (2 * (n - div_half_even n d * d)) <= d.
Proof.
  intros Hd. unfold div_half_even.
  pose proof (Z.div_mod n d ltac:(lia)) as Hn.
  pose proof (Z.mod_pos_bound n d Hd) as Hr.
  set (q := n / d) in *. set (r := n mod d) in *.
  assert (Hq : (q + 1) * d = d * q + d) by ring.
  assert (Hq' : q * d = d * q) by ring.
  destruct (Z.compare_spec (2 * r) d); [destruct (Z.even q)| |]; lia.
Qed.

Lemma hundredths_nearest (m : positive) (e : Z) :
  e < 0 ->
  Z.abs (2 * (Z.pos m * 100 - hundredths m e * 2 ^ (- e))) <= 2 ^ (- e).
Proof.
  intros He. unfold hundredths.
  destruct (Z.leb_spec 0 e); [lia|].
  apply div_half_even_nearest. apply Z.pow_pos_nonneg; lia.
Qed.
End Gross.

(** C3. [calculate_gross net rate] is [net * (1 + rate / 100)] for a rate
    above 1 and [net * (1 + rate)] for a rate of at most 1, in binary64
    arithmetic and rounded by [round(_, 2)]: to the nearest number of
    hundredths of the exact product (at most half a hundredth away, ties to
    even), read back as a float. [calculate_gross(10.0, 0.19)] is 11.9 and
    [calculate_gross(9.99, 0.19)] is 11.89. *)
Theorem calculate_gross_spec (net rate : PyFloat.float) :
  (PyFloat.gtb rate Importer.one = true ->
   Importer.calculate_gross net rate =
   PyFloat.round2
     (PyFloat.mul net (PyFloat.add Importer.one (PyFloat.div rate Importer.hundred))))
  /\ (PyFloat.leb rate Importer.one = true ->
      Importer.calculate_gross net rate =
      PyFloat.round2 (PyFloat.mul net (PyFloat.add Importer.one rate)))
  /\ (forall s m e, (e < 0)%Z ->
      PyFloat.round2 (S754_finite s m e) =
      PyFloat.of_ratio s (PyFloat.hundredths m e) 100
      /\ (Z.abs (2 * (Z.pos m * 100 - PyFloat.hundredths m e * 2 ^ (- e)))
          <= 2 ^ (- e))%Z)
  /\ Importer.calculate_gross (Sample.lit "10.0") (Sample.lit "0.19")
     = Sample.lit "11.9"
  /\ Importer.calculate_gross (Sample.lit "9.99") (Sample.lit "0.19")
     = Sample.lit "11.89".
Proof.
  split; [|split; [|split; [|split]]].
  - intros Hgt. unfold Importer.calculate_gross. now rewrite Hgt.
  - intros Hle. unfold Importer.calculate_gross.
    now rewrite (leb_not_gtb _ _ Hle).
  - intros s m e He. split; [reflexivity|]. now apply hundredths_nearest.
  - vm_compute. reflexivity.
  - vm_compute. reflexivity.
Qed.

Lemma calculate_gross_spec_witness :
  PyFloat.gtb (Sample.lit "19") Importer.one = true
  /\ Importer.calculate_gross (Sample.lit "10.0") (Sample.lit "19") =
     PyFloat.round2
       (PyFloat.mul (Sample.lit "10.0")
          (PyFloat.add Importer.one
             (PyFloat.div (Sample.lit "19") Importer.hundred)))
  /\ PyFloat.leb (Sample.lit "0.19") Importer.one = true
  /\ Importer.calculate_gross (Sample.lit "10.0") (Sample.lit "0.19") =
     PyFloat.round2
       (PyFloat.mul (Sample.lit "10.0")
          (PyFloat.add Importer.one (Sample.lit "0.19"))).
Proof.
  split; [vm_compute; reflexivity|].
  split;
    [apply (proj1 (calculate_gross_spec (Sample.lit "10.0") (Sample.lit "19")));
     vm_compute; reflexivity|].
  split; [vm_compute; reflexivity|].
  apply (proj1 (proj2 (calculate_gross_spec (Sample.lit "10.0") (Sample.lit "0.19"))));
    vm_compute; reflexivity.
Defined.

(** [float] reads decimal digits and white space beyond ASCII. The
    separators U+001C..U+001F, which [str.strip] removes, it cannot read. *)
Lemma float_of_string_examples :
  PyFloat.of_string "１９" = Some (PyFloat.of_Z 19)
  /\ PyFloat.of_string "٣.١٤" = PyFloat.of_string "3.14"
  /\ PyFloat.of_string " 10.5 " = PyFloat.of_string "10.5"
  /\ PyFloat.of_string "1_0" = Some (PyFloat.of_Z 10)
  /\ PyStr.strip (String (ascii_of_nat 28) "10.5") = "10.5"
  /\ PyFloat.of_string (String (ascii_of_nat 28) "10.5") = None
  /\ PyFloat.of_string "é" = None.
Proof. vm_compute. repeat split. Qed.

(** ** Extraction *)

Section Extraction.
Import Etree Bmecat.

Lemma truthy_nonempty (s : string) : PyStr.truthy s = true <-> s <> "".
Proof. destruct s; simpl; split; congruence. Qed.

Lemma otruthy_present (o : option string) :
  PyStr.otruthy o = true <-> Spec.present o.
Proof.
  unfold Spec.present. destruct o as [s|]; simpl.
  - rewrite truthy_nonempty. split.
    + intros Hs. exists s. auto.
    + intros (v & [= <-] & Hv). exact Hv.
  - split; [discriminate|]. intros (v & Hv & _). discriminate.
Qed.

Lemma _find_text_spec (elem : element) (tag value : string) :
  _find_text elem tag = Some value <-> Spec.has_text elem tag value.
Proof.
  unfold _find_text, Spec.has_text, PyStr.or_none. split.
  - destruct (find elem tag) as [found|]; [|discriminate].
    destruct (text found) as [raw|] eqn:Hraw; [|discriminate].
    destruct (PyStr.truthy (PyStr.strip raw)) eqn:Ht; [|discriminate].
    intros [= <-]. exists found, raw. apply truthy_nonempty in Ht.
    repeat split; [exact Hraw | exact Ht].
  - intros (found & raw & -> & -> & <- & Hne).
    apply truthy_nonempty in Hne. now rewrite Hne.
Qed.

Lemma _find_text_present (elem : element) (tag : string) :
  Spec.present (_find_text elem tag) <-> exists value, Spec.has_text elem tag value.
Proof.
  split.
  - intros (v & Hv & _). exists v. now apply _find_text_spec.
  - intros (v & Hv). pose proof Hv as (_ & _ & _ & _ & _ & Hne).
    exists v. split; [now apply _find_text_spec | exact Hne].
Qed.

Lemma iter_bmecat_products_app (pre post : list element) mapping :
  iter_bmecat_products (pre ++ post) mapping =
  iter_bmecat_products pre mapping ++ iter_bmecat_products post mapping.
Proof.
  induction pre as [|e pre IH]; simpl; [reflexivity|].
  now rewrite IH, app_assoc.
Qed.

Lemma _find_price_currency_key (prices : list element) (price_type : string) :
  exists v, dict_lookup (_find_price_in prices price_type) "currency" = Some v.
Proof.
  induction prices as [|price rest IH]; simpl; [eauto|].
  destruct (negb _); [exact IH | simpl; eauto].
Qed.

Lemma _find_tax_in_first (elem : element) (pre : list string) tag post value :
  Forall (fun t => _find_text elem t = None) pre ->
  _find_text elem tag = Some value ->
  _find_tax_in elem (pre ++ tag :: post) = PyFloat.of_string value.
Proof.
  intros Hpre Htag. induction Hpre as [|t pre Ht _ IH]; simpl.
  - now rewrite Htag.
  - now rewrite Ht.
Qed.

Lemma _find_tax_in_none (elem : element) (tags : list string) :
  Forall (fun t => _find_text elem t = None) tags ->
  _find_tax_in elem tags = None.
Proof.
  induction 1 as [|t tags Ht _ IH]; simpl; [reflexivity|]. now rewrite Ht.
Qed.
End Extraction.

(** C9. For an item element delivered by the parser: when the first
    descendant named by the product-number tag and the first named by the
    name tag both have text that is not empty after trimming, the item
    yields exactly one record, whose product number and name are those
    trimmed texts; when either is missing or empty, the item yields no
    record. In both cases the items before and after it are extracted as
    they would be without it. *)
Theorem extraction_of_required_fields
        (mapping : Config.MappingConfig) (pre post : list Etree.element)
        (elem : Etree.element) :
  Bmecat._strip_ns (Etree.tag elem) = "ARTICLE" ->
  (forall number name,
      Spec.has_text elem (Config.product_number mapping) number ->
      Spec.has_text elem (Config.name mapping) name ->
      exists record,
        Bmecat._parse_article elem mapping = Some record
        /\ Product.productNumber record = Some number
        /\ Product.name record = Some name
        /\ Bmecat.iter_bmecat_products (pre ++ elem :: post) mapping =
           Bmecat.iter_bmecat_products pre mapping ++ [record]
             ++ Bmecat.iter_bmecat_products post mapping)
  /\ ((~ exists number, Spec.has_text elem (Config.product_number mapping) number)
      \/ (~ exists name, Spec.has_text elem (Config.name mapping) name) ->
      Bmecat._parse_article elem mapping = None
      /\ Bmecat.iter_bmecat_products (pre ++ elem :: post) mapping =
         Bmecat.iter_bmecat_products pre mapping
           ++ Bmecat.iter_bmecat_products post mapping).
Proof.
  intros Htag. split.
  - intros number name Hnumber Hname.
    pose proof Hnumber as (_ & _ & _ & _ & _ & Hne1).
    pose proof Hname as (_ & _ & _ & _ & _ & Hne2).
    apply _find_text_spec in Hnumber, Hname.
    apply truthy_nonempty in Hne1, Hne2.
    eexists. split; [|split; [|split]].
    + unfold Bmecat._parse_article. rewrite Hnumber, Hname. simpl.
      rewrite Hne1, Hne2. simpl. reflexivity.
    + reflexivity.
    + reflexivity.
    + rewrite iter_bmecat_products_app. simpl. rewrite Htag. simpl.
      unfold Bmecat._parse_article at 1. rewrite Hnumber, Hname. simpl.
      rewrite Hne1, Hne2. simpl. reflexivity.
  - intros Hmissing.
    assert (Bmecat._parse_article elem mapping = None) as Hnone.
    { unfold Bmecat._parse_article.
      destruct (PyStr.otruthy (Bmecat._find_text elem (Config.product_number mapping)))
        eqn:H1; [|reflexivity].
      destruct (PyStr.otruthy (Bmecat._find_text elem (Config.name mapping)))
        eqn:H2; [|reflexivity].
      apply otruthy_present, _find_text_present in H1, H2. tauto. }
    split; [exact Hnone|].
    rewrite iter_bmecat_products_app. simpl. now rewrite Htag, Hnone.
Qed.

Lemma extraction_of_required_fields_witness :
  Bmecat._strip_ns (Etree.tag Sample.article) = "ARTICLE"
  /\ Spec.has_text Sample.article "SUPPLIER_PID" "ABC123"
  /\ Spec.has_text Sample.article "DESCRIPTION_SHORT" "Test Product"
  /\ exists record,
      Bmecat._parse_article Sample.article Sample.mapping = Some record
      /\ Product.productNumber record = Some "ABC123"
      /\ Product.name record = Some "Test Product"
      /\ Bmecat.iter_bmecat_products
           ([Sample.article_without_number] ++ Sample.article :: [Sample.details])
           Sample.mapping =
         Bmecat.iter_bmecat_products [Sample.article_without_number] Sample.mapping
           ++ [record] ++ Bmecat.iter_bmecat_products [Sample.details] Sample.mapping.
Proof.
  assert (Spec.has_text Sample.article "SUPPLIER_PID" "ABC123") as H1.
  { eexists _, _. repeat split; try reflexivity. discriminate. }
  assert (Spec.has_text Sample.article "DESCRIPTION_SHORT" "Test Product") as H2.
  { eexists _, _. repeat split; try reflexivity. discriminate. }
  split; [reflexivity|]. split; [exact H1|]. split; [exact H2|].
  exact (proj1 (extraction_of_required_fields Sample.mapping
                  [Sample.article_without_number] [Sample.details]
                  Sample.article eq_refl) _ _ H1 H2).
Defined.

(** C4. The currency of an emitted record is whatever the price look-up
    found: the configured default is never used. An article whose matching
    price has no currency element, and an article without any price
    element, come out with no currency although the default is EUR. *)
Theorem parse_article_never_defaults_currency :
  (forall elem price_type d1 d2,
      dict_get (Bmecat._find_price elem price_type) "currency" d1 =
      dict_get (Bmecat._find_price elem price_type) "currency" d2)
  /\ Config.currency (Config.price_selector Sample.mapping) = "EUR"
  /\ option_map Product.price
       (Bmecat._parse_article Sample.article_without_currency Sample.mapping) =
     Some (Product.PriceDict
             [("net", VFloat (Sample.lit "10.00")); ("currency", VNone)])
  /\ option_map Product.price
       (Bmecat._parse_article Sample.article_without_price Sample.mapping) =
     Some (Product.PriceDict [("net", VNone); ("currency", VNone)]).
Proof.
  split; [|split; [|split]].
  - intros elem price_type d1 d2. unfold dict_get, Bmecat._find_price.
    destruct (_find_price_currency_key
                (Etree.findall elem "ARTICLE_PRICE") price_type) as [v Hv].
    now rewrite Hv.
  - reflexivity.
  - vm_compute. reflexivity.
  - vm_compute. reflexivity.
Qed.

(** C5 as stated fails: with an unparsable TAX and a parsable TAX_RATE the
    later value is not returned. *)
Lemma find_tax_ignores_later_candidates :
  Bmecat._find_text Sample.article_with_two_taxes "TAX" = Some "abc"
  /\ PyFloat.of_string "abc" = None
  /\ Bmecat._find_text Sample.article_with_two_taxes "TAX_RATE" = Some "19"
  /\ PyFloat.of_string "19" = Some (PyFloat.of_Z 19)
  /\ Bmecat._find_tax Sample.article_with_two_taxes = None.
Proof. vm_compute. repeat split. Qed.

(** C5, amended. Tax-rate extraction goes through TAX, TAX_RATE and
    TAX_RATE_PERCENT in this order and stops at the first one that is
    present with non-empty text: the result is that text read as a number,
    and no tax rate when it does not read as one; later candidates are
    looked at only while every earlier one is absent or empty. *)
Theorem find_tax_takes_first_present (elem : Etree.element) :
  Bmecat.tax_tags = ["TAX"; "TAX_RATE"; "TAX_RATE_PERCENT"]
  /\ (forall pre tag post value,
         Bmecat.tax_tags = pre ++ tag :: post ->
         Forall (fun t => Bmecat._find_text elem t = None) pre ->
         Bmecat._find_text elem tag = Some value ->
         Bmecat._find_tax elem = PyFloat.of_string value)
  /\ (Forall (fun t => Bmecat._find_text elem t = None) Bmecat.tax_tags ->
      Bmecat._find_tax elem = None).
Proof.
  split; [reflexivity|]. split.
  - intros pre tag post value Htags Hpre Htag.
    unfold Bmecat._find_tax. rewrite Htags.
    now apply _find_tax_in_first.
  - apply _find_tax_in_none.
Qed.

Lemma find_tax_takes_first_present_witness :
  Bmecat.tax_tags = [] ++ "TAX" :: ["TAX_RATE"; "TAX_RATE_PERCENT"]
  /\ Forall (fun t => Bmecat._find_text Sample.article t = None) []
  /\ Bmecat._find_text Sample.article "TAX" = Some "0.19"
  /\ Bmecat._find_tax Sample.article = PyFloat.of_string "0.19".
Proof.
  split; [reflexivity|]. split; [constructor|]. split; [reflexivity|].
  apply (proj1 (proj2 (find_tax_takes_first_present Sample.article))
           [] "TAX" ["TAX_RATE"; "TAX_RATE_PERCENT"] "0.19");
    [reflexivity | constructor | reflexivity].
Defined.

(** ** Payload building *)

Section PayloadBuilding.
Import Importer.

Lemma net_price_coerce (product : Product.t) (price : pydict pyval) :
  Product.price_dict (Product.price product) = Some price ->
  _coerce_float (dict_get price "net" VNone) = Spec.net_price product.
Proof.
  unfold Spec.net_price, dict_get.
  destruct (Product.price product) as [|d|]; cbn; intros [= <-].
  - reflexivity.
  - destruct (dict_lookup d "net") as [[|x|s]|]; reflexivity.
Qed.

Lemma price_dict_none (product : Product.t) :
  Product.price_dict (Product.price product) = None
  <-> Product.price product = Product.PriceOther.
Proof. destruct (Product.price product); cbn; split; congruence. Qed.

Lemma complete_named (product : Product.t) :
  Spec.complete product -> Spec.named product.
Proof. intros (Hnumber & Hname & _). split; assumption. Qed.


Lemma otruthy_tax_known (taxes : Shopware.tax_table) (rate : PyFloat.float) :
  PyStr.otruthy (Shopware.tax_get taxes rate) = true <-> Spec.tax_known taxes rate.
Proof. apply otruthy_present. Qed.

(** The four ways a payload build can end. *)
Lemma build_cases (product : Product.t) (settings : Config.Settings)
      (currency_id : string) (tax_cache : Shopware.tax_table) :
  let rate := _resolve_tax_rate (Product.tax_rate product) settings in
  let built := _build_product_payload product settings currency_id tax_cache in
  (~ Spec.complete product /\ ~ Spec.price_unreadable product
   /\ built = Ok None)
  \/ (Spec.price_unreadable product
      /\ built = Raise (OtherError "AttributeError"))
  \/ (Spec.complete product /\ ~ Spec.tax_known tax_cache rate
      /\ built = Raise (ValueError ("Tax rate " +:+ PyFloat.repr rate
                                      +:+ " not available in Shopware.")))
  \/ (Spec.complete product /\ Spec.tax_known tax_cache rate
      /\ exists payload number,
          built = Ok (Some payload)
          /\ Product.productNumber product = Some number
          /\ Payload.id payload = _stable_uuid "product" number).
Proof.
  intros rate built. subst built.
  unfold _build_product_payload, Spec.complete, Spec.price_unreadable, Spec.named.
  fold rate.
  destruct (Product.productNumber product) as [number|] eqn:Hnumber.
  2: { left. split; [intros ((v & [=] & _) & _)|].
       split; [intros (((v & [=] & _) & _) & _) | reflexivity]. }
  destruct (Product.name product) as [name|] eqn:Hname.
  2: { left. split; [intros (_ & (v & [=] & _) & _)|].
       split; [intros ((_ & (v & [=] & _)) & _) | reflexivity]. }
  destruct (PyStr.truthy number) eqn:H1; simpl.
  2: { left. split; [intros ((v & [= <-] & Hv) & _)|].
       - apply truthy_nonempty in Hv. congruence.
       - split; [intros (((v & [= <-] & Hv) & _) & _) | reflexivity].
         apply truthy_nonempty in Hv. congruence. }
  destruct (PyStr.truthy name) eqn:H2; simpl.
  2: { left. split; [intros (_ & (v & [= <-] & Hv) & _)|].
       - apply truthy_nonempty in Hv. congruence.
       - split; [intros ((_ & (v & [= <-] & Hv)) & _) | reflexivity].
         apply truthy_nonempty in Hv. congruence. }
  apply truthy_nonempty in H1, H2.
  assert (Spec.present (Some number) /\ Spec.present (Some name)) as Hnamed.
  { split; [exists number; auto | exists name; auto]. }
  destruct (Product.price_dict (Product.price product)) as [price|] eqn:Hprice.
  2: { right. left. apply price_dict_none in Hprice.
       split; [split; [exact Hnamed | exact Hprice] | reflexivity]. }
  rewrite (net_price_coerce product price Hprice).
  assert (Product.price product <> Product.PriceOther) as Hreadable.
  { intros Hother. apply price_dict_none in Hother. congruence. }
  destruct (Spec.net_price product) as [net|] eqn:Hnet.
  2: { left. split; [intros (_ & _ & [x [=]])|].
       split; [intros (_ & Hother); contradiction | reflexivity]. }
  assert (Spec.present (Some number) /\ Spec.present (Some name)
          /\ is_Some (Some net)) as Hcomplete.
  { split; [apply Hnamed|]. split; [apply Hnamed | eauto]. }
  right. right.
  destruct (PyStr.otruthy (Shopware.tax_get tax_cache rate)) eqn:Htax; simpl.
  - right. apply otruthy_tax_known in Htax.
    split; [exact Hcomplete|]. split; [exact Htax|].
    eexists _, number. split; [reflexivity|]. split; reflexivity.
  - left. split; [exact Hcomplete|]. split; [|reflexivity].
    intros Hknown. apply otruthy_tax_known in Hknown. congruence.
Qed.
End PayloadBuilding.




(** C6. A zero override is passed over: with the mapping 0.19 -> 0.0 the
    raw rate 0.19 resolves to 19.0, and with 0.190 -> 0.0, 0.19 -> 7 the raw
    string 0.190 resolves to 7.0, the override of lower priority. *)
Theorem resolve_tax_rate_skips_zero_override :
  Importer.str_of (VFloat (Sample.lit "0.19")) = "0.19"
  /\ ({[ "0.19" := Sample.lit "0.0" ]} : gmap string PyFloat.float) !! "0.19"
     = Some (Sample.lit "0.0")
  /\ Importer._resolve_tax_rate (VFloat (Sample.lit "0.19"))
       (Sample.settings {[ "0.19" := Sample.lit "0.0" ]})
     = Sample.lit "19.0"
  /\ Importer._resolve_tax_rate (VStr "0.190")
       (Sample.settings {[ "0.190" := Sample.lit "0.0"; "0.19" := Sample.lit "7" ]})
     = Sample.lit "7.0".
Proof. vm_compute. repeat split. Qed.

(** ** Entity ids *)

Section EntityIds.
Local Open Scope Z_scope.

Lemma be_int_acc_bound (l : list Z) (acc : Z) :
  Forall Spec.is_byte l -> 0 <= acc ->
  0 <= fold_left (fun a b => a * 256 + b) l acc
  /\ fold_left (fun a b => a * 256 + b) l acc + 1
     <= (acc + 1) * 256 ^ Z.of_nat (length l).
Proof.
  intros Hl. revert acc.
  induction Hl as [|b l Hb _ IH]; intros acc Hacc.
  - simpl. lia.
  - cbn [fold_left length]. unfold Spec.is_byte in Hb.
    destruct (IH (acc * 256 + b) ltac:(lia)) as [H0 H1].
    split; [exact H0|].
    rewrite Nat2Z.inj_succ, Z.pow_succ_r by lia.
    assert (0 < 256 ^ Z.of_nat (length l)) by (apply Z.pow_pos_nonneg; lia).
    nia.
Qed.

Lemma be_bytes_are_bytes (n : nat) (x : Z) : Forall Spec.is_byte (Sha1.be_bytes n x).
Proof.
  induction n as [|n IH]; simpl; constructor; [|exact IH].
  apply Z.mod_pos_bound. lia.
Qed.

Lemma digest_bytes (msg : list Z) : Forall Spec.is_byte (Sha1.digest msg).
Proof.
  unfold Sha1.digest.
  destruct (Sha1.blocks _ _ _) as [[[[h0 h1] h2] h3] h4].
  repeat (apply Forall_app; split); apply be_bytes_are_bytes.
Qed.

Lemma lt_pow2_of_bits (x n : Z) :
  0 <= x -> 0 <= n -> (forall k, n <= k -> Z.testbit x k = false) -> x < 2 ^ n.
Proof.
  intros Hx Hn Hbits.
  destruct (Z.lt_ge_cases x (2 ^ n)) as [|Hge]; [assumption|exfalso].
  assert (0 < x) as Hpos by (pose proof (Z.pow_pos_nonneg 2 n); lia).
  pose proof (Z.bit_log2 x Hpos) as Hbit.
  rewrite Hbits in Hbit; [discriminate|].
  apply Z.log2_le_pow2; assumption.
Qed.

Lemma bits_above (x n k : Z) :
  0 <= x < 2 ^ n -> n <= k -> Z.testbit x k = false.
Proof.
  intros [Hx Hlt] Hk.
  destruct (Z.eq_dec x 0) as [->|Hne]; [apply Z.bits_0|].
  apply Z.bits_above_log2; [assumption|].
  assert (Z.log2 x < n) by (apply Z.log2_lt_pow2; lia). lia.
Qed.

Lemma of_bytes_bound (b : list Z) :
  0 <= Sha1.be_int b < 2 ^ 128 -> 0 <= Uuid.of_bytes b 5 < 2 ^ 128.
Proof.
  intros Hi. unfold Uuid.of_bytes.
  set (i := Sha1.be_int b) in *.
  assert (0 <= Z.shiftl 32768 48 < 2 ^ 128) as H1
    by (split; [apply Z.leb_le | apply Z.ltb_lt]; vm_compute; reflexivity).
  assert (0 <= Z.shiftl 5 76 < 2 ^ 128) as H2
    by (split; [apply Z.leb_le | apply Z.ltb_lt]; vm_compute; reflexivity).
  split.
  - apply Z.lor_nonneg. split; [|lia].
    apply Z.land_nonneg. left. apply Z.lor_nonneg. split; [|lia].
    apply Z.land_nonneg. left. lia.
  - apply lt_pow2_of_bits; [|lia|].
    + apply Z.lor_nonneg. split; [|lia].
      apply Z.land_nonneg. left. apply Z.lor_nonneg. split; [|lia].
      apply Z.land_nonneg. left. lia.
    + intros k Hk.
      rewrite Z.lor_spec, Z.land_spec, Z.lor_spec, Z.land_spec.
      rewrite (bits_above i 128 k), (bits_above _ 128 k H1),
        (bits_above _ 128 k H2) by lia.
      reflexivity.
Qed.

Lemma uuid5_bound (namespace : Uuid.uuid) (name : string) :
  0 <= Uuid.uuid5 namespace name < 2 ^ 128.
Proof.
  unfold Uuid.uuid5. apply of_bytes_bound.
  set (d := Sha1.digest _).
  assert (Forall Spec.is_byte (take 16 d)) as Hb
    by (apply Forall_take, digest_bytes).
  destruct (be_int_acc_bound (take 16 d) 0 Hb ltac:(lia)) as [H0 H1].
  unfold Sha1.be_int. split; [exact H0|].
  assert (256 ^ Z.of_nat (length (take 16 d)) <= 256 ^ 16).
  { apply Z.pow_le_mono_r; [lia|]. rewrite length_take. lia. }
  change (2 ^ 128) with (256 ^ 16). lia.
Qed.

(** No function from the naturals into [N] values is one-to-one. *)
Lemma no_injection_into_bounded (N : nat) (f : nat -> nat) :
  (forall i, (f i < N)%nat) -> ~ (forall i j, i <> j -> f i <> f j).
Proof.
  intros Hbound Hinj.
  assert (NoDup (f <$> seq 0 (S N))) as Hnd.
  { apply NoDup_fmap_2_strong; [|apply NoDup_seq].
    intros i j _ _ Heq. destruct (decide (i = j)) as [|Hne]; [assumption|].
    now destruct (Hinj i j Hne). }
  assert (f <$> seq 0 (S N) ⊆+ seq 0 N) as Hsub.
  { apply NoDup_submseteq; [exact Hnd|].
    intros x (i & -> & _)%list_elem_of_fmap.
    apply elem_of_seq. pose proof (Hbound i). lia. }
  apply submseteq_length in Hsub.
  rewrite length_fmap, !length_seq in Hsub. lia.
Qed.

Lemma number_of_length_inj (i j : nat) :
  Sample.number_of_length i = Sample.number_of_length j -> i = j.
Proof.
  unfold Sample.number_of_length. simpl. intros [= Heq].
  revert j Heq. induction i as [|i IH]; intros [|j]; simpl; intros [=]; auto.
Qed.

Lemma name_inj (prefix a b : string) :
  prefix +:+ ":" +:+ a = prefix +:+ ":" +:+ b -> a = b.
Proof.
  induction prefix as [|c prefix IH]; simpl; intros [= H]; auto.
Qed.
End EntityIds.

(** Ids cannot tell all product numbers apart: an id is one of 2^128
    values, so among the product numbers [x], [xx], [xxx], ... two share an
    id. Which two is not known: naming them takes a collision of SHA-1. *)
Lemma product_ids_are_not_injective :
  ~ (forall (product1 product2 : Product.t) (settings : Config.Settings)
            (currency_id : string) (tax_cache : Shopware.tax_table)
            (payload1 payload2 : Payload.t),
        Importer._build_product_payload product1 settings currency_id tax_cache
        = Ok (Some payload1) ->
        Importer._build_product_payload product2 settings currency_id tax_cache
        = Ok (Some payload2) ->
        Product.productNumber product1 <> Product.productNumber product2 ->
        Payload.id payload1 <> Payload.id payload2).
Proof.
  intros Hclaim.
  set (record n :=
         Sample.record (Some (Sample.number_of_length n)) (Some "n") None
           (VFloat (Sample.lit "10.0"))).
  assert (forall n, exists payload,
             Importer._build_product_payload (record n) (Sample.settings ∅)
               "cur-eur" Sample.taxes = Ok (Some payload)
             /\ Payload.id payload =
                Importer._stable_uuid "product" (Sample.number_of_length n))
    as Hbuilt.
  { intros n.
    assert (Spec.complete (record n)) as Hc.
    { split; [eexists; split; [reflexivity|discriminate]|].
      split; [eexists; split; [reflexivity|discriminate]|].
      eexists. reflexivity. }
    assert (Spec.tax_known Sample.taxes
              (Importer._resolve_tax_rate (Product.tax_rate (record n))
                 (Sample.settings ∅))) as Ht.
    { exists "tax-19". split; [vm_compute; reflexivity | discriminate]. }
    destruct (build_cases (record n) (Sample.settings ∅) "cur-eur" Sample.taxes)
      as [(Hn & _)|[((_ & Hn) & _)|[(_ & Hn & _)
                                   |(_ & _ & payload & number & Hb & Hnum & Hid)]]];
      [tauto | discriminate Hn | tauto |].
    exists payload. split; [exact Hb|].
    injection Hnum as <-. exact Hid. }
  apply (no_injection_into_bounded (Z.to_nat (2 ^ 128))
           (fun n => Z.to_nat
                       (Uuid.uuid5 Uuid.NAMESPACE_URL
                          ("product" +:+ ":" +:+ Sample.number_of_length n)))).
  - intros n. apply Z2Nat.inj_lt; try apply uuid5_bound. lia.
  - intros i j Hne Heq.
    apply Z2Nat.inj in Heq; try apply uuid5_bound.
    destruct (Hbuilt i) as (pi & Hbi & Hidi), (Hbuilt j) as (pj & Hbj & Hidj).
    apply (Hclaim _ _ _ _ _ _ _ Hbi Hbj).
    + intros Hnum. apply Hne, number_of_length_inj. simpl in Hnum. congruence.
    + rewrite Hidi, Hidj. unfold Importer._stable_uuid. now rewrite Heq.
Qed.

(** X27. The id of a built payload is
    [str(uuid5(NAMESPACE_URL, "product:" + number))], a function of the fixed
    namespace, the tag [product] and the product number alone: two builds,
    whatever their settings and tax tables, give equal ids for equal product
    numbers. Distinct product numbers give distinct names to hash. *)
Theorem product_id_determined_by_number
        (product1 product2 : Product.t) (settings1 settings2 : Config.Settings)
        (currency1 currency2 : string) (taxes1 taxes2 : Shopware.tax_table)
        (payload1 payload2 : Payload.t) :
  Importer._build_product_payload product1 settings1 currency1 taxes1
  = Ok (Some payload1) ->
  Importer._build_product_payload product2 settings2 currency2 taxes2
  = Ok (Some payload2) ->
  exists number1 number2,
    Product.productNumber product1 = Some number1
    /\ Product.productNumber product2 = Some number2
    /\ Payload.id payload1 =
       Uuid.to_string
         (Uuid.uuid5 Uuid.NAMESPACE_URL ("product" +:+ ":" +:+ number1))
    /\ Payload.id payload2 =
       Uuid.to_string
         (Uuid.uuid5 Uuid.NAMESPACE_URL ("product" +:+ ":" +:+ number2))
    /\ (number1 = number2 -> Payload.id payload1 = Payload.id payload2)
    /\ (number1 <> number2 ->
        "product" +:+ ":" +:+ number1 <> "product" +:+ ":" +:+ number2).
Proof.
  intros H1 H2.
  destruct (build_cases product1 settings1 currency1 taxes1)
    as [(_ & _ & Hb)|[(_ & Hb)|[(_ & _ & Hb)
                               |(_ & _ & p1 & n1 & Hb1 & Hn1 & Hid1)]]];
    try congruence.
  destruct (build_cases product2 settings2 currency2 taxes2)
    as [(_ & _ & Hb)|[(_ & Hb)|[(_ & _ & Hb)
                               |(_ & _ & p2 & n2 & Hb2 & Hn2 & Hid2)]]];
    try congruence.
  assert (p1 = payload1) as -> by congruence.
  assert (p2 = payload2) as -> by congruence.
  exists n1, n2. split; [exact Hn1|]. split; [exact Hn2|].
  split; [exact Hid1|]. split; [exact Hid2|]. split.
  - intros ->. now rewrite Hid1, Hid2.
  - intros Hne Heq. apply Hne. exact (name_inj _ _ _ Heq).
Qed.

Lemma product_id_determined_by_number_witness :
  let product :=
    Sample.record (Some "A1") (Some "n") None (VFloat (Sample.lit "10.0")) in
  exists payload,
    Importer._build_product_payload product (Sample.settings ∅) "cur-eur"
      Sample.taxes = Ok (Some payload)
    /\ Payload.id payload = "3a817bdb-ce5a-5348-b549-d23c18f57fa4".
Proof.
  intros product.
  assert (exists payload,
             Importer._build_product_payload product (Sample.settings ∅)
               "cur-eur" Sample.taxes = Ok (Some payload)) as [payload Hb]
    by (eexists; vm_compute; reflexivity).
  exists payload. split; [exact Hb|].
  destruct (product_id_determined_by_number product product
              (Sample.settings ∅) (Sample.settings ∅) "cur-eur" "cur-eur"
              Sample.taxes Sample.taxes payload payload Hb Hb)
    as (n1 & n2 & Hn1 & _ & Hid & _).
  injection Hn1 as <-. rewrite Hid. vm_compute. reflexivity.
Defined.

(** ** Batch upload *)

Section BatchUpload.
Import Shopware Importer.
Context `{Remote}.

Lemma _send_batch_eq (batch : list Payload.t) (s : state) :
  _send_batch batch s =
  match sync_upsert "product" (map Payload.ProductItem batch) (client s) with
  | (c, Ok _) => (bump_uploaded (length batch) (set_client c s), Ok tt)
  | (c, Raise exc) =>
      if caught exc then
        if (length batch =? 1)%nat then
          match batch with
          | first :: _ =>
              (append_error {| item := ItemPayload first; reason := exn_str exc |}
                 (bump_errors (set_client c s)), Ok tt)
          | [] => (set_client c s, Raise (OtherError "IndexError"))
          end
        else
          match _send_batch (take (length batch / 2) batch) (set_client c s) with
          | (s1, Ok _) => _send_batch (drop (length batch / 2) batch) s1
          | (s1, Raise e) => (s1, Raise e)
          end
      else (set_client c s, Raise exc)
  end.
Proof.
  funelim (_send_batch batch s).
  all: match goal with
       | Hx : sync_upsert _ _ _ = _ |- _ => rewrite Hx
       end.
  all: try match goal with Hx : caught _ = _ |- _ => rewrite Hx end.
  all: try match goal with
           | Hx : (length _ =? 1)%nat = _ |- _ => rewrite Hx
           end.
  all: reflexivity.
Qed.

Lemma elem_of_map {A B} (f : A -> B) (l : list A) (y : B) :
  y ∈ map f l <-> exists x, y = f x /\ x ∈ l.
Proof. apply (list_elem_of_fmap f l y). Qed.

Lemma product_item_elem (bad : Payload.t) (batch : list Payload.t) :
  Payload.ProductItem bad ∈ map Payload.ProductItem batch <-> bad ∈ batch.
Proof.
  rewrite elem_of_map. split.
  - intros (x & [= ->] & Hx). exact Hx.
  - intros Hx. exists bad. auto.
Qed.

(** A batch without the rejected item goes through in one call. *)
Lemma send_batch_good (bad : Payload.t) (batch : list Payload.t) (s : state) :
  Spec.rejects_exactly bad -> bad ∉ batch ->
  exists s',
    _send_batch batch s = (s', Ok tt)
    /\ products_processed (stats s') = products_processed (stats s)
    /\ products_uploaded (stats s')
       = (products_uploaded (stats s) + Z.of_nat (length batch))%Z
    /\ errors (stats s') = errors (stats s)
    /\ errors_ndjson s' = errors_ndjson s
    /\ media_queue_ndjson s' = media_queue_ndjson s.
Proof.
  intros Hrej Hbad. rewrite _send_batch_eq.
  destruct (sync_upsert "product" (map Payload.ProductItem batch) (client s))
    as [c r] eqn:Hcall.
  pose proof (proj2 (Hrej (client s) (map Payload.ProductItem batch))) as Hok.
  rewrite Hcall in Hok. simpl in Hok. rewrite Hok.
  - eexists. split; [reflexivity|]. simpl. repeat split.
  - now rewrite product_item_elem.
Qed.

(** Bisection isolates the one rejected item of a batch. *)
Lemma send_batch_one_bad (bad : Payload.t) (n : nat) :
  Spec.rejects_exactly bad ->
  forall (l1 l2 : list Payload.t) (s : state),
    length (l1 ++ bad :: l2) <= n -> bad ∉ l1 -> bad ∉ l2 ->
    exists s' e,
      _send_batch (l1 ++ bad :: l2) s = (s', Ok tt)
      /\ caught e = true
      /\ products_processed (stats s') = products_processed (stats s)
      /\ products_uploaded (stats s')
         = (products_uploaded (stats s) + Z.of_nat (length l1 + length l2))%Z
      /\ errors (stats s') = (errors (stats s) + 1)%Z
      /\ errors_ndjson s'
         = errors_ndjson s ++ [ {| item := ItemPayload bad; reason := exn_str e |} ]
      /\ media_queue_ndjson s' = media_queue_ndjson s.
Proof.
  intros Hrej. induction n as [|n IH]; intros l1 l2 s Hlen H1 H2.
  { rewrite length_app in Hlen. simpl in Hlen. lia. }
  rewrite _send_batch_eq.
  destruct (sync_upsert "product" (map Payload.ProductItem (l1 ++ bad :: l2))
              (client s)) as [c r] eqn:Hcall.
  destruct (proj1 (Hrej (client s) (map Payload.ProductItem (l1 ++ bad :: l2))))
    as (e & He & Hr).
  { apply product_item_elem, elem_of_app. right. left. }
  rewrite Hcall in Hr. simpl in Hr. subst r. rewrite He.
  destruct (length (l1 ++ bad :: l2) =? 1)%nat eqn:Hone.
  - apply Nat.eqb_eq in Hone. rewrite length_app in Hone. simpl in Hone.
    destruct l1 as [|p l1]; [|simpl in Hone; lia].
    destruct l2 as [|q l2]; [|simpl in Hone; lia].
    simpl. eexists _, e. split; [reflexivity|]. simpl.
    repeat split; try assumption; lia.
  - apply Nat.eqb_neq in Hone.
    rewrite length_app in Hone, Hlen. simpl in Hone, Hlen.
    set (mid := (length (l1 ++ bad :: l2) / 2)%nat).
    assert (1 <= mid /\ mid < length l1 + S (length l2))%nat as Hmid.
    { subst mid. rewrite length_app. cbn [length].
      pose proof (Nat.div_lt (length l1 + S (length l2)) 2).
      pose proof (Nat.div_str_pos (length l1 + S (length l2)) 2). lia. }
    destruct (decide (mid <= length l1)%nat) as [Hle|Hgt].
    + rewrite take_app_le, drop_app_le by exact Hle.
      rewrite <- (take_drop mid l1) in H1. apply not_elem_of_app in H1.
      destruct H1 as [Ht Hd].
      destruct (send_batch_good bad (take mid l1) (set_client c s) Hrej Ht)
        as (s1 & -> & Hp1 & Hu1 & He1 & Hf1 & Hm1).
      destruct (IH (drop mid l1) l2 s1) as (s2 & e2 & -> & Hc2 & Hp2 & Hu2 & He2 & Hf2 & Hm2);
        [rewrite length_app, length_drop; simpl; lia | exact Hd | exact H2 |].
      exists s2, e2. split; [reflexivity|]. split; [exact Hc2|].
      rewrite Hp2, Hu2, He2, Hf2, Hm2, Hp1, Hu1, He1, Hf1, Hm1.
      rewrite length_take, length_drop. simpl.
      repeat split; try reflexivity. lia.
    + rewrite take_app_ge, drop_app_ge by lia.
      destruct (mid - length l1)%nat as [|k] eqn:Hk; [lia|]. simpl.
      rewrite <- (take_drop k l2) in H2. apply not_elem_of_app in H2.
      destruct H2 as [Ht Hd].
      destruct (IH l1 (take k l2) (set_client c s))
        as (s1 & e1 & -> & Hc1 & Hp1 & Hu1 & He1 & Hf1 & Hm1);
        [rewrite length_app; simpl; rewrite length_take; lia
        | exact H1 | exact Ht |].
      destruct (send_batch_good bad (drop k l2) s1 Hrej Hd)
        as (s2 & -> & Hp2 & Hu2 & He2 & Hf2 & Hm2).
      exists s2, e1. split; [reflexivity|]. split; [exact Hc1|].
      rewrite Hp2, Hu2, He2, Hf2, Hm2, Hp1, Hu1, He1, Hf1, Hm1.
      rewrite length_take, length_drop. simpl.
      repeat split; try reflexivity. lia.
Qed.
End BatchUpload.

(** C1. Let the bulk upsert fail, with an error the uploader handles,
    exactly when the group it is given contains the item [bad]. Then for a
    batch that holds [bad] once, at any position and among any number of
    other items, [_send_batch] returns normally, counts one error, counts
    every other item as uploaded, leaves the processed count alone, and
    appends exactly one line to the error file: [bad] with the reason of the
    failure. *)
Theorem send_batch_isolates_single_rejected_item `{Shopware.Remote}
        (bad : Payload.t) (l1 l2 : list Payload.t) (s : Importer.state) :
  Spec.rejects_exactly bad -> bad ∉ l1 -> bad ∉ l2 ->
  exists s' e,
    Importer._send_batch (l1 ++ bad :: l2) s = (s', Ok tt)
    /\ Importer.caught e = true
    /\ Importer.errors (Importer.stats s')
       = (Importer.errors (Importer.stats s) + 1)%Z
    /\ Importer.products_uploaded (Importer.stats s')
       = (Importer.products_uploaded (Importer.stats s)
          + (Z.of_nat (length (l1 ++ bad :: l2)) - 1))%Z
    /\ Importer.products_processed (Importer.stats s')
       = Importer.products_processed (Importer.stats s)
    /\ Importer.errors_ndjson s'
       = Importer.errors_ndjson s
           ++ [ {| Importer.item := Importer.ItemPayload bad;
                   Importer.reason := exn_str e |} ].
Proof.
  intros Hrej H1 H2.
  destruct (send_batch_one_bad bad (length (l1 ++ bad :: l2)) Hrej l1 l2 s
              (le_n _) H1 H2)
    as (s' & e & Hrun & Hc & Hp & Hu & He & Hf & _).
  exists s', e. rewrite Hrun, Hp, Hu, He, Hf.
  repeat split; try assumption. rewrite length_app. simpl. lia.
Qed.

Lemma remote_rejecting_rejects_exactly (number : string) :
  @Spec.rejects_exactly (Sample.remote_rejecting number) (Sample.payload number).
Proof.
  intros c group. unfold Shopware.sync_upsert.
  destruct group as [|x group].
  - split; [intros Hin; inversion Hin | reflexivity].
  - cbn [Shopware._request_sync Sample.remote_rejecting].
    destruct (bool_decide_reflect
                (Payload.ProductItem (Sample.payload number) ∈ x :: group))
      as [Hin|Hout]; simpl.
    + split; [|contradiction]. intros _. eexists. split; [|reflexivity]. reflexivity.
    + split; [contradiction|]. reflexivity.
Qed.

Lemma send_batch_isolates_single_rejected_item_witness :
  let R := Sample.remote_rejecting "B" in
  @Spec.rejects_exactly R (Sample.payload "B")
  /\ (Sample.payload "B" ∉ [Sample.payload "A"])
  /\ (Sample.payload "B" ∉ [Sample.payload "C"])
  /\ exists s' e,
      @Importer._send_batch R
        ([Sample.payload "A"] ++ Sample.payload "B" :: [Sample.payload "C"])
        (Sample.start R tt) = (s', Ok tt)
      /\ Importer.caught e = true
      /\ Importer.errors (Importer.stats s') = 1%Z
      /\ Importer.products_uploaded (Importer.stats s') = 2%Z
      /\ Importer.products_processed (Importer.stats s') = 0%Z
      /\ Importer.errors_ndjson s'
         = [ {| Importer.item := Importer.ItemPayload (Sample.payload "B");
                Importer.reason := exn_str e |} ].
Proof.
  intros R.
  assert (Sample.payload "B" ∉ [Sample.payload "A"]) as HA.
  { intros Hin%list_elem_of_singleton.
    apply (f_equal Payload.productNumber) in Hin. discriminate. }
  assert (Sample.payload "B" ∉ [Sample.payload "C"]) as HC.
  { intros Hin%list_elem_of_singleton.
    apply (f_equal Payload.productNumber) in Hin. discriminate. }
  split; [apply remote_rejecting_rejects_exactly|].
  split; [exact HA|]. split; [exact HC|].
  exact (@send_batch_isolates_single_rejected_item R (Sample.payload "B")
           [Sample.payload "A"] [Sample.payload "C"] (Sample.start R tt)
           (remote_rejecting_rejects_exactly "B") HA HC).
Defined.

(** ** The import run *)

Section ImportRun.
Import Shopware Importer.
Context `{Remote}.

Lemma sync_upsert_posted (entity : string) (payload : list Payload.item)
      (c : client_state) :
  (payload = [] /\ sync_upsert entity payload c = (c, Ok tt))
  \/ (payload <> []
      /\ posted (sync_upsert entity payload c).1
         = posted c ++ [ {| Shopware.entity := entity;
                            Shopware.payload := payload;
                            outcome := (sync_upsert entity payload c).2 |} ]).
Proof.
  destruct payload as [|x payload]; [left; split; reflexivity|right].
  split; [discriminate|]. unfold sync_upsert.
  destruct (_request_sync (remote c) entity (x :: payload)) as [r response].
  reflexivity.
Qed.

Lemma sync_upsert_log (entity : string) (payload : list Payload.item)
      (c : client_state) :
  exists calls,
    posted (sync_upsert entity payload c).1 = posted c ++ calls
    /\ Forall (fun x => Shopware.entity x = entity) calls.
Proof.
  destruct (sync_upsert_posted entity payload c) as [[_ ->]|[_ ->]].
  - exists []. simpl. rewrite app_nil_r. split; [reflexivity|constructor].
  - eexists. split; [reflexivity|]. repeat constructor.
Qed.

(** What [_send_batch] does to the counters and to the log of calls,
    whatever the remote system answers. *)
Lemma send_batch_counts (n : nat) :
  forall (batch : list Payload.t) (s : state),
    length batch <= n ->
    products_processed (stats (_send_batch batch s).1)
    = products_processed (stats s)
    /\ (products_uploaded (stats s)
        <= products_uploaded (stats (_send_batch batch s).1))%Z
    /\ (errors (stats s) <= errors (stats (_send_batch batch s).1))%Z
    /\ ((_send_batch batch s).2 = Ok tt ->
        (products_uploaded (stats (_send_batch batch s).1)
         + errors (stats (_send_batch batch s).1)
         = products_uploaded (stats s) + errors (stats s)
           + Z.of_nat (length batch))%Z)
    /\ exists calls,
        posted (client (_send_batch batch s).1) = posted (client s) ++ calls
        /\ Forall (fun c => entity c = "product") calls.
Proof.
  induction n as [|n IH]; intros batch s Hlen; rewrite _send_batch_eq.
  all: pose proof (sync_upsert_log "product"
                     (map Payload.ProductItem batch) (client s)) as Hlog.
  all: destruct (sync_upsert "product" (map Payload.ProductItem batch) (client s))
    as [c [[]|exc]] eqn:Hcall; simpl in Hlog.
  all: try (simpl; repeat split; try lia; exact Hlog).
  all: destruct (caught exc); [|simpl; repeat split; try lia; try discriminate;
                                exact Hlog].
  all: destruct batch as [|first batch]; [discriminate Hcall|].
  all: simpl in Hlen; try lia.
  destruct batch as [|second batch].
  { simpl. repeat split; try lia. exact Hlog. }
  replace (length (first :: second :: batch) =? 1)%nat with false by reflexivity.
  simpl in Hlen.
  set (whole := first :: second :: batch) in *.
  set (mid := (length whole / 2)%nat).
  assert (1 <= mid /\ mid < length whole)%nat as Hmid.
  { subst mid. assert (2 <= length whole)%nat by (subst whole; simpl; lia).
    pose proof (Nat.div_lt (length whole) 2).
    pose proof (Nat.div_str_pos (length whole) 2). lia. }
  assert (length whole <= S n)%nat as Hwhole by (subst whole; simpl; lia).
  destruct (IH (take mid whole) (set_client c s))
    as (Hp1 & Hu1 & He1 & Hsum1 & calls1 & Hlog1 & Hent1);
    [rewrite length_take; lia|].
  destruct (_send_batch (take mid whole) (set_client c s)) as [s1 [[]|e1]];
    cbn [fst snd] in *;
    change (stats (set_client c s)) with (stats s) in *;
    change (client (set_client c s)) with c in *.
  - destruct (IH (drop mid whole) s1)
      as (Hp2 & Hu2 & He2 & Hsum2 & calls2 & Hlog2 & Hent2);
      [rewrite length_drop; lia|].
    destruct Hlog as (calls0 & Hlog0 & Hent0).
    split; [congruence|]. split; [lia|]. split; [lia|]. split.
    + intros Hok. specialize (Hsum1 eq_refl). specialize (Hsum2 Hok).
      rewrite length_take in Hsum1. rewrite length_drop in Hsum2. lia.
    + exists (calls0 ++ calls1 ++ calls2).
      split; [rewrite Hlog2, Hlog1, Hlog0, !app_assoc; reflexivity|].
      repeat (apply Forall_app; split); assumption.
  - destruct Hlog as (calls0 & Hlog0 & Hent0).
    split; [congruence|]. split; [lia|]. split; [lia|].
    split; [discriminate|].
    exists (calls0 ++ calls1).
    split; [rewrite Hlog1, Hlog0, !app_assoc; reflexivity|].
    apply Forall_app; split; assumption.
Qed.

Lemma stats_le_refl (a : ImportStats) : Spec.stats_le a a.
Proof. unfold Spec.stats_le. lia. Qed.

Lemma stats_le_trans (a b c : ImportStats) :
  Spec.stats_le a b -> Spec.stats_le b c -> Spec.stats_le a c.
Proof. unfold Spec.stats_le. lia. Qed.

Lemma send_batch_monotone (batch : list Payload.t) (s : state) :
  Spec.stats_le (stats s) (stats (_send_batch batch s).1).
Proof.
  destruct (send_batch_counts (length batch) batch s (le_n _))
    as (Hp & Hu & He & _).
  unfold Spec.stats_le. lia.
Qed.

(** What the import loop does to the counters and to the log of calls. *)
Lemma import_loop_counts (settings : Config.Settings) (currency_id : string)
      (tax_cache : tax_table) (batch_size : Z) (records : list Product.t) :
  forall (batch : list Payload.t) (s : state),
    let out :=
      import_loop records settings currency_id tax_cache batch_size batch s in
    Spec.stats_le (stats s) (stats out.1)
    /\ (forall rest, out.2 = Ok rest ->
        products_processed (stats out.1)
        = (products_processed (stats s) + Z.of_nat (length records))%Z
        /\ (products_uploaded (stats out.1) + errors (stats out.1)
            + Z.of_nat (length rest)
            = products_uploaded (stats s) + errors (stats s)
              + Z.of_nat (length batch) + Z.of_nat (length records))%Z)
    /\ exists calls,
        posted (client out.1) = posted (client s) ++ calls
        /\ Forall (fun c => entity c = "product") calls.
Proof.
  induction records as [|product records IH]; intros batch s; simpl.
  { split; [apply stats_le_refl|]. split.
    - intros rest [= <-]. lia.
    - exists []. rewrite app_nil_r. split; [reflexivity|constructor]. }
  destruct (_build_product_payload product settings currency_id tax_cache)
    as [[payload|]|e].
  - set (s1 := match Product.media product with
               | [] => bump_processed s
               | _ :: _ => append_media _ (bump_processed s)
               end).
    assert (stats s1 = stats (bump_processed s)
            /\ client s1 = client s) as [Hs1 Hc1]
      by (subst s1; destruct (Product.media product); split; reflexivity).
    destruct (batch_size <=? Z.of_nat (length (batch ++ [payload])))%Z.
    + destruct (send_batch_counts _ (batch ++ [payload]) s1 (le_n _))
        as (Hp & Hu & He & Hsum & calls1 & Hlog1 & Hent1).
      destruct (_send_batch (batch ++ [payload]) s1) as [s2 [[]|e]];
        cbn [fst snd] in *.
      * destruct (IH [] s2) as (Hle & Hok & calls2 & Hlog2 & Hent2).
        rewrite Hs1 in *. simpl in Hp, Hu, He, Hsum.
        split; [unfold Spec.stats_le in *; lia|]. split.
        -- intros rest Hrest. destruct (Hok rest Hrest) as [Hp' Hsum'].
           specialize (Hsum eq_refl). rewrite length_app in Hsum.
           simpl in Hsum, Hsum'. lia.
        -- exists (calls1 ++ calls2).
           split; [rewrite Hlog2, Hlog1, Hc1, app_assoc; reflexivity|].
           apply Forall_app; split; assumption.
      * rewrite Hs1 in *. simpl in Hp, Hu, He.
        split; [unfold Spec.stats_le; lia|]. split; [discriminate|].
        exists calls1. rewrite Hlog1, Hc1. split; [reflexivity|assumption].
    + destruct (IH (batch ++ [payload]) s1) as (Hle & Hok & calls & Hlog & Hent).
      rewrite Hs1 in *. simpl in Hle.
      split; [unfold Spec.stats_le in *; simpl in *; lia|]. split.
      * intros rest Hrest. destruct (Hok rest Hrest) as [Hp' Hsum'].
        rewrite length_app in Hsum'. simpl in Hp', Hsum'. lia.
      * exists calls. rewrite Hlog, Hc1. split; [reflexivity|assumption].
  - destruct (IH batch
                (append_error {| item := ItemProduct product;
                                 reason := "missing_required_fields" |}
                   (bump_errors (bump_processed s))))
      as (Hle & Hok & calls & Hlog & Hent).
    split; [unfold Spec.stats_le in *; simpl in *; lia|]. split.
    + intros rest Hrest. destruct (Hok rest Hrest) as [Hp' Hsum'].
      simpl in Hp', Hsum'. lia.
    + exists calls. rewrite Hlog. split; [reflexivity|assumption].
  - simpl. split; [unfold Spec.stats_le; simpl; lia|].
    split; [discriminate|].
    exists []. rewrite app_nil_r. split; [reflexivity|constructor].
Qed.

(** The loop over a list of records is the loop over its first part
    followed by the loop over the rest. *)
Lemma import_loop_app (settings : Config.Settings) (currency_id : string)
      (tax_cache : tax_table) (batch_size : Z) (first rest : list Product.t) :
  forall (batch : list Payload.t) (s : state),
    import_loop (first ++ rest) settings currency_id tax_cache batch_size batch s
    = match import_loop first settings currency_id tax_cache batch_size batch s with
      | (s1, Ok batch1) =>
          import_loop rest settings currency_id tax_cache batch_size batch1 s1
      | (s1, Raise e) => (s1, Raise e)
      end.
Proof.
  induction first as [|product first IH]; intros batch s; simpl; [reflexivity|].
  destruct (_build_product_payload product settings currency_id tax_cache)
    as [[payload|]|e]; [|apply IH|reflexivity].
  destruct (batch_size <=? _)%Z; [|apply IH].
  destruct (_send_batch _ _) as [s2 [[]|e]]; [apply IH|reflexivity].
Qed.
End ImportRun.

(** C10. When an import run returns normally, the statistics it returns
    count every record of the store as processed, and each of them either as
    uploaded or as an error: processed = uploaded + errors. The counters
    start at zero and never decrease: not across a batch upload, and not
    from the start of the loop to any point between two records to its
    end. *)
Theorem import_statistics_balance `{Shopware.Remote}
        (records : list Product.t) (settings : Config.Settings)
        (batch_size : Z) (s s' : Importer.state) (st : Importer.ImportStats) :
  Importer.import_products records settings batch_size s = (s', Ok st) ->
  st = Importer.stats s'
  /\ Importer.products_processed st = Z.of_nat (length records)
  /\ (Importer.products_processed st
      = Importer.products_uploaded st + Importer.errors st)%Z
  /\ Spec.stats_le Importer.zero_stats st
  /\ (forall batch s0,
      Spec.stats_le (Importer.stats s0)
        (Importer.stats (Importer._send_batch batch s0).1))
  /\ (forall first rest currency_id tax_cache batch s0,
      let reached :=
        Importer.import_loop first settings currency_id tax_cache batch_size
          batch s0 in
      let final :=
        Importer.import_loop (first ++ rest) settings currency_id tax_cache
          batch_size batch s0 in
      Spec.stats_le (Importer.stats s0) (Importer.stats reached.1)
      /\ Spec.stats_le (Importer.stats reached.1) (Importer.stats final.1)).
Proof.
  intros Hrun.
  assert (forall batch s0,
             Spec.stats_le (Importer.stats s0)
               (Importer.stats (Importer._send_batch batch s0).1)) as Hmono
    by apply send_batch_monotone.
  assert (forall first rest currency_id tax_cache batch s0,
      let reached :=
        Importer.import_loop first settings currency_id tax_cache batch_size
          batch s0 in
      let final :=
        Importer.import_loop (first ++ rest) settings currency_id tax_cache
          batch_size batch s0 in
      Spec.stats_le (Importer.stats s0) (Importer.stats reached.1)
      /\ Spec.stats_le (Importer.stats reached.1) (Importer.stats final.1))
    as Hloop.
  { intros first rest currency_id tax_cache batch s0 reached final.
    subst reached final. rewrite import_loop_app.
    destruct (import_loop_counts settings currency_id tax_cache batch_size
                first batch s0) as (Hle & _).
    split; [exact Hle|].
    destruct (Importer.import_loop first _ _ _ _ _ _) as [s1 [batch1|e]];
      [|apply stats_le_refl].
    apply import_loop_counts. }
  unfold Importer.import_products in Hrun.
  destruct (Shopware.get_currency_id _ _) as [r1 [currency_id|e]];
    [|discriminate].
  cbn [Importer.client Importer.set_client Importer.set_stats
       Shopware.remote Shopware.posted] in Hrun.
  destruct (Shopware.load_taxes _) as [r2 [tax_cache|e]]; [|discriminate].
  destruct (Importer._upsert_manufacturers _ _) as [c [[]|e]]; [|discriminate].
  match type of Hrun with
  | context [Importer.import_loop records settings currency_id tax_cache
               batch_size [] ?s0] =>
      destruct (import_loop_counts settings currency_id tax_cache batch_size
                  records [] s0) as (Hle & Hok & _);
      destruct (Importer.import_loop records settings currency_id tax_cache
                  batch_size [] s0) as [s1 [rest|e]]; [|discriminate]
  end.
  cbn [fst snd] in *. destruct (Hok rest eq_refl) as [Hp Hsum].
  simpl in Hle, Hp, Hsum.
  destruct rest as [|payload rest].
  - injection Hrun as <- <-. simpl in Hsum.
    split; [reflexivity|]. split; [lia|]. split; [lia|].
    split; [exact Hle|]. split; [exact Hmono | exact Hloop].
  - destruct (send_batch_counts _ (payload :: rest) s1 (le_n _))
      as (Hp2 & Hu2 & He2 & Hsum2 & _).
    destruct (Importer._send_batch (payload :: rest) s1) as [s2 [[]|e]];
      [|discriminate].
    injection Hrun as <- <-. cbn [fst snd] in *. specialize (Hsum2 eq_refl).
    split; [reflexivity|]. split; [lia|].
    split; [cbn [length] in Hsum, Hsum2; lia|].
    split; [unfold Spec.stats_le in *; simpl in Hle |- *; lia|].
    split; [exact Hmono | exact Hloop].
Qed.

Lemma import_statistics_balance_witness :
  let R := Sample.remote_rejecting "B" in
  let records :=
    [ Sample.record (Some "A1") (Some "n") (Some "Acme") (VFloat (Sample.lit "10.0"));
      Sample.record (Some "A2") None None (VFloat (Sample.lit "10.0")) ] in
  exists s' st,
    @Importer.import_products R records (Sample.settings ∅) 250
      (Sample.start R tt) = (s', Ok st)
    /\ Importer.products_processed st = 2%Z
    /\ (Importer.products_processed st
        = Importer.products_uploaded st + Importer.errors st)%Z.
Proof.
  intros R records.
  assert (exists s' st,
             @Importer.import_products R records (Sample.settings ∅) 250
               (Sample.start R tt) = (s', Ok st)) as (s' & st & Hrun)
    by (eexists _, _; vm_compute; reflexivity).
  exists s', st. split; [exact Hrun|].
  destruct (@import_statistics_balance R records (Sample.settings ∅) 250
              (Sample.start R tt) s' st Hrun) as (_ & Hp & Hsum & _).
  split; [exact Hp | exact Hsum].
Defined.

(** ** Manufacturers *)

Section Manufacturers.
Import Shopware Importer.
Context `{Remote}.

Lemma collect_manufacturer_names_spec (records : list Product.t) (name : string) :
  name ∈ _collect_manufacturer_names records
  <-> name <> ""
      /\ exists product,
          product ∈ records /\ Product.manufacturer product = Some name.
Proof.
  induction records as [|product records IH]; simpl.
  - split; [intros Hin; set_solver|].
    intros (_ & p & Hp & _). inversion Hp.
  - assert (name ∈ _collect_manufacturer_names records
            <-> name <> ""
                /\ exists p, p ∈ records /\ Product.manufacturer p = Some name)
      as IH' by exact IH. clear IH.
    destruct (Product.manufacturer product) as [m|] eqn:Hm.
    + destruct (PyStr.truthy m) eqn:Ht.
      * rewrite elem_of_union, elem_of_singleton, IH'.
        apply truthy_nonempty in Ht. split.
        -- intros [->|(Hne & p & Hp & Hpm)].
           ++ split; [exact Ht|]. exists product. split; [left|exact Hm].
           ++ split; [exact Hne|]. exists p. split; [now right|exact Hpm].
        -- intros (Hne & p & Hp & Hpm).
           apply elem_of_cons in Hp as [->|Hp].
           ++ left. congruence.
           ++ right. split; [exact Hne|]. exists p. auto.
      * rewrite IH'. split.
        -- intros (Hne & p & Hp & Hpm). split; [exact Hne|].
           exists p. split; [now right|exact Hpm].
        -- intros (Hne & p & Hp & Hpm). split; [exact Hne|].
           apply elem_of_cons in Hp as [->|Hp].
           ++ rewrite Hm in Hpm. injection Hpm as ->.
              apply truthy_nonempty in Hne. congruence.
           ++ exists p. auto.
    + rewrite IH'. split.
      * intros (Hne & p & Hp & Hpm). split; [exact Hne|].
        exists p. split; [now right|exact Hpm].
      * intros (Hne & p & Hp & Hpm). split; [exact Hne|].
        apply elem_of_cons in Hp as [->|Hp]; [congruence|].
        exists p. auto.
Qed.

Lemma sorted_spec (names : gset string) :
  StronglySorted String.le (sorted names)
  /\ NoDup (sorted names)
  /\ forall name, name ∈ sorted names <-> name ∈ names.
Proof.
  unfold sorted. split; [apply StronglySorted_merge_sort; apply _|]. split.
  - rewrite merge_sort_Permutation. apply NoDup_elements.
  - intros name. rewrite merge_sort_Permutation. apply elem_of_elements.
Qed.

(** The chunked upload posts what [chunk_run] describes. *)
Lemma send_sync_batches_loop_run (entity : string) (size : Z)
      (payload : list Payload.item) :
  (0 < size)%Z ->
  forall (batch : list Payload.item) (c : client_state),
    (Z.of_nat (length batch) < size)%Z ->
    exists calls,
      posted (_send_sync_batches_loop entity payload batch size c).1
      = posted c ++ calls
      /\ Spec.chunk_run entity size (batch ++ payload) calls
           (_send_sync_batches_loop entity payload batch size c).2.
Proof.
  intros Hsize. induction payload as [|item payload IH]; intros batch c Hlen.
  - simpl. rewrite app_nil_r. destruct batch as [|x batch].
    + exists []. rewrite app_nil_r. split; [reflexivity|constructor].
    + destruct (sync_upsert_posted entity (x :: batch) c) as [[[=] _]|[_ ->]].
      eexists. split; [reflexivity|].
      apply Spec.chunk_run_last; [discriminate|exact Hlen].
  - cbn [_send_sync_batches_loop].
    replace (batch ++ item :: payload) with ((batch ++ [item]) ++ payload)
      by (rewrite <- app_assoc; reflexivity).
    destruct (Z.leb_spec size (Z.of_nat (length (batch ++ [item])))) as [Hfull|Hroom].
    + assert (Z.of_nat (length (batch ++ [item])) = size) as Hexact
        by (rewrite length_app in *; simpl in *; lia).
      destruct (sync_upsert_posted entity (batch ++ [item]) c)
        as [[Hnil _]|[_ Hposted]]; [destruct batch; discriminate|].
      destruct (sync_upsert entity (batch ++ [item]) c) as [c' [[]|e]];
        cbn [fst snd] in *.
      * destruct (IH [] c' Hsize) as (calls & Hlog & Hrun).
        eexists. split; [rewrite Hlog, Hposted, <- app_assoc; reflexivity|].
        apply Spec.chunk_run_step; assumption.
      * eexists. split; [exact Hposted|].
        apply Spec.chunk_run_fail. exact Hexact.
    + apply IH. exact Hroom.
Qed.

Lemma chunk_run_entity (entity : string) (size : Z) items calls r :
  Spec.chunk_run entity size items calls r ->
  Forall (fun c => Shopware.entity c = entity) calls.
Proof. induction 1; repeat constructor; assumption. Qed.

Lemma chunk_run_ok (entity : string) (size : Z) items calls :
  Spec.chunk_run entity size items calls (Ok tt) ->
  concat (map Shopware.payload calls) = items /\ Forall Spec.succeeded calls.
Proof.
  intros Hrun. remember (Ok tt) as r eqn:Hr.
  induction Hrun as [|items r _ _|items rest e _|items rest calls r _ _ IH].
  - split; [reflexivity|constructor].
  - subst r. simpl. rewrite app_nil_r. split; [reflexivity|].
    repeat constructor.
  - discriminate.
  - destruct (IH Hr) as [Hcat Hsucc]. simpl. rewrite Hcat.
    split; [reflexivity|]. constructor; [reflexivity|assumption].
Qed.

Lemma chunk_run_raise (entity : string) (size : Z) items calls e :
  Spec.chunk_run entity size items calls (Raise e) ->
  exists before last,
    calls = before ++ [last]
    /\ outcome last = Raise e
    /\ Forall Spec.succeeded before.
Proof.
  intros Hrun. remember (Raise e) as r eqn:Hr.
  induction Hrun as [|items r _ _|items rest e' _|items rest calls r _ _ IH].
  - discriminate.
  - subst r. eexists [], _. split; [reflexivity|]. split; [reflexivity|constructor].
  - injection Hr as ->. eexists [], _.
    split; [reflexivity|]. split; [reflexivity|constructor].
  - destruct (IH Hr) as (before & last & -> & Hlast & Hsucc).
    eexists (_ :: before), last. split; [reflexivity|]. split; [exact Hlast|].
    constructor; [reflexivity|assumption].
Qed.
End Manufacturers.

(** C8 as stated fails in two places. Manufacturers are not sent with the
    bisection strategy: for a store that names the manufacturers Acme and
    Bad and a remote system that rejects every call containing Bad, the
    bisection strategy posts the group of two, then Acme alone, then Bad
    alone, so that Acme is upserted; the code posts the group of two once and
    stops the run with its failure, and no manufacturer is upserted. Nor are
    the manufacturers upserted in every run: when the currency is not found
    the run ends before any call is posted. *)
Lemma manufacturers_are_not_bisected :
  let records :=
    [ Sample.record (Some "A1") (Some "n") (Some "Bad") (VFloat (Sample.lit "10.0"));
      Sample.record (Some "A2") (Some "n") (Some "Acme") (VFloat (Sample.lit "10.0")) ] in
  let names := Importer._collect_manufacturer_names records in
  let group := map Importer.manufacturer_payload ["Acme"; "Bad"] in
  let rejected := Raise (HTTPError "Sync request failed with status 400") in
  let call payload outcome :=
    {| Shopware.entity := "product_manufacturer";
       Shopware.payload := payload;
       Shopware.outcome := outcome |} in
  (let R := Sample.remote_rejecting_manufacturer "Bad" in
   let start := Sample.start R tt in
   Importer.sorted names = ["Acme"; "Bad"]
   /\ Shopware.posted
        (Spec.bisecting_upsert "product_manufacturer" group
           (Importer.client start)).1
      = [ call group rejected;
          call [Importer.manufacturer_payload "Acme"] (Ok tt);
          call [Importer.manufacturer_payload "Bad"] rejected ]
   /\ Shopware.posted
        (Importer._upsert_manufacturers names (Importer.client start)).1
      = [ call group rejected ]
   /\ (Importer._upsert_manufacturers names (Importer.client start)).2
      = rejected
   /\ Shopware.posted
        (Importer.client
           (Importer.import_products records (Sample.settings ∅) 250 start).1)
      = [ call group rejected ]
   /\ (Importer.import_products records (Sample.settings ∅) 250 start).2
      = Raise (HTTPError "Sync request failed with status 400"))
  /\ (let R := Sample.remote_without_currency in
      let start := Sample.start R tt in
      Shopware.posted
        (Importer.client
           (Importer.import_products records (Sample.settings ∅) 250 start).1)
      = []
      /\ (Importer.import_products records (Sample.settings ∅) 250 start).2
         = Raise (ValueError "Currency EUR not found.")).
Proof.
  cbv zeta. split.
  - split; [vm_compute; reflexivity|].
    split; [vm_compute; reflexivity|].
    split; [vm_compute; reflexivity|].
    split; [vm_compute; reflexivity|].
    split; vm_compute; reflexivity.
  - split; vm_compute; reflexivity.
Qed.

(** C8, amended. In every import run that has found the currency and loaded
    the taxes, the manufacturer names found in the record store, each once
    and in sorted order, are sent as manufacturer entities in groups of 200,
    the last group being the rest, before any product is sent: the sync
    calls of the run are the manufacturer calls followed by the product
    calls. A manufacturer group is sent once, it is neither halved nor sent
    again: a manufacturer call that fails is the last call of the run and
    its error ends the run, so that product calls exist only when every
    manufacturer has been upserted with success. A run that fails to find
    the currency or to load the taxes ends with that failure and posts
    nothing. *)
Theorem manufacturers_upserted_before_products `{Shopware.Remote}
        (records : list Product.t) (settings : Config.Settings)
        (batch_size : Z) (s : Importer.state) :
  let names := Importer.sorted (Importer._collect_manufacturer_names records) in
  let out := Importer.import_products records settings batch_size s in
  let currency :=
    Shopware.get_currency_id (Shopware.remote (Importer.client s))
      (Config.currency (Config.price_selector (Config.mapping settings))) in
  let taxes := Shopware.load_taxes currency.1 in
  (StronglySorted String.le names
   /\ NoDup names
   /\ forall name,
       name ∈ names
       <-> name <> ""
           /\ exists product,
               product ∈ records /\ Product.manufacturer product = Some name)
  /\ (forall e,
        currency.2 = Raise e
        \/ ((exists currency_id, currency.2 = Ok currency_id)
            /\ taxes.2 = Raise e) ->
        out.2 = Raise e
        /\ Shopware.posted (Importer.client out.1)
           = Shopware.posted (Importer.client s))
  /\ (forall currency_id tax_cache,
        currency.2 = Ok currency_id -> taxes.2 = Ok tax_cache ->
        exists manufacturer_calls product_calls upserted,
          Shopware.posted (Importer.client out.1)
          = Shopware.posted (Importer.client s)
              ++ manufacturer_calls ++ product_calls
          /\ Shopware.posted
               (Importer._upsert_manufacturers
                  (Importer._collect_manufacturer_names records)
                  {| Shopware.remote := taxes.1;
                     Shopware.posted := Shopware.posted (Importer.client s) |}).1
             = Shopware.posted (Importer.client s) ++ manufacturer_calls
          /\ (Importer._upsert_manufacturers
                (Importer._collect_manufacturer_names records)
                {| Shopware.remote := taxes.1;
                   Shopware.posted := Shopware.posted (Importer.client s) |}).2
             = upserted
          /\ Spec.chunk_run "product_manufacturer" 200
               (map Importer.manufacturer_payload names)
               manufacturer_calls upserted
          /\ Forall (fun c => Shopware.entity c = "product_manufacturer")
               manufacturer_calls
          /\ Forall (fun c => Shopware.entity c = "product") product_calls
          /\ (forall e, upserted = Raise e ->
              out.2 = Raise e /\ product_calls = []
              /\ exists before last,
                  manufacturer_calls = before ++ [last]
                  /\ Shopware.outcome last = Raise e
                  /\ Forall Spec.succeeded before)
          /\ (upserted = Ok tt ->
              concat (map Shopware.payload manufacturer_calls)
              = map Importer.manufacturer_payload names
              /\ Forall Spec.succeeded manufacturer_calls)
          /\ (product_calls <> [] -> upserted = Ok tt)).
Proof.
  intros names out currency taxes. split.
  { destruct (sorted_spec (Importer._collect_manufacturer_names records))
      as (Hsorted & Hnodup & Hmem).
    split; [exact Hsorted|]. split; [exact Hnodup|].
    intros name. subst names. rewrite Hmem.
    apply collect_manufacturer_names_spec. }
  subst out taxes currency. unfold Importer.import_products.
  cbn [Importer.client Importer.set_client Importer.set_stats
       Shopware.remote Shopware.posted].
  destruct (Shopware.get_currency_id _ _) as [r1 [currency_id|e]]; cbn [fst snd].
  2: { split.
       - intros e' [[= <-]|[[x [=]] _]]. split; reflexivity.
       - intros x t [=]. }
  cbn [Importer.client Importer.set_client Importer.set_stats
       Shopware.remote Shopware.posted].
  destruct (Shopware.load_taxes r1) as [r2 [tax_cache|e]]; cbn [fst snd].
  2: { split.
       - intros e' [[=]|[_ [= <-]]]. split; reflexivity.
       - intros x t _ [=]. }
  split; [intros e' [[=]|[_ [=]]]|].
  intros _ _ _ _.
  cbn [Importer.client Importer.set_client Importer.set_stats
       Shopware.remote Shopware.posted].
  unfold Importer._upsert_manufacturers, Importer._send_sync_batches.
  fold names.
  match goal with
  | |- context [Importer._send_sync_batches_loop ?en ?pl [] 200 ?c0] =>
      destruct (send_sync_batches_loop_run en 200 pl ltac:(lia) [] c0 ltac:(simpl; lia))
        as (man & Hman & Hrun);
      destruct (Importer._send_sync_batches_loop en pl [] 200 c0)
        as [c [[]|e]]
  end; cbn [fst snd app] in Hman, Hrun; cbn [Shopware.posted] in Hman.
  - match goal with
    | |- context [Importer.import_loop records settings currency_id tax_cache
                    batch_size [] ?s0] =>
        destruct (import_loop_counts settings currency_id tax_cache batch_size
                    records [] s0) as (_ & _ & calls1 & Hlog1 & Hent1);
        destruct (Importer.import_loop records settings currency_id tax_cache
                    batch_size [] s0) as [s1 [rest|e]]
    end; cbn [fst snd Importer.client Importer.set_client] in Hlog1.
    + assert (exists calls2,
                 Shopware.posted
                   (Importer.client
                      (match rest with
                       | [] => (s1, Ok (Importer.stats s1))
                       | _ :: _ =>
                           match Importer._send_batch rest s1 with
                           | (s2, Ok _) => (s2, Ok (Importer.stats s2))
                           | (s2, Raise e) => (s2, Raise e)
                           end
                       end).1)
                 = Shopware.posted (Importer.client s1) ++ calls2
                 /\ Forall (fun c => Shopware.entity c = "product") calls2)
        as (calls2 & Hlog2 & Hent2).
      { destruct rest as [|payload rest].
        - exists []. rewrite app_nil_r. split; [reflexivity|constructor].
        - destruct (send_batch_counts _ (payload :: rest) s1 (le_n _))
            as (_ & _ & _ & _ & calls2 & Hlog2 & Hent2).
          exists calls2.
          destruct (Importer._send_batch (payload :: rest) s1) as [s2 [[]|e]];
            split; assumption. }
      exists man, (calls1 ++ calls2), (Ok tt).
      split; [rewrite Hlog2, Hlog1, Hman, <- !app_assoc; reflexivity|].
      split; [exact Hman|]. split; [reflexivity|].
      split; [exact Hrun|].
      split; [exact (chunk_run_entity _ _ _ _ _ Hrun)|].
      split; [apply Forall_app; split; assumption|].
      split; [discriminate|].
      split; [intros _; exact (chunk_run_ok _ _ _ _ Hrun) | reflexivity].
    + exists man, calls1, (Ok tt). cbn [fst snd].
      split; [rewrite Hlog1, Hman, <- !app_assoc; reflexivity|].
      split; [exact Hman|]. split; [reflexivity|].
      split; [exact Hrun|].
      split; [exact (chunk_run_entity _ _ _ _ _ Hrun)|].
      split; [exact Hent1|].
      split; [discriminate|].
      split; [intros _; exact (chunk_run_ok _ _ _ _ Hrun) | reflexivity].
  - exists man, [], (Raise e). cbn [fst snd Importer.client Importer.set_client].
    split; [rewrite Hman, app_nil_r; reflexivity|].
    split; [exact Hman|]. split; [reflexivity|].
    split; [exact Hrun|].
    split; [exact (chunk_run_entity _ _ _ _ _ Hrun)|].
    split; [constructor|]. split; [|split].
    + intros e' [= <-]. split; [reflexivity|]. split; [reflexivity|].
      exact (chunk_run_raise _ _ _ _ _ Hrun).
    + discriminate.
    + intros Hne. contradiction.
Qed.

(** * Further properties *)

Section Trimming.
Import PyStr.

Lemma strip_front_clean (back : bool) (n : nat) :
  forall l, length l <= n ->
    Inv.starts_with_space back (strip_front back l) = false.
Proof.
  induction n as [|n IH]; intros l Hl.
  - destruct l; [reflexivity | simpl in Hl; lia].
  - destruct l as [|c1 t1]; [reflexivity|]. cbn [length] in Hl.
    cbn [strip_front]. destruct (ws1 c1) eqn:H1; [apply IH; lia|].
    destruct t1 as [|c2 t2]; [cbn; now rewrite H1|]. cbn [length] in Hl.
    destruct (if back then ws2 c2 c1 else ws2 c1 c2) eqn:H2; [apply IH; lia|].
    destruct t2 as [|c3 t3]; [cbn [Inv.starts_with_space]; now rewrite H1, H2|].
    cbn [length] in Hl.
    destruct (if back then ws3 c3 c2 c1 else ws3 c1 c2 c3) eqn:H3;
      [apply IH; lia|].
    cbn [Inv.starts_with_space]. now rewrite H1, H2, H3.
Qed.

Lemma strip_front_fixed (back : bool) (l : list ascii) :
  Inv.starts_with_space back l = false -> strip_front back l = l.
Proof.
  destruct l as [|c1 [|c2 [|c3 t3]]]; cbn [Inv.starts_with_space strip_front];
    intros Hs; repeat (apply orb_false_iff in Hs as [? Hs]);
    repeat match goal with Hx : _ = false |- _ => rewrite Hx; clear Hx end;
    reflexivity.
Qed.

Lemma strip_front_suffix (back : bool) (n : nat) :
  forall l, length l <= n -> exists pre, l = pre ++ strip_front back l.
Proof.
  induction n as [|n IH]; intros l Hl.
  - destruct l; [now exists [] | simpl in Hl; lia].
  - destruct l as [|c1 t1]; [now exists []|]. cbn [length] in Hl.
    cbn [strip_front]. destruct (ws1 c1).
    { destruct (IH t1) as [pre Hpre]; [lia|]. exists (c1 :: pre).
      cbn. now rewrite <- Hpre. }
    destruct t1 as [|c2 t2]; [now exists []|]. cbn [length] in Hl.
    destruct (if back then ws2 c2 c1 else ws2 c1 c2).
    { destruct (IH t2) as [pre Hpre]; [lia|]. exists (c1 :: c2 :: pre).
      cbn. now rewrite <- Hpre. }
    destruct t2 as [|c3 t3]; [now exists []|]. cbn [length] in Hl.
    destruct (if back then ws3 c3 c2 c1 else ws3 c1 c2 c3).
    { destruct (IH t3) as [pre Hpre]; [lia|]. exists (c1 :: c2 :: c3 :: pre).
      cbn. now rewrite <- Hpre. }
    now exists [].
Qed.

Lemma starts_with_space_prefix (p q : list ascii) :
  Inv.starts_with_space false (p ++ q) = false ->
  Inv.starts_with_space false p = false.
Proof.
  destruct p as [|c1 [|c2 [|c3 t3]]]; cbn [Inv.starts_with_space app];
    try reflexivity; intros Hs.
  - destruct q as [|? ?]; apply orb_false_iff in Hs as [-> _]; reflexivity.
  - apply orb_false_iff in Hs as [-> Hs].
    apply orb_false_iff in Hs as [-> _]. reflexivity.
  - exact Hs.
Qed.

Lemma strip_trimmed (s : string) :
  Inv.trimmed (strip s) /\ strip (strip s) = strip s.
Proof.
  unfold Inv.trimmed, strip.
  set (front := strip_front false (list_ascii_of_string s)).
  set (back := strip_front true (rev front)).
  rewrite !list_ascii_of_string_of_list_ascii.
  assert (Inv.starts_with_space true back = false) as Hback
    by (apply (strip_front_clean true (length (rev front))); lia).
  assert (Inv.starts_with_space false (rev back) = false) as Hfront.
  { destruct (strip_front_suffix true (length (rev front)) (rev front))
      as [pre Hpre]; [lia|]. fold back in Hpre.
    apply starts_with_space_prefix with (q := rev pre).
    rewrite <- rev_app_distr, <- Hpre, rev_involutive.
    apply (strip_front_clean false (length (list_ascii_of_string s))). lia. }
  rewrite rev_involutive. split; [split; assumption|].
  rewrite (strip_front_fixed false _ Hfront), rev_involutive.
  now rewrite (strip_front_fixed true _ Hback).
Qed.

End Trimming.

Section ExtractedRecords.
Import Etree Bmecat.

Lemma _find_text_field (elem : element) (tag : string) :
  Inv.text_field (_find_text elem tag).
Proof.
  destruct (_find_text elem tag) as [value|] eqn:Hv; [|exact I].
  apply _find_text_spec in Hv as (found & raw & _ & _ & <- & Hne).
  split; [exact Hne | apply strip_trimmed].
Qed.

Lemma text_field_present (o : option string) :
  Inv.text_field o -> PyStr.otruthy o = true -> Spec.present o.
Proof. intros _ Ho. now apply otruthy_present. Qed.

Lemma str_or_field (a b : option string) :
  Inv.text_field a -> Inv.text_field b -> Inv.text_field (str_or a b).
Proof. unfold str_or. now destruct (PyStr.otruthy a). Qed.

Lemma feature_entry_ok (feature : element) :
  Forall Inv.feature_ok (feature_entry feature)
  /\ length (feature_entry feature) <= 1.
Proof.
  unfold feature_entry.
  set (name := str_or (_find_text feature "FNAME") (_find_text feature "NAME")).
  set (value := str_or (_find_text feature "FVALUE") (_find_text feature "VALUE")).
  set (unit := str_or (_find_text feature "FUNIT") (_find_text feature "UNIT")).
  assert (Inv.text_field name) as Hname
    by (apply str_or_field; apply _find_text_field).
  assert (Inv.text_field value) as Hvalue
    by (apply str_or_field; apply _find_text_field).
  assert (Inv.text_field unit) as Hunit
    by (apply str_or_field; apply _find_text_field).
  destruct (negb (PyStr.otruthy name) && negb (PyStr.otruthy value)) eqn:Hboth;
    cbn [length]; split; try lia; [constructor|].
  constructor; [|constructor]. unfold Inv.feature_ok; cbn.
  split; [|split; [exact Hname | split; [exact Hvalue|]]].
  - apply andb_false_iff in Hboth as [Hn|Hn]; apply negb_false_iff in Hn;
      [left | right]; now apply otruthy_present.
  - now destruct (PyStr.otruthy unit).
Qed.

Lemma flat_map_feature_entry (features : list element) :
  Forall Inv.feature_ok (flat_map feature_entry features)
  /\ length (flat_map feature_entry features) <= length features.
Proof.
  induction features as [|f features [IH1 IH2]]; cbn [flat_map length].
  - split; [constructor | lia].
  - destruct (feature_entry_ok f) as [H1 H2]. split.
    + apply Forall_app. now split.
    + rewrite length_app. lia.
Qed.

Lemma _find_media_omap (elem : element) :
  _find_media elem =
  omap (fun mime => _find_text mime "MIME_SOURCE")
       (findall_in elem "MIME_INFO" "MIME").
Proof.
  unfold _find_media.
  induction (findall_in elem "MIME_INFO" "MIME") as [|mime rest IH];
    [reflexivity|].
  cbn [flat_map omap list_omap]. rewrite IH.
  pose proof (_find_text_field mime "MIME_SOURCE") as Hf.
  destruct (_find_text mime "MIME_SOURCE") as [source|]; [|reflexivity].
  destruct Hf as [Hne _]. apply truthy_nonempty in Hne. now rewrite Hne.
Qed.

Lemma _find_media_fields (elem : element) :
  Forall (fun source => source <> "" /\ Inv.trimmed source) (_find_media elem).
Proof.
  rewrite _find_media_omap.
  induction (findall_in elem "MIME_INFO" "MIME") as [|mime rest IH];
    [constructor|].
  cbn [omap list_omap].
  pose proof (_find_text_field mime "MIME_SOURCE") as Hf.
  destruct (_find_text mime "MIME_SOURCE") as [source|]; [|exact IH].
  constructor; [exact Hf | exact IH].
Qed.

Lemma _find_price_in_skip (pre : list element) (price_type : string)
      (rest : list element) :
  Forall (fun p => get p "price_type" <> Some price_type) pre ->
  _find_price_in (pre ++ rest) price_type = _find_price_in rest price_type.
Proof.
  induction 1 as [|p pre Hp _ IH]; [reflexivity|].
  cbn [app _find_price_in]. now rewrite bool_decide_eq_false_2.
Qed.

Lemma _find_price_in_shape (prices : list element) (price_type : string) :
  exists net currency,
    _find_price_in prices price_type = [("net", net); ("currency", currency)]
    /\ (net = VNone \/ exists x, net = VFloat x)
    /\ (currency = VNone \/ exists c, currency = VStr c /\ c <> "").
Proof.
  induction prices as [|price rest IH]; cbn [_find_price_in].
  - exists VNone, VNone. auto.
  - destruct (negb _); [exact IH|].
    eexists _, _. split; [reflexivity|]. split.
    + destruct (_find_text price "PRICE_AMOUNT") as [a|]; [|now left].
      destruct (PyFloat.of_string a); [right; eauto | now left].
    + pose proof (_find_text_field price "PRICE_CURRENCY") as Hf.
      destruct (_find_text price "PRICE_CURRENCY") as [c|]; [|now left].
      right. exists c. split; [reflexivity | apply Hf].
Qed.

Lemma _parse_article_extracted (elem : element) (mapping : Config.MappingConfig)
      (record : Product.t) :
  _parse_article elem mapping = Some record -> Inv.extracted record.
Proof.
  unfold _parse_article.
  destruct (negb (PyStr.otruthy (_find_text elem (Config.product_number mapping)))
            || negb (PyStr.otruthy (_find_text elem (Config.name mapping))))
    eqn:Hreq; [discriminate|].
  apply orb_false_iff in Hreq as [Hnum Hname].
  apply negb_false_iff, otruthy_present in Hnum, Hname.
  intros [= <-]. unfold Inv.extracted.
  cbn [Product.productNumber Product.name Product.description Product.ean
       Product.manufacturer Product.price Product.tax_rate
       Product.customFields Product.media].
  split; [exact Hnum|]. split; [exact Hname|].
  split; [repeat constructor; apply _find_text_field|].
  split.
  { unfold _find_price.
    destruct (_find_price_in_shape (findall elem "ARTICLE_PRICE")
                (Config.price_type (Config.price_selector mapping)))
      as (net & currency & -> & Hnet & Hcur).
    exists net, currency. cbn. auto. }
  split; [destruct (_find_tax elem); eauto|].
  split.
  { exists (_find_features elem). split; [reflexivity|].
    unfold _find_features. cbn [flat_map]. rewrite app_nil_r.
    apply Forall_app. split; apply flat_map_feature_entry. }
  eapply Forall_impl; [apply _find_media_fields|]. now intros ? [? _].
Qed.

End ExtractedRecords.

(** X1. [_strip_ns] removes a namespace written in braces before a tag and
    leaves a tag without a closing brace as it is. *)
Theorem strip_ns_local_name (t : string) :
  (forall ns local,
      t = ns +:+ "}" +:+ local ->
      "}"%char ∉ list_ascii_of_string ns ->
      Bmecat._strip_ns t = local)
  /\ ("}"%char ∉ list_ascii_of_string t -> Bmecat._strip_ns t = t).
Proof.
  unfold Bmecat._strip_ns. split.
  - intros ns local -> Hns.
    enough (Etree.after_brace (ns +:+ "}" +:+ local) = Some local) as ->
      by reflexivity.
    induction ns as [|c ns IH]; simpl; [reflexivity|]. simpl in Hns.
    destruct (Ascii.eqb_spec c "}") as [->|Hc].
    + exfalso. apply Hns. left.
    + apply IH. intros Hin. apply Hns. now right.
  - intros Ht. enough (Etree.after_brace t = None) as -> by reflexivity.
    induction t as [|c t IH]; cbn; [reflexivity|]. cbn in Ht.
    destruct (Ascii.eqb_spec c "}") as [->|Hc].
    + exfalso. apply Ht. left.
    + apply IH. intros Hin. apply Ht. now right.
Qed.

Lemma strip_ns_local_name_witness :
  Bmecat._strip_ns "{urn:bmecat}ARTICLE" = "ARTICLE"
  /\ Bmecat._strip_ns "ARTICLE" = "ARTICLE".
Proof.
  split.
  - apply (proj1 (strip_ns_local_name "{urn:bmecat}ARTICLE") "{urn:bmecat" "ARTICLE");
      [reflexivity|]. intros Hin; cbn in Hin;
      repeat (apply elem_of_cons in Hin as [Hin|Hin]; [discriminate Hin|]);
      inversion Hin.
  - apply (proj2 (strip_ns_local_name "ARTICLE")).
    intros Hin; cbn in Hin;
      repeat (apply elem_of_cons in Hin as [Hin|Hin]; [discriminate Hin|]);
      inversion Hin.
Defined.

(** X2. A text that [_find_text] returns is the text of the first matching
    descendant with the white space at both ends removed; it is never empty
    and stripping it again changes nothing. *)
Theorem find_text_is_trimmed (elem : Etree.element) (tag value : string) :
  Bmecat._find_text elem tag = Some value ->
  Spec.has_text elem tag value
  /\ value <> ""
  /\ Inv.trimmed value
  /\ PyStr.strip value = value.
Proof.
  intros Hv. pose proof Hv as Hspec. apply _find_text_spec in Hspec.
  split; [exact Hspec|].
  destruct Hspec as (found & raw & _ & _ & <- & Hne).
  split; [exact Hne|]. apply strip_trimmed.
Qed.

Lemma find_text_is_trimmed_witness :
  Bmecat._find_text Sample.article "SUPPLIER_PID" = Some "ABC123"
  /\ Inv.trimmed "ABC123"
  /\ PyStr.strip "ABC123" = "ABC123".
Proof.
  split; [reflexivity|].
  apply (find_text_is_trimmed Sample.article "SUPPLIER_PID" "ABC123" eq_refl).
Defined.

(** X3. [_find_price] answers with the first price element whose
    [price_type] attribute equals the wanted type: prices of other types
    before it are skipped and nothing after it is looked at. Without such an
    element both keys hold [None]. *)
Theorem find_price_first_match (elem : Etree.element) (price_type : string) :
  (forall pre price post,
      Etree.findall elem "ARTICLE_PRICE" = pre ++ price :: post ->
      Forall (fun p => Etree.get p "price_type" <> Some price_type) pre ->
      Etree.get price "price_type" = Some price_type ->
      Bmecat._find_price elem price_type =
      [("net",
        match Bmecat._find_text price "PRICE_AMOUNT" with
        | Some amount =>
            match PyFloat.of_string amount with
            | Some x => VFloat x
            | None => VNone
            end
        | None => VNone
        end);
       ("currency",
        match Bmecat._find_text price "PRICE_CURRENCY" with
        | Some currency => VStr currency
        | None => VNone
        end)])
  /\ (Forall (fun p => Etree.get p "price_type" <> Some price_type)
        (Etree.findall elem "ARTICLE_PRICE") ->
      Bmecat._find_price elem price_type = [("net", VNone); ("currency", VNone)]).
Proof.
  unfold Bmecat._find_price. split.
  - intros pre price post -> Hpre Hprice.
    rewrite (_find_price_in_skip pre price_type (price :: post) Hpre).
    cbn [Bmecat._find_price_in]. now rewrite bool_decide_eq_true_2.
  - intros Hall.
    rewrite <- (app_nil_r (Etree.findall elem "ARTICLE_PRICE")).
    now rewrite (_find_price_in_skip _ price_type [] Hall).
Qed.

Lemma find_price_first_match_witness :
  Bmecat._find_price Fixture.article_with_three_prices "net_list"
  = [("net", VFloat (Sample.lit "10.0")); ("currency", VStr "EUR")]
  /\ Bmecat._find_price Fixture.article_with_three_prices "gross_list"
     = [("net", VNone); ("currency", VNone)].
Proof.
  split.
  - refine (proj1 (find_price_first_match Fixture.article_with_three_prices
                     "net_list")
              [ Etree.Element "ARTICLE_PRICE" [("price_type", "net_customer")] None
                  [ Sample.leaf "PRICE_AMOUNT" "8.50" ] ]
              (Etree.Element "ARTICLE_PRICE" [("price_type", "net_list")] None
                 [ Sample.leaf "PRICE_AMOUNT" " 10.00 ";
                   Sample.leaf "PRICE_CURRENCY" "EUR" ])
              [ Etree.Element "ARTICLE_PRICE" [("price_type", "net_list")] None
                  [ Sample.leaf "PRICE_AMOUNT" "12.00" ] ] _ _ _).
    + reflexivity.
    + constructor; [discriminate | constructor].
    + reflexivity.
  - apply (proj2 (find_price_first_match Fixture.article_with_three_prices
                    "gross_list")).
    repeat constructor; discriminate.
Defined.

(** X4. The price dictionary of [_find_price] always has exactly the keys
    [net] and [currency]; the net price is [None] or a float (an amount that
    is missing or does not read as a number gives [None], no error), the
    currency is [None] or a non-empty string. *)
Theorem find_price_shape (elem : Etree.element) (price_type : string) :
  exists net currency,
    Bmecat._find_price elem price_type = [("net", net); ("currency", currency)]
    /\ (net = VNone \/ exists x, net = VFloat x)
    /\ (currency = VNone \/ exists c, currency = VStr c /\ c <> "").
Proof. apply _find_price_in_shape. Qed.

(** X5. [_find_features] lists the entries of the FEATURE children of
    ARTICLE_FEATURES before those of PRODUCT_FEATURES, at most one entry per
    FEATURE element; every entry has a name or a value, and a field that is
    set is a non-empty trimmed text. *)
Theorem find_features_entries (elem : Etree.element) :
  Bmecat._find_features elem =
  flat_map Bmecat.feature_entry
    (Etree.findall_in elem "ARTICLE_FEATURES" "FEATURE")
  ++ flat_map Bmecat.feature_entry
       (Etree.findall_in elem "PRODUCT_FEATURES" "FEATURE")
  /\ Forall Inv.feature_ok (Bmecat._find_features elem)
  /\ length (Bmecat._find_features elem)
     <= length (Etree.findall_in elem "ARTICLE_FEATURES" "FEATURE")
        + length (Etree.findall_in elem "PRODUCT_FEATURES" "FEATURE").
Proof.
  assert (Bmecat._find_features elem =
          flat_map Bmecat.feature_entry
            (Etree.findall_in elem "ARTICLE_FEATURES" "FEATURE")
          ++ flat_map Bmecat.feature_entry
               (Etree.findall_in elem "PRODUCT_FEATURES" "FEATURE")) as Heq
    by (unfold Bmecat._find_features; cbn [flat_map]; now rewrite app_nil_r).
  split; [exact Heq|]. rewrite Heq.
  destruct (flat_map_feature_entry
              (Etree.findall_in elem "ARTICLE_FEATURES" "FEATURE")) as [Ha1 Ha2].
  destruct (flat_map_feature_entry
              (Etree.findall_in elem "PRODUCT_FEATURES" "FEATURE")) as [Hp1 Hp2].
  split.
  - apply Forall_app. now split.
  - rewrite length_app. lia.
Qed.

(** X6. [_find_media] collects, in document order, the text of MIME_SOURCE
    of every MIME child of a MIME_INFO element that has one; no collected
    source is empty. *)
Theorem find_media_sources (elem : Etree.element) :
  Bmecat._find_media elem =
  omap (fun mime => Bmecat._find_text mime "MIME_SOURCE")
       (Etree.findall_in elem "MIME_INFO" "MIME")
  /\ Forall (fun source => source <> "" /\ Inv.trimmed source)
       (Bmecat._find_media elem).
Proof. split; [apply _find_media_omap | apply _find_media_fields]. Qed.

Lemma iter_bmecat_products_extracted
      (context : list Etree.element) (mapping : Config.MappingConfig) :
  Forall Inv.extracted (Bmecat.iter_bmecat_products context mapping).
Proof.
  induction context as [|elem rest IH]; [constructor|].
  cbn [Bmecat.iter_bmecat_products].
  destruct (String.eqb _ _); [|exact IH].
  destruct (Bmecat._parse_article elem mapping) as [record|] eqn:Hp; [|exact IH].
  constructor; [|exact IH]. eapply _parse_article_extracted, Hp.
Qed.

(** X7. Every record the extractor emits has a product number and a name,
    a price dictionary with the keys [net] and [currency], a tax rate that
    is [None] or a float, its features under [etim], and no empty text in
    any field. Elements other than ARTICLE contribute nothing, so there are
    at most as many records as ARTICLE elements. *)
Theorem extracted_records_well_formed
        (context : list Etree.element) (mapping : Config.MappingConfig) :
  Forall Inv.extracted (Bmecat.iter_bmecat_products context mapping)
  /\ Bmecat.iter_bmecat_products context mapping
     = Bmecat.iter_bmecat_products (List.filter Inv.is_article context) mapping
  /\ length (Bmecat.iter_bmecat_products context mapping)
     <= length (List.filter Inv.is_article context).
Proof.
  split; [apply iter_bmecat_products_extracted|].
  induction context as [|elem rest (IH2 & IH3)].
  - cbn. split; [reflexivity | lia].
  - cbn [Bmecat.iter_bmecat_products List.filter].
    destruct (Inv.is_article elem) eqn:Ha; pose proof Ha as Htag;
      unfold Inv.is_article in Htag; rewrite Htag.
    + cbn [Bmecat.iter_bmecat_products length]. rewrite Htag, <- IH2.
      destruct (Bmecat._parse_article elem mapping) as [record|];
        (split; [reflexivity | cbn [app length]; lia]).
    + split; [exact IH2 | exact IH3].
Qed.

Section UuidText.
Local Open Scope Z_scope.

Lemma hex_digit_is_hex (d : Z) :
  0 <= d < 16 -> Inv.is_hex_digit (Uuid.hex_digit d) = true.
Proof.
  intros Hd.
  assert (d = 0 \/ d = 1 \/ d = 2 \/ d = 3 \/ d = 4 \/ d = 5 \/ d = 6 \/ d = 7
          \/ d = 8 \/ d = 9 \/ d = 10 \/ d = 11 \/ d = 12 \/ d = 13 \/ d = 14
          \/ d = 15) as Hcases by lia.
  repeat (destruct Hcases as [->|Hcases]; [reflexivity|]). now subst.
Qed.

Lemma nibble_is_hex (x k : Z) :
  Inv.char_matches "x" (Uuid.hex_digit (Z.shiftr x k mod 16)) = true.
Proof.
  change (Inv.char_matches "x" ?c) with (Inv.is_hex_digit c).
  apply hex_digit_is_hex, Z.mod_pos_bound. lia.
Qed.

Lemma nibble_bits (x k d : Z) :
  0 <= k -> 0 <= d < 16 ->
  (forall n, 0 <= n < 4 -> Z.testbit x (k + n) = Z.testbit d n) ->
  Z.shiftr x k mod 16 = d.
Proof.
  intros Hk Hd Hbits. apply Z.bits_inj'. intros n Hn.
  change 16 with (2 ^ 4). destruct (Z.lt_ge_cases n 4) as [Hlt|Hge].
  - rewrite Z.mod_pow2_bits_low by lia. rewrite Z.shiftr_spec by lia.
    rewrite Z.add_comm. apply Hbits. lia.
  - rewrite Z.mod_pow2_bits_high by lia. symmetry.
    apply (bits_above d 4); [exact Hd | exact Hge].
Qed.

Lemma of_bytes_bit (b : list Z) (n : Z) :
  0 <= n ->
  Z.testbit (Uuid.of_bytes b 5) n =
  (Z.testbit (Sha1.be_int b) n
     && negb (Z.testbit (Z.shiftl 0xc000 48) n)
   || Z.testbit (Z.shiftl 0x8000 48) n)
    && negb (Z.testbit (Z.shiftl 0xf000 64) n)
  || Z.testbit (Z.shiftl 5 76) n.
Proof.
  intros Hn. unfold Uuid.of_bytes. cbv zeta.
  now rewrite Z.lor_spec, Z.land_spec, Z.lor_spec, Z.land_spec,
    !Z.lnot_spec by lia.
Qed.

Lemma version_nibble (b : list Z) : Z.shiftr (Uuid.of_bytes b 5) 76 mod 16 = 5.
Proof.
  apply nibble_bits; [lia | lia |]. intros n Hn.
  rewrite of_bytes_bit by lia.
  assert (n = 0 \/ n = 1 \/ n = 2 \/ n = 3) as [-> | [-> | [-> | ->]]] by lia.
  - change (Z.testbit (Z.shiftl 61440 64) (76 + 0)) with true.
    change (Z.testbit (Z.shiftl 5 76) (76 + 0)) with true.
    now rewrite andb_false_r.
  - change (Z.testbit (Z.shiftl 61440 64) (76 + 1)) with true.
    change (Z.testbit (Z.shiftl 5 76) (76 + 1)) with false.
    now rewrite andb_false_r.
  - change (Z.testbit (Z.shiftl 61440 64) (76 + 2)) with true.
    change (Z.testbit (Z.shiftl 5 76) (76 + 2)) with true.
    now rewrite andb_false_r.
  - change (Z.testbit (Z.shiftl 61440 64) (76 + 3)) with true.
    change (Z.testbit (Z.shiftl 5 76) (76 + 3)) with false.
    now rewrite andb_false_r.
Qed.

Lemma variant_nibble (b : list Z) :
  exists d, 8 <= d < 12 /\ Z.shiftr (Uuid.of_bytes b 5) 60 mod 16 = d.
Proof.
  set (lo := Z.b2z (Z.testbit (Sha1.be_int b) 60)
             + 2 * Z.b2z (Z.testbit (Sha1.be_int b) 61)).
  exists (8 + lo).
  assert (0 <= lo < 4) as Hlo
    by (subst lo; destruct (Z.testbit _ 60), (Z.testbit _ 61); cbn; lia).
  split; [lia|]. apply nibble_bits; [lia | lia |]. intros n Hn.
  rewrite of_bytes_bit by lia.
  assert (n = 0 \/ n = 1 \/ n = 2 \/ n = 3) as [-> | [-> | [-> | ->]]] by lia.
  - change (Z.testbit (Z.shiftl 49152 48) (60 + 0)) with false.
    change (Z.testbit (Z.shiftl 32768 48) (60 + 0)) with false.
    change (Z.testbit (Z.shiftl 61440 64) (60 + 0)) with false.
    change (Z.testbit (Z.shiftl 5 76) (60 + 0)) with false.
    change (60 + 0) with 60. subst lo.
    destruct (Z.testbit _ 60), (Z.testbit _ 61); reflexivity.
  - change (Z.testbit (Z.shiftl 49152 48) (60 + 1)) with false.
    change (Z.testbit (Z.shiftl 32768 48) (60 + 1)) with false.
    change (Z.testbit (Z.shiftl 61440 64) (60 + 1)) with false.
    change (Z.testbit (Z.shiftl 5 76) (60 + 1)) with false.
    change (60 + 1) with 61. subst lo.
    destruct (Z.testbit _ 60), (Z.testbit _ 61); reflexivity.
  - change (Z.testbit (Z.shiftl 49152 48) (60 + 2)) with true.
    change (Z.testbit (Z.shiftl 32768 48) (60 + 2)) with false.
    change (Z.testbit (Z.shiftl 61440 64) (60 + 2)) with false.
    change (Z.testbit (Z.shiftl 5 76) (60 + 2)) with false.
    rewrite andb_false_r. subst lo.
    destruct (Z.testbit _ 60), (Z.testbit _ 61); reflexivity.
  - change (Z.testbit (Z.shiftl 49152 48) (60 + 3)) with true.
    change (Z.testbit (Z.shiftl 32768 48) (60 + 3)) with true.
    change (Z.testbit (Z.shiftl 61440 64) (60 + 3)) with false.
    change (Z.testbit (Z.shiftl 5 76) (60 + 3)) with false.
    rewrite andb_false_r. subst lo.
    destruct (Z.testbit _ 60), (Z.testbit _ 61); reflexivity.
Qed.

Lemma to_string_uuid5_text (b : list Z) :
  Inv.uuid5_text (Uuid.to_string (Uuid.of_bytes b 5)).
Proof.
  unfold Inv.uuid5_text, Uuid.to_string.
  rewrite list_ascii_of_string_of_list_ascii.
  set (u := Uuid.of_bytes b 5).
  pose proof (version_nibble b) as Hversion.
  destruct (variant_nibble b) as (d & Hd & Hvariant).
  fold u in Hversion, Hvariant.
  cbn [Uuid.hex take drop app Inv.uuid5_pattern list_ascii_of_string Inv.matches].
  change (Z.of_nat 19) with 19. change (4 * 19) with 76. rewrite Hversion.
  change (Z.of_nat 15) with 15. change (4 * 15) with 60. rewrite Hvariant.
  rewrite !nibble_is_hex. cbn [andb].
  assert (d = 8 \/ d = 9 \/ d = 10 \/ d = 11) as [-> | [-> | [-> | ->]]] by lia;
    reflexivity.
Qed.

End UuidText.

Section Payloads.
Import Importer.

(** What a payload that was built looks like. *)
Lemma build_payload_inv (product : Product.t) (settings : Config.Settings)
      (currency_id : string) (tax_cache : Shopware.tax_table)
      (payload : Payload.t) :
  _build_product_payload product settings currency_id tax_cache
  = Ok (Some payload) ->
  let rate := _resolve_tax_rate (Product.tax_rate product) settings in
  exists number name net tax_id,
    Product.productNumber product = Some number /\ number <> ""
    /\ Product.name product = Some name /\ name <> ""
    /\ Spec.net_price product = Some net
    /\ Shopware.tax_get tax_cache rate = Some tax_id /\ tax_id <> ""
    /\ payload =
       {| Payload.id := _stable_uuid "product" number;
          Payload.productNumber := number;
          Payload.name := name;
          Payload.description := Product.description product;
          Payload.ean := Product.ean product;
          Payload.manufacturerId :=
            match Product.manufacturer product with
            | Some m =>
                if PyStr.truthy m then Some (_stable_uuid "manufacturer" m)
                else None
            | None => None
            end;
          Payload.taxId := tax_id;
          Payload.price :=
            [ {| Payload.currencyId := currency_id;
                 Payload.net := net;
                 Payload.gross := calculate_gross net rate;
                 Payload.linked := true |} ];
          Payload.stock := 0;
          Payload.active := true;
          Payload.customFields := default [] (Product.customFields product);
          Payload.visibilities :=
            match Config.sales_channel_id (Config.shopware settings) with
            | Some sc =>
                if PyStr.truthy sc then
                  Some [ {| Payload.salesChannelId := sc;
                            Payload.visibility :=
                              match Config.default_visibility
                                      (Config.shopware settings) with
                              | Some v => if (v =? 0)%Z then 30%Z else v
                              | None => 30%Z
                              end |} ]
                else None
            | None => None
            end |}.
Proof.
  intros Hbuilt rate. revert Hbuilt. unfold _build_product_payload.
  fold rate.
  destruct (Product.productNumber product) as [number|]; [|discriminate].
  destruct (Product.name product) as [name|]; [|discriminate].
  destruct (PyStr.truthy number) eqn:H1; [|discriminate].
  destruct (PyStr.truthy name) eqn:H2; [|discriminate].
  cbn [negb orb]. apply truthy_nonempty in H1, H2.
  destruct (Product.price_dict (Product.price product)) as [price|] eqn:Hprice;
    [|discriminate].
  rewrite (net_price_coerce product price Hprice).
  destruct (Spec.net_price product) as [net|]; [|discriminate].
  destruct (Shopware.tax_get tax_cache rate) as [tax_id|] eqn:Htax;
    [|discriminate].
  cbn [PyStr.otruthy default]. destruct (PyStr.truthy tax_id) eqn:H3;
    [|discriminate].
  cbn [negb]. apply truthy_nonempty in H3. intros [= <-].
  exists number, name, net, tax_id. repeat (split; [first [reflexivity | assumption]|]).
  reflexivity.
Qed.

End Payloads.

(** X8. A record that comes out of the extractor is turned down by the
    payload builder only for want of a net price: product number and name
    are always there. When a payload is built it carries the record's
    product number, name and net price. *)
Theorem extracted_record_rejected_only_without_price
        (context : list Etree.element) (mapping : Config.MappingConfig)
        (settings : Config.Settings) (currency_id : string)
        (tax_cache : Shopware.tax_table) (record : Product.t) :
  record ∈ Bmecat.iter_bmecat_products context mapping ->
  let built :=
    Importer._build_product_payload record settings currency_id tax_cache in
  (built = Ok None <-> Spec.net_price record = None)
  /\ (Spec.net_price record = None
      <-> exists currency,
            Product.price record
            = Product.PriceDict [("net", VNone); ("currency", currency)])
  /\ (forall payload, built = Ok (Some payload) ->
        Product.productNumber record = Some (Payload.productNumber payload)
        /\ Product.name record = Some (Payload.name payload)
        /\ Spec.net_price record = option_map Payload.net (head (Payload.price payload))).
Proof.
  intros Hin built.
  pose proof (iter_bmecat_products_extracted context mapping) as Hall.
  rewrite Forall_forall in Hall. specialize (Hall record Hin).
  destruct Hall as (Hnum & Hname & _ & (net & cur & Hprice & Hnet & _) & _).
  split; [|split].
  - destruct (build_cases record settings currency_id tax_cache)
      as [(Hc & _ & Hb)|[((_ & Hc) & _)|[(Hc & _ & Hb)
                                        |(Hc & _ & payload & number & Hb & _)]]];
      [| congruence | |]; fold built in Hb; rewrite Hb.
    + split; [intros _ | reflexivity].
      destruct (Spec.net_price record) eqn:Hn; [|reflexivity].
      exfalso. apply Hc. split; [exact Hnum|]. split; [exact Hname|].
      rewrite Hn. eauto.
    + destruct Hc as (_ & _ & [x Hx]). rewrite Hx. split; discriminate.
    + destruct Hc as (_ & _ & [x Hx]). rewrite Hx. split; discriminate.
  - unfold Spec.net_price. rewrite Hprice. cbn.
    destruct Hnet as [->|[x ->]].
    + split; [eauto | reflexivity].
    + split; [discriminate|]. intros [c [=]].
  - intros payload Hb. apply build_payload_inv in Hb.
    destruct Hb as (number & name & x & tax_id & Hn & _ & Hm & _ & Hx & _ & _ & ->).
    cbn. auto.
Qed.

Lemma extracted_record_rejected_only_without_price_witness :
  exists record,
    record ∈ Bmecat.iter_bmecat_products
               [Sample.article; Sample.article_without_price] Sample.mapping
    /\ Importer._build_product_payload record (Sample.settings ∅) "cur-eur"
         Sample.taxes = Ok None
    /\ Spec.net_price record = None.
Proof.
  exists (default (Sample.record None None None VNone)
            (Bmecat._parse_article Sample.article_without_price Sample.mapping)).
  assert (default (Sample.record None None None VNone)
            (Bmecat._parse_article Sample.article_without_price Sample.mapping)
          ∈ Bmecat.iter_bmecat_products
              [Sample.article; Sample.article_without_price] Sample.mapping)
    as Hin by (vm_compute; apply elem_of_cons; right; apply elem_of_cons; left;
               reflexivity).
  split; [exact Hin|].
  pose proof (extracted_record_rejected_only_without_price _ _
                (Sample.settings ∅) "cur-eur" Sample.taxes _ Hin) as (Hiff & _).
  assert (Spec.net_price
            (default (Sample.record None None None VNone)
               (Bmecat._parse_article Sample.article_without_price
                  Sample.mapping)) = None) as Hnone by reflexivity.
  split; [apply Hiff, Hnone | exact Hnone].
Defined.

(** X9. A payload that was built has a non-empty product number, name and
    tax id, the tax id being the table's entry for the resolved rate; one
    price entry, linked, in the currency of the run, with the gross price
    of [calculate_gross]; stock 0; active. It has a visibility entry exactly
    when a sales channel is configured, and that entry's visibility is the
    configured one, or 30 when none or 0 is configured. *)
Theorem built_payload_fields
        (product : Product.t) (settings : Config.Settings)
        (currency_id : string) (tax_cache : Shopware.tax_table)
        (payload : Payload.t) :
  Importer._build_product_payload product settings currency_id tax_cache
  = Ok (Some payload) ->
  let rate := Importer._resolve_tax_rate (Product.tax_rate product) settings in
  let channel := Config.sales_channel_id (Config.shopware settings) in
  let configured := Config.default_visibility (Config.shopware settings) in
  Payload.productNumber payload <> ""
  /\ Payload.name payload <> ""
  /\ Payload.taxId payload <> ""
  /\ Shopware.tax_get tax_cache rate = Some (Payload.taxId payload)
  /\ (exists net,
        Spec.net_price product = Some net
        /\ Payload.price payload =
           [ {| Payload.currencyId := currency_id;
                Payload.net := net;
                Payload.gross := Importer.calculate_gross net rate;
                Payload.linked := true |} ])
  /\ Payload.stock payload = 0%Z
  /\ Payload.active payload = true
  /\ (Payload.visibilities payload = None <-> ~ Spec.present channel)
  /\ (forall entries,
        Payload.visibilities payload = Some entries ->
        exists sc v,
          channel = Some sc
          /\ entries = [ {| Payload.salesChannelId := sc;
                            Payload.visibility := v |} ]
          /\ v <> 0%Z
          /\ (configured = Some v
              \/ (v = 30%Z /\ (configured = None \/ configured = Some 0%Z)))).
Proof.
  intros Hbuilt rate channel configured.
  apply build_payload_inv in Hbuilt. fold rate channel configured in Hbuilt.
  destruct Hbuilt as (number & name & net & tax_id & _ & Hnumber & _ & Hname
                      & Hnet & Htax & Htax_id & ->).
  cbn [Payload.productNumber Payload.name Payload.taxId Payload.price
       Payload.stock Payload.active Payload.visibilities].
  split; [exact Hnumber|]. split; [exact Hname|]. split; [exact Htax_id|].
  split; [exact Htax|]. split; [exists net; split; [exact Hnet | reflexivity]|].
  split; [reflexivity|]. split; [reflexivity|]. split.
  - rewrite <- otruthy_present. destruct channel as [sc|]; cbn [PyStr.otruthy].
    + destruct (PyStr.truthy sc); split; congruence.
    + split; congruence.
  - intros entries. destruct channel as [sc|]; [|discriminate].
    destruct (PyStr.truthy sc); [|discriminate]. intros [= <-].
    destruct configured as [v|].
    + destruct (Z.eqb_spec v 0) as [->|Hv].
      * exists sc, 30%Z. split; [reflexivity|]. split; [reflexivity|].
        split; [lia | right; auto].
      * exists sc, v. split; [reflexivity|]. split; [reflexivity|].
        split; [exact Hv | now left].
    + exists sc, 30%Z. split; [reflexivity|]. split; [reflexivity|].
      split; [lia | right; auto].
Qed.

Lemma built_payload_fields_witness :
  exists payload,
    Importer._build_product_payload
      (Sample.record (Some "A1") (Some "n") None (VFloat (Sample.lit "10.0")))
      (Sample.settings ∅) "cur-eur" Sample.taxes = Ok (Some payload)
    /\ Payload.taxId payload <> ""
    /\ Payload.stock payload = 0%Z
    /\ (Payload.visibilities payload = None
        <-> ~ Spec.present
                (Config.sales_channel_id (Config.shopware (Sample.settings ∅)))).
Proof.
  assert (exists payload,
             Importer._build_product_payload
               (Sample.record (Some "A1") (Some "n") None
                  (VFloat (Sample.lit "10.0")))
               (Sample.settings ∅) "cur-eur" Sample.taxes = Ok (Some payload))
    as [payload Hbuilt] by (eexists; vm_compute; reflexivity).
  exists payload. split; [exact Hbuilt|].
  pose proof (built_payload_fields _ _ _ _ _ Hbuilt)
    as (_ & _ & Htax & _ & _ & Hstock & _ & Hvis & _).
  split; [exact Htax|]. split; [exact Hstock | exact Hvis].
Defined.

(** X10. The payload builder hands the resolved tax rate, a percentage, to
    [calculate_gross], which reads a rate of at most 1 as a fraction. So
    for a record whose rate is a fraction of at most one percent (and no
    override is configured) the gross price is the net price times one plus
    the percentage: a rate of 0.01 doubles the price. *)
Theorem gross_of_rates_up_to_one_percent
        (product : Product.t) (settings : Config.Settings)
        (currency_id : string) (tax_cache : Shopware.tax_table)
        (payload : Payload.t) (rate : PyFloat.float) :
  Importer._build_product_payload product settings currency_id tax_cache
  = Ok (Some payload) ->
  Product.tax_rate product = VFloat rate ->
  Config.tax_mapping (Config.tax settings) = ∅ ->
  PyFloat.leb rate Importer.one = true ->
  PyFloat.leb (PyFloat.mul rate Importer.hundred) Importer.one = true ->
  Importer._resolve_tax_rate (Product.tax_rate product) settings
  = PyFloat.mul rate Importer.hundred
  /\ exists net,
      Spec.net_price product = Some net
      /\ map Payload.gross (Payload.price payload) =
         [ PyFloat.round2
             (PyFloat.mul net
                (PyFloat.add Importer.one
                   (PyFloat.mul rate Importer.hundred))) ].
Proof.
  intros Hbuilt Hrate Hmap Hfraction Hpercent.
  assert (Importer._resolve_tax_rate (Product.tax_rate product) settings
          = PyFloat.mul rate Importer.hundred) as Hresolved.
  { rewrite Hrate. unfold Importer._resolve_tax_rate.
    cbn [Importer.float_of]. rewrite Hmap, Hfraction, !lookup_empty.
    reflexivity. }
  split; [exact Hresolved|].
  apply build_payload_inv in Hbuilt. rewrite Hresolved in Hbuilt.
  destruct Hbuilt as (number & name & net & tax_id & _ & _ & _ & _ & Hnet & _ & _
                      & ->).
  exists net. split; [exact Hnet|]. cbn [Payload.price map Payload.gross].
  unfold Importer.calculate_gross.
  now rewrite (leb_not_gtb _ _ Hpercent).
Qed.

Lemma gross_of_rates_up_to_one_percent_witness :
  exists payload,
    Importer._build_product_payload Fixture.record_at_one_percent
      (Sample.settings ∅) "cur-eur" [(Sample.lit "1", "tax-1")]
    = Ok (Some payload)
    /\ Importer._resolve_tax_rate (Product.tax_rate Fixture.record_at_one_percent)
         (Sample.settings ∅) = Sample.lit "1"
    /\ Spec.net_price Fixture.record_at_one_percent = Some (Sample.lit "10")
    /\ map Payload.gross (Payload.price payload) = [Sample.lit "20"].
Proof.
  assert (exists payload,
             Importer._build_product_payload Fixture.record_at_one_percent
               (Sample.settings ∅) "cur-eur" [(Sample.lit "1", "tax-1")]
             = Ok (Some payload)) as [payload Hbuilt]
    by (eexists; vm_compute; reflexivity).
  assert (PyFloat.leb (Sample.lit "0.01") Importer.one = true) as Hfraction
    by (vm_compute; reflexivity).
  assert (PyFloat.leb (PyFloat.mul (Sample.lit "0.01") Importer.hundred)
            Importer.one = true) as Hpercent by (vm_compute; reflexivity).
  assert (Spec.net_price Fixture.record_at_one_percent = Some (Sample.lit "10"))
    as Hten by (vm_compute; reflexivity).
  exists payload. split; [exact Hbuilt|].
  destruct (gross_of_rates_up_to_one_percent _ _ _ _ _ (Sample.lit "0.01")
              Hbuilt eq_refl eq_refl Hfraction Hpercent)
    as (Hresolved & net & Hnet & Hgross).
  split; [rewrite Hresolved; vm_compute; reflexivity|].
  split; [exact Hten|].
  rewrite Hgross. rewrite Hten in Hnet. injection Hnet as <-.
  vm_compute. reflexivity.
Defined.

(** X11. Every id that [_stable_uuid] makes is the text of a version-5
    UUID: 8-4-4-4-12 lower-case hexadecimal digits separated by dashes, the
    version digit 5 and the variant digit one of 8, 9, a, b. *)
Theorem stable_uuid_is_uuid5_text (prefix value : string) :
  Inv.uuid5_text (Importer._stable_uuid prefix value).
Proof. apply to_string_uuid5_text. Qed.

(** X12. The manufacturer id in a product payload is the id under which
    that manufacturer is upserted: for a record of the store that names a
    manufacturer, the payload refers to an entity of the manufacturer
    upload list; a record that names none, or an empty one, gives a payload
    without reference. *)
Theorem manufacturer_reference_is_upserted
        (records : list Product.t) (product : Product.t)
        (settings : Config.Settings) (currency_id : string)
        (tax_cache : Shopware.tax_table) (payload : Payload.t) :
  product ∈ records ->
  Importer._build_product_payload product settings currency_id tax_cache
  = Ok (Some payload) ->
  let uploaded :=
    map Importer.manufacturer_payload
      (Importer.sorted (Importer._collect_manufacturer_names records)) in
  (forall reference,
      Payload.manufacturerId payload = Some reference ->
      exists name,
        Product.manufacturer product = Some name
        /\ name <> ""
        /\ Payload.ManufacturerItem
             {| Payload.m_id := reference; Payload.m_name := name |} ∈ uploaded)
  /\ (Payload.manufacturerId payload = None
      <-> ~ Spec.present (Product.manufacturer product)).
Proof.
  intros Hin Hbuilt uploaded. apply build_payload_inv in Hbuilt.
  destruct Hbuilt as (number & name & net & tax_id & _ & _ & _ & _ & _ & _ & _
                      & ->).
  cbn [Payload.manufacturerId]. rewrite <- otruthy_present.
  destruct (Product.manufacturer product) as [m|] eqn:Hm; cbn [PyStr.otruthy].
  2: { split; [discriminate | split; congruence]. }
  destruct (PyStr.truthy m) eqn:Ht.
  2: { split; [discriminate | split; congruence]. }
  split; [|split; congruence].
  intros reference [= <-]. apply truthy_nonempty in Ht.
  exists m. split; [reflexivity|]. split; [exact Ht|].
  subst uploaded. apply elem_of_map. exists m. split; [reflexivity|].
  apply sorted_spec, collect_manufacturer_names_spec.
  split; [exact Ht|]. exists product. split; [exact Hin | exact Hm].
Qed.


Lemma manufacturer_reference_is_upserted_witness :
  exists payload reference,
    Importer._build_product_payload Fixture.record_at_one_percent
      (Sample.settings ∅) "cur-eur" [(Sample.lit "1", "tax-1")]
    = Ok (Some payload)
    /\ Payload.manufacturerId payload = Some reference
    /\ Payload.ManufacturerItem
         {| Payload.m_id := reference; Payload.m_name := "Acme" |}
       ∈ map Importer.manufacturer_payload
           (Importer.sorted
              (Importer._collect_manufacturer_names
                 [Fixture.record_at_one_percent])).
Proof.
  assert (exists payload,
             Importer._build_product_payload Fixture.record_at_one_percent
               (Sample.settings ∅) "cur-eur" [(Sample.lit "1", "tax-1")]
             = Ok (Some payload)) as [payload Hbuilt]
    by (eexists; vm_compute; reflexivity).
  assert (Fixture.record_at_one_percent ∈ [Fixture.record_at_one_percent])
    as Hin by (apply elem_of_cons; now left).
  destruct (manufacturer_reference_is_upserted _ _ _ _ _ _ Hin Hbuilt)
    as [Href Hnone].
  destruct (Payload.manufacturerId payload) as [reference|] eqn:Hreference.
  - exists payload, reference. split; [exact Hbuilt|].
    split; [exact Hreference|].
    destruct (Href reference eq_refl) as (name & Hname & _ & Helem).
    injection Hname as <-. exact Helem.
  - exfalso. apply (proj1 Hnone eq_refl). exists "Acme".
    split; [reflexivity | discriminate].
Defined.

Section Traces.
Import Shopware Importer.
Context `{Remote}.

Lemma uploaded_items_app (calls1 calls2 : list call) :
  Inv.uploaded_items (calls1 ++ calls2)
  = Inv.uploaded_items calls1 ++ Inv.uploaded_items calls2.
Proof. apply flat_map_app. Qed.

Lemma rejected_items_app (lines1 lines2 : list error_line) :
  Inv.rejected_items (lines1 ++ lines2)
  = Inv.rejected_items lines1 ++ Inv.rejected_items lines2.
Proof. apply flat_map_app. Qed.

Lemma rejected_records_app (lines1 lines2 : list error_line) :
  Inv.rejected_records (lines1 ++ lines2)
  = Inv.rejected_records lines1 ++ Inv.rejected_records lines2.
Proof. apply flat_map_app. Qed.

Lemma extends_refl (s : state) : Inv.extends s s [] [] [].
Proof. unfold Inv.extends. rewrite !app_nil_r. cbn. repeat split; lia. Qed.

Lemma extends_trans (s1 s2 s3 : state) calls1 lines1 media1 calls2 lines2 media2 :
  Inv.extends s1 s2 calls1 lines1 media1 ->
  Inv.extends s2 s3 calls2 lines2 media2 ->
  Inv.extends s1 s3 (calls1 ++ calls2) (lines1 ++ lines2) (media1 ++ media2).
Proof.
  intros (Hc1 & Hl1 & Hm1 & Hu1 & He1) (Hc2 & Hl2 & Hm2 & Hu2 & He2).
  unfold Inv.extends.
  rewrite Hc2, Hc1, Hl2, Hl1, Hm2, Hm1, Hu2, Hu1, He2, He1, uploaded_items_app,
    !length_app, !app_assoc.
  repeat split; lia.
Qed.

(** One call of [sync_upsert] for a group that is not empty. *)
Lemma sync_upsert_call (entity : string) (payload : list Payload.item)
      (c c' : client_state) (r : result unit) :
  payload <> [] ->
  sync_upsert entity payload c = (c', r) ->
  posted c' = posted c ++ [ {| Shopware.entity := entity;
                               Shopware.payload := payload;
                               outcome := r |} ].
Proof.
  intros Hne Hcall.
  destruct (sync_upsert_posted entity payload c) as [[Hnil _]|[_ Hposted]];
    [contradiction|].
  now rewrite Hcall in Hposted.
Qed.

(** What [_send_batch] does, whatever the remote system answers. *)
Lemma send_batch_trace (n : nat) :
  forall (batch : list Payload.t) (s : state),
    length batch <= n ->
    exists calls lines,
      Inv.extends s (_send_batch batch s).1 calls lines []
      /\ products_processed (stats (_send_batch batch s).1)
         = products_processed (stats s)
      /\ length calls <= 2 * length batch - 1
      /\ Forall (Inv.product_call (length batch)) calls
      /\ Forall (Inv.upload_error batch) lines
      /\ ((_send_batch batch s).2 = Ok tt ->
          map Payload.ProductItem batch
          ≡ₚ Inv.uploaded_items calls ++ Inv.rejected_items lines)
      /\ (forall e, (_send_batch batch s).2 = Raise e ->
          caught e = false
          /\ exists before last,
              calls = before ++ [last] /\ outcome last = Raise e).
Proof.
  induction n as [|n IH]; intros batch s Hlen; rewrite _send_batch_eq.
  all: destruct batch as [|first batch];
    [ exists [], []; cbn; unfold Inv.extends; cbn; rewrite !app_nil_r;
      split; [split; [|split; [|split; [|split]]]; first [reflexivity | lia]|];
      split; [reflexivity|]; split; [lia|]; split; [constructor|];
      split; [constructor|]; split; [reflexivity | discriminate]
    | cbn [length] in Hlen; try lia ].
  set (whole := first :: batch) in *.
  assert (map Payload.ProductItem whole <> []) as Hne by discriminate.
  destruct (sync_upsert "product" (map Payload.ProductItem whole) (client s))
    as [c r] eqn:Hcall.
  pose proof (sync_upsert_call _ _ _ _ _ Hne Hcall) as Hposted.
  set (call0 := {| entity := "product";
                   payload := map Payload.ProductItem whole;
                   outcome := r |}) in *.
  assert (Inv.product_call (length whole) call0) as Hcall0
    by (split; [reflexivity | cbn; rewrite length_map; lia]).
  assert (1 <= length whole) as Hpos by (cbn; lia).
  destruct r as [[]|exc].
  { exists [call0], []. cbn [fst snd].
    split; [|split; [|split; [|split; [|split; [|split]]]]].
    - unfold Inv.extends. cbn -[whole]. rewrite Hposted, !app_nil_r, length_map.
      split; [|split; [|split; [|split]]]; first [reflexivity | lia].
    - reflexivity.
    - cbn [length]. lia.
    - constructor; [exact Hcall0 | constructor].
    - constructor.
    - intros _. cbn -[whole]. now rewrite !app_nil_r.
    - discriminate. }
  destruct (caught exc) eqn:Hcaught.
  2: { exists [call0], []. cbn [fst snd].
       split; [|split; [|split; [|split; [|split; [|split]]]]].
       - unfold Inv.extends. cbn -[whole]. rewrite Hposted, !app_nil_r.
         split; [|split; [|split; [|split]]]; first [reflexivity | lia].
       - reflexivity.
       - cbn [length]. lia.
       - constructor; [exact Hcall0 | constructor].
       - constructor.
       - discriminate.
       - intros e [= <-]. split; [exact Hcaught|].
         exists [], call0. split; reflexivity. }
  destruct batch as [|second batch].
  { exists [call0], [ {| item := ItemPayload first; reason := exn_str exc |} ].
    subst whole. cbn [fst snd Nat.eqb length].
    split; [|split; [|split; [|split; [|split; [|split]]]]].
    - unfold Inv.extends. cbn. rewrite Hposted, ?app_nil_r.
      split; [|split; [|split; [|split]]]; first [reflexivity | lia].
    - reflexivity.
    - cbn [length]. lia.
    - constructor; [exact Hcall0 | constructor].
    - constructor; [|constructor]. exists first, exc.
      split; [reflexivity|]. split; [apply elem_of_cons; now left|].
      split; [exact Hcaught | reflexivity].
    - intros _. reflexivity.
    - discriminate. }
  replace (length whole =? 1)%nat with false by reflexivity.
  set (mid := (length whole / 2)%nat).
  assert (1 <= mid /\ mid < length whole)%nat as Hmid.
  { subst mid. assert (2 <= length whole)%nat by (subst whole; cbn; lia).
    pose proof (Nat.div_lt (length whole) 2).
    pose proof (Nat.div_str_pos (length whole) 2). lia. }
  assert (length whole <= S n)%nat as Hwhole
    by (subst whole; cbn [length] in *; lia).
  assert (Inv.extends s (set_client c s) [call0] [] []) as Hstep0.
  { unfold Inv.extends. cbn -[whole]. rewrite Hposted, !app_nil_r.
    split; [|split; [|split; [|split]]]; first [reflexivity | lia]. }
  destruct (IH (take mid whole) (set_client c s))
    as (calls1 & lines1 & Hext1 & Hp1 & Hn1 & Hc1 & Hl1 & Hok1 & Hraise1);
    [rewrite length_take; lia|].
  rewrite length_take in Hn1, Hc1.
  destruct (_send_batch (take mid whole) (set_client c s)) as [s1 [[]|e1]];
    cbn [fst snd] in *.
  - destruct (IH (drop mid whole) s1)
      as (calls2 & lines2 & Hext2 & Hp2 & Hn2 & Hc2 & Hl2 & Hok2 & Hraise2);
      [rewrite length_drop; lia|].
    rewrite length_drop in Hn2, Hc2.
    exists ([call0] ++ calls1 ++ calls2), (lines1 ++ lines2).
    split; [|split; [|split; [|split; [|split; [|split]]]]].
    + pose proof (extends_trans _ _ _ _ _ _ _ _ _ Hstep0
                    (extends_trans _ _ _ _ _ _ _ _ _ Hext1 Hext2)) as Hext.
      exact Hext.
    + rewrite Hp2, Hp1. reflexivity.
    + rewrite !length_app. cbn [length]. lia.
    + apply Forall_app. split; [constructor; [exact Hcall0 | constructor]|].
      apply Forall_app. split.
      * eapply Forall_impl; [exact Hc1|]. intros x [Hx1 Hx2].
        split; [exact Hx1 | lia].
      * eapply Forall_impl; [exact Hc2|]. intros x [Hx1 Hx2].
        split; [exact Hx1 | lia].
    + apply Forall_app. split.
      * eapply Forall_impl; [exact Hl1|]. intros x (p & e & Hx1 & Hx2 & Hx3).
        exists p, e. split; [exact Hx1|]. split; [|exact Hx3].
        rewrite <- (take_drop mid whole). apply elem_of_app. now left.
      * eapply Forall_impl; [exact Hl2|]. intros x (p & e & Hx1 & Hx2 & Hx3).
        exists p, e. split; [exact Hx1|]. split; [|exact Hx3].
        rewrite <- (take_drop mid whole). apply elem_of_app. now right.
    + intros Hok. specialize (Hok1 eq_refl). specialize (Hok2 Hok).
      rewrite <- (take_drop mid whole) at 1.
      rewrite map_app, Hok1, Hok2, !uploaded_items_app, rejected_items_app.
      cbn [Inv.uploaded_items flat_map call0 outcome app].
      rewrite <- !app_assoc. apply Permutation_app_head.
      rewrite !app_assoc. apply Permutation_app_tail.
      apply Permutation_app_comm.
    + intros e He. destruct (Hraise2 e He) as (Hce & before & last & -> & Hlast).
      split; [exact Hce|]. exists ([call0] ++ calls1 ++ before), last.
      split; [now rewrite <- !app_assoc | exact Hlast].
  - exists ([call0] ++ calls1), lines1.
    split; [|split; [|split; [|split; [|split; [|split]]]]].
    + pose proof (extends_trans _ _ _ _ _ _ _ _ _ Hstep0 Hext1) as Hext.
      exact Hext.
    + rewrite Hp1. reflexivity.
    + rewrite !length_app. cbn [length]. lia.
    + apply Forall_app. split; [constructor; [exact Hcall0 | constructor]|].
      eapply Forall_impl; [exact Hc1|]. intros x [Hx1 Hx2].
      split; [exact Hx1 | lia].
    + eapply Forall_impl; [exact Hl1|]. intros x (p & e & Hx1 & Hx2 & Hx3).
      exists p, e. split; [exact Hx1|]. split; [|exact Hx3].
      rewrite <- (take_drop mid whole). apply elem_of_app. now left.
    + discriminate.
    + intros e [= <-].
      destruct (Hraise1 e1 eq_refl) as (Hce & before & last & -> & Hlast).
      split; [exact Hce|]. exists ([call0] ++ before), last.
      split; [now rewrite <- !app_assoc | exact Hlast].
Qed.

End Traces.

Section RunTraces.
Import Shopware Importer.
Context `{Remote}.

Lemma upload_error_import_error (batch : list Payload.t) (l : error_line) :
  Inv.upload_error batch l -> Inv.import_error l.
Proof.
  intros (p & e & Hitem & _ & Hcaught & Hreason). unfold Inv.import_error.
  rewrite Hitem. eauto.
Qed.

Lemma product_call_le (a b : nat) (c : call) :
  a <= b -> Inv.product_call a c -> Inv.product_call b c.
Proof. intros Hab [Hentity Hsize]. split; [exact Hentity | lia]. Qed.

(** What the loop over the records does, whatever the remote system
    answers. *)
Lemma import_loop_trace (settings : Config.Settings) (currency_id : string)
      (tax_cache : tax_table) (batch_size : Z) (records : list Product.t) :
  forall (batch : list Payload.t) (s : state),
    length batch < Inv.batch_limit batch_size ->
    exists calls lines media,
      Inv.extends s
        (import_loop records settings currency_id tax_cache batch_size batch s).1
        calls lines media
      /\ Forall (Inv.product_call (Inv.batch_limit batch_size)) calls
      /\ Forall Inv.import_error lines
      /\ (forall rest,
            (import_loop records settings currency_id tax_cache batch_size
               batch s).2 = Ok rest ->
            length rest < Inv.batch_limit batch_size
            /\ media = Inv.media_lines settings currency_id tax_cache records
            /\ Inv.rejected_records lines
               = Inv.turned_down settings currency_id tax_cache records
            /\ map Payload.ProductItem
                 (batch ++ Inv.built settings currency_id tax_cache records)
               ≡ₚ Inv.uploaded_items calls ++ Inv.rejected_items lines
                  ++ map Payload.ProductItem rest).
Proof.
  induction records as [|r records IH]; intros batch s Hbatch.
  { exists [], [], []. cbn [import_loop fst snd].
    split; [apply extends_refl|]. split; [constructor|]. split; [constructor|].
    intros rest [= <-]. split; [exact Hbatch|]. split; [reflexivity|].
    split; [reflexivity|]. cbn. now rewrite app_nil_r. }
  cbn [import_loop]. unfold Inv.media_lines, Inv.turned_down, Inv.built.
  cbn [flat_map List.filter omap list_omap].
  fold (Inv.media_lines settings currency_id tax_cache records).
  fold (Inv.turned_down settings currency_id tax_cache records).
  fold (Inv.built settings currency_id tax_cache records).
  assert (Inv.extends s (bump_processed s) [] [] []) as Hstep0.
  { unfold Inv.extends. cbn. rewrite !app_nil_r.
    split; [|split; [|split; [|split]]]; first [reflexivity | lia]. }
  destruct (_build_product_payload r settings currency_id tax_cache)
    as [[p|]|e].
  - (* a payload was built *)
    set (s2 := match Product.media r with
               | [] => bump_processed s
               | _ :: _ =>
                   append_media
                     {| ml_productNumber := Product.productNumber r;
                        ml_media := Product.media r |} (bump_processed s)
               end).
    set (queued := match Product.media r with
                   | [] => []
                   | _ :: _ =>
                       [ {| ml_productNumber := Product.productNumber r;
                            ml_media := Product.media r |} ]
                   end).
    assert (Inv.extends s s2 [] [] queued) as Hstep2.
    { subst s2 queued. unfold Inv.extends.
      destruct (Product.media r); cbn; rewrite ?app_nil_r;
        (split; [|split; [|split; [|split]]]; first [reflexivity | lia]). }
    clearbody s2.
    destruct (Z.leb_spec batch_size (Z.of_nat (length (batch ++ [p]))))
      as [Hfull|Hroom].
    + destruct (send_batch_trace (length (batch ++ [p])) (batch ++ [p]) s2
                  (le_n _))
        as (calls1 & lines1 & Hext1 & _ & _ & Hc1 & Hl1 & Hok1 & _).
      assert (length (batch ++ [p]) <= Inv.batch_limit batch_size) as Hfits
        by (rewrite length_app in *; cbn [length] in *; lia).
      destruct (_send_batch (batch ++ [p]) s2) as [s3 [[]|e]];
        cbn [fst snd] in *.
      * destruct (IH [] s3) as (calls2 & lines2 & media2 & Hext2 & Hc2 & Hl2
                                & Hok2);
          [cbn; unfold Inv.batch_limit; lia|].
        exists (calls1 ++ calls2), (lines1 ++ lines2), (queued ++ media2).
        split; [|split; [|split]].
        -- pose proof (extends_trans _ _ _ _ _ _ _ _ _ Hstep2
                         (extends_trans _ _ _ _ _ _ _ _ _ Hext1 Hext2)) as Hext.
           exact Hext.
        -- apply Forall_app. split; [|exact Hc2].
           eapply Forall_impl; [exact Hc1|]. intros c.
           apply product_call_le, Hfits.
        -- apply Forall_app. split; [|exact Hl2].
           eapply Forall_impl; [exact Hl1|]. intros l.
           apply upload_error_import_error.
        -- intros rest Hrest.
           destruct (Hok2 rest Hrest) as (Hlen & -> & Hturned & Hperm).
           split; [exact Hlen|]. split; [reflexivity|]. split.
           ++ rewrite rejected_records_app, Hturned.
              enough (Inv.rejected_records lines1 = []) as -> by reflexivity.
              clear -Hl1. induction Hl1 as [|l lines1 (q & e & Hq & _) _ IHl];
                [reflexivity|].
              cbn. rewrite Hq. exact IHl.
           ++ specialize (Hok1 eq_refl).
              rewrite uploaded_items_app, rejected_items_app.
              replace (batch ++ p :: Inv.built settings currency_id tax_cache records)
                with ((batch ++ [p])
                        ++ ([] ++ Inv.built settings currency_id tax_cache records))
                by (now rewrite <- app_assoc).
              rewrite map_app, Hok1, Hperm, <- !app_assoc.
              apply Permutation_app_head.
              rewrite !app_assoc. apply Permutation_app_tail.
              apply Permutation_app_tail. apply Permutation_app_comm.
      * exists calls1, lines1, queued.
        split; [|split; [|split]].
        -- pose proof (extends_trans _ _ _ _ _ _ _ _ _ Hstep2 Hext1) as Hext.
           now rewrite app_nil_r in Hext.
        -- eapply Forall_impl; [exact Hc1|]. intros c.
           apply product_call_le, Hfits.
        -- eapply Forall_impl; [exact Hl1|]. intros l.
           apply upload_error_import_error.
        -- discriminate.
    + destruct (IH (batch ++ [p]) s2)
        as (calls2 & lines2 & media2 & Hext2 & Hc2 & Hl2 & Hok2).
      { rewrite length_app in *. cbn [length] in *. unfold Inv.batch_limit. lia. }
      exists calls2, lines2, (queued ++ media2).
      split; [|split; [|split]].
      * pose proof (extends_trans _ _ _ _ _ _ _ _ _ Hstep2 Hext2) as Hext.
        exact Hext.
      * exact Hc2.
      * exact Hl2.
      * intros rest Hrest.
        destruct (Hok2 rest Hrest) as (Hlen & -> & Hturned & Hperm).
        split; [exact Hlen|]. split; [reflexivity|]. split; [exact Hturned|].
        rewrite <- Hperm, <- app_assoc. reflexivity.
  - (* the record was turned down *)
    set (line := {| item := ItemProduct r; reason := "missing_required_fields" |}).
    assert (Inv.extends s (append_error line (bump_errors (bump_processed s)))
              [] [line] []) as Hstep2.
    { unfold Inv.extends. cbn. rewrite !app_nil_r.
      split; [|split; [|split; [|split]]]; first [reflexivity | lia]. }
    destruct (IH batch (append_error line (bump_errors (bump_processed s))) Hbatch)
      as (calls2 & lines2 & media2 & Hext2 & Hc2 & Hl2 & Hok2).
    exists calls2, ([line] ++ lines2), media2.
    split; [|split; [|split]].
    + pose proof (extends_trans _ _ _ _ _ _ _ _ _ Hstep2 Hext2) as Hext.
      exact Hext.
    + exact Hc2.
    + constructor; [reflexivity | exact Hl2].
    + intros rest Hrest.
      destruct (Hok2 rest Hrest) as (Hlen & -> & Hturned & Hperm).
      split; [exact Hlen|]. split; [reflexivity|]. split.
      * cbn. now rewrite <- Hturned.
      * exact Hperm.
  - (* the build failed *)
    exists [], [], []. cbn [fst snd].
    split; [exact Hstep0|]. split; [constructor|]. split; [constructor|].
    discriminate.
Qed.

End RunTraces.

Section WholeRun.
Import Shopware Importer.
Context `{Remote}.

Lemma chunk_run_sizes (entity : string) (size : Z) items calls r :
  (0 < size)%Z ->
  Spec.chunk_run entity size items calls r ->
  Forall (fun c => Shopware.entity c = entity
                   /\ 1 <= length (payload c)
                   /\ (Z.of_nat (length (payload c)) <= size)%Z) calls.
Proof.
  intros Hpos.
  induction 1 as [|items r Hne Hlt|items rest e Hsize|items rest calls r Hsize _ IH].
  - constructor.
  - constructor; [|constructor]. cbn. split; [reflexivity|].
    destruct items; [contradiction|]. cbn [length] in *. split; lia.
  - constructor; [|constructor]. cbn. split; [reflexivity|].
    destruct items; cbn [length] in *; split; lia.
  - constructor; [|exact IH]. cbn. split; [reflexivity|].
    destruct items; cbn [length] in *; split; lia.
Qed.

(** What a whole run does, whatever the remote system answers. *)
Lemma import_products_trace (records : list Product.t)
      (settings : Config.Settings) (batch_size : Z) (s : state) :
  exists mcalls pcalls lines media,
    posted (client (import_products records settings batch_size s).1)
    = posted (client s) ++ mcalls ++ pcalls
    /\ errors_ndjson (import_products records settings batch_size s).1
       = errors_ndjson s ++ lines
    /\ media_queue_ndjson (import_products records settings batch_size s).1
       = media_queue_ndjson s ++ media
    /\ errors (stats (import_products records settings batch_size s).1)
       = Z.of_nat (length lines)
    /\ products_uploaded (stats (import_products records settings batch_size s).1)
       = Z.of_nat (length (Inv.uploaded_items pcalls))
    /\ Forall (Inv.manufacturer_call 200) mcalls
    /\ Forall (Inv.product_call (Inv.batch_limit batch_size)) pcalls
    /\ Forall Inv.import_error lines
    /\ (forall st,
          (import_products records settings batch_size s).2 = Ok st ->
          st = stats (import_products records settings batch_size s).1
          /\ products_processed st = Z.of_nat (length records)
          /\ (products_processed st = products_uploaded st + errors st)%Z
          /\ exists currency_id tax_cache r0 r1,
              get_currency_id (remote (client s))
                (Config.currency (Config.price_selector (Config.mapping settings)))
              = (r0, Ok currency_id)
              /\ load_taxes r0 = (r1, Ok tax_cache)
              /\ media = Inv.media_lines settings currency_id tax_cache records
              /\ Inv.rejected_records lines
                 = Inv.turned_down settings currency_id tax_cache records
              /\ map Payload.ProductItem
                   (Inv.built settings currency_id tax_cache records)
                 ≡ₚ Inv.uploaded_items pcalls ++ Inv.rejected_items lines).
Proof.
  unfold import_products.
  cbn [client set_stats set_client remote posted].
  destruct (get_currency_id (remote (client s))
              (Config.currency (Config.price_selector (Config.mapping settings))))
    as [r0 [currency_id|e]] eqn:Hcur.
  2: { exists [], [], [], []. cbn. rewrite !app_nil_r.
       split; [reflexivity|]. split; [reflexivity|]. split; [reflexivity|].
       split; [reflexivity|]. split; [reflexivity|]. split; [constructor|].
       split; [constructor|]. split; [constructor | discriminate]. }
  destruct (load_taxes r0) as [r1 [tax_cache|e]] eqn:Htax.
  2: { exists [], [], [], []. cbn. rewrite !app_nil_r.
       split; [reflexivity|]. split; [reflexivity|]. split; [reflexivity|].
       split; [reflexivity|]. split; [reflexivity|]. split; [constructor|].
       split; [constructor|]. split; [constructor | discriminate]. }
  set (c1 := {| remote := r1; posted := posted (client s) |}).
  destruct (send_sync_batches_loop_run "product_manufacturer" 200
              (map manufacturer_payload
                 (sorted (_collect_manufacturer_names records)))
              ltac:(lia) [] c1 ltac:(cbn; lia)) as (mcalls & Hposted & Hrun).
  apply chunk_run_sizes in Hrun; [|lia].
  assert (Forall (Inv.manufacturer_call 200) mcalls) as Hmcalls.
  { eapply Forall_impl; [exact Hrun|]. intros c (Hentity & Hone & Hmax).
    split; [exact Hentity | lia]. }
  clear Hrun. unfold _upsert_manufacturers, _send_sync_batches.
  destruct (_send_sync_batches_loop "product_manufacturer"
              (map manufacturer_payload
                 (sorted (_collect_manufacturer_names records))) [] 200 c1)
    as [c [[]|e]]; cbn [fst snd] in Hposted;
    change (posted c1) with (posted (client s)) in Hposted.
  2: { exists mcalls, [], [], []. cbn. rewrite !app_nil_r.
       split; [exact Hposted|]. split; [reflexivity|]. split; [reflexivity|].
       split; [reflexivity|]. split; [reflexivity|]. split; [exact Hmcalls|].
       split; [constructor|]. split; [constructor | discriminate]. }
  set (s3 := set_client c _).
  assert (0 < Inv.batch_limit batch_size) as Hlimit
    by (unfold Inv.batch_limit; lia).
  destruct (import_loop_trace settings currency_id tax_cache batch_size records
              [] s3 Hlimit)
    as (calls & lines & media & (Hc & He & Hm & Hu & Hn) & Hcalls & Hlines & Hok).
  change (posted (client s3)) with (posted c) in Hc.
  rewrite Hposted, <- app_assoc in Hc.
  change (errors_ndjson s3) with (errors_ndjson s) in He.
  change (media_queue_ndjson s3) with (media_queue_ndjson s) in Hm.
  change (products_uploaded (stats s3)) with 0%Z in Hu.
  change (errors (stats s3)) with 0%Z in Hn.
  pose proof (import_loop_counts settings currency_id tax_cache batch_size
                records [] s3) as (_ & Hcount & _).
  change (products_processed (stats s3)) with 0%Z in Hcount.
  change (products_uploaded (stats s3)) with 0%Z in Hcount.
  change (errors (stats s3)) with 0%Z in Hcount.
  destruct (import_loop records settings currency_id tax_cache batch_size [] s3)
    as [s4 [rest|e]]; cbn [fst snd] in *.
  2: { exists mcalls, calls, lines, media. rewrite Hc.
       split; [reflexivity|]. split; [exact He|]. split; [exact Hm|].
       split; [lia|]. split; [lia|]. split; [exact Hmcalls|].
       split; [exact Hcalls|]. split; [exact Hlines | discriminate]. }
  destruct (Hok rest eq_refl) as (Hrest & -> & Hturned & Hperm).
  destruct (Hcount rest eq_refl) as (Hprocessed & Hbalance).
  cbn [app length] in Hperm, Hprocessed, Hbalance.
  destruct rest as [|first rest].
  { exists mcalls, calls, lines,
      (Inv.media_lines settings currency_id tax_cache records).
    cbn [fst snd]. rewrite Hc.
    split; [reflexivity|]. split; [exact He|]. split; [exact Hm|].
    split; [lia|]. split; [lia|]. split; [exact Hmcalls|].
    split; [exact Hcalls|]. split; [exact Hlines|].
    intros st [= <-]. split; [reflexivity|]. cbn [length] in Hbalance.
    split; [lia|]. split; [lia|].
    exists currency_id, tax_cache, r0, r1.
    split; [reflexivity|]. split; [exact Htax|]. split; [reflexivity|].
    split; [exact Hturned|]. cbn [map] in Hperm.
    now rewrite !app_nil_r in Hperm. }
  destruct (send_batch_trace (length (first :: rest)) (first :: rest) s4 (le_n _))
    as (calls5 & lines5 & (Hc5 & He5 & Hm5 & Hu5 & Hn5) & Hp5 & _ & Hcalls5
        & Hlines5 & Hok5 & _).
  pose proof (send_batch_counts (length (first :: rest)) (first :: rest) s4
                (le_n _)) as (_ & _ & _ & Hsum5 & _).
  exists mcalls, (calls ++ calls5), (lines ++ lines5),
    (Inv.media_lines settings currency_id tax_cache records).
  assert (Forall (Inv.product_call (Inv.batch_limit batch_size)) (calls ++ calls5))
    as Hall.
  { apply Forall_app. split; [exact Hcalls|].
    eapply Forall_impl; [exact Hcalls5|]. intros x.
    apply product_call_le. lia. }
  assert (Forall Inv.import_error (lines ++ lines5)) as Hall_lines.
  { apply Forall_app. split; [exact Hlines|].
    eapply Forall_impl; [exact Hlines5|]. intros x.
    apply upload_error_import_error. }
  destruct (_send_batch (first :: rest) s4) as [s5 [[]|e]]; cbn [fst snd] in *.
  - rewrite Hc5, Hc, He5, He, Hm5, Hm, Hn5, Hn, Hu5, Hu,
      uploaded_items_app, !length_app, !app_nil_r, <- !app_assoc.
    split; [reflexivity|]. split; [reflexivity|]. split; [reflexivity|].
    split; [lia|]. split; [lia|]. split; [exact Hmcalls|].
    split; [exact Hall|]. split; [exact Hall_lines|].
    intros st [= <-]. split; [reflexivity|].
    specialize (Hsum5 eq_refl). cbn [length] in Hsum5, Hbalance.
    split; [lia|]. split; [lia|].
    exists currency_id, tax_cache, r0, r1.
    split; [reflexivity|]. split; [exact Htax|]. split; [reflexivity|].
    split.
    + rewrite rejected_records_app, Hturned.
      enough (Inv.rejected_records lines5 = []) as ->
        by now rewrite app_nil_r.
      clear -Hlines5.
      induction Hlines5 as [|l lines5 (q & e & Hq & _) _ IHl]; [reflexivity|].
      cbn. rewrite Hq. exact IHl.
    + rewrite Hperm, (Hok5 eq_refl), rejected_items_app, <- ?app_assoc.
      apply Permutation_app_head.
      rewrite !app_assoc. apply Permutation_app_tail.
      apply Permutation_app_comm.
  - rewrite Hc5, Hc, He5, He, Hm5, Hm, Hn5, Hn, Hu5, Hu,
      uploaded_items_app, !length_app, !app_nil_r, <- !app_assoc.
    split; [reflexivity|]. split; [reflexivity|]. split; [reflexivity|].
    split; [lia|]. split; [lia|]. split; [exact Hmcalls|].
    split; [exact Hall|]. split; [exact Hall_lines | discriminate].
Qed.

End WholeRun.

(** X13. When [_send_batch] returns, every payload of the batch is
    accounted for exactly once: it was part of a call that succeeded, or it
    has an error line of its own that gives the text of a handled error.
    The counters move by as much, and nothing else is written. *)
Theorem send_batch_accounts_for_every_payload `{Shopware.Remote}
        (batch : list Payload.t) (s s' : Importer.state) :
  Importer._send_batch batch s = (s', Ok tt) ->
  exists calls lines,
    Inv.extends s s' calls lines []
    /\ Forall (Inv.upload_error batch) lines
    /\ map Payload.ProductItem batch
       ≡ₚ Inv.uploaded_items calls ++ Inv.rejected_items lines
    /\ Importer.products_processed (Importer.stats s')
       = Importer.products_processed (Importer.stats s).
Proof.
  intros Hrun.
  destruct (send_batch_trace (length batch) batch s (le_n _))
    as (calls & lines & Hext & Hp & _ & _ & Hl & Hok & _).
  rewrite Hrun in Hext, Hp, Hok. cbn [fst snd] in *.
  exists calls, lines. split; [exact Hext|]. split; [exact Hl|].
  split; [exact (Hok eq_refl) | exact Hp].
Qed.

Lemma send_batch_accounts_for_every_payload_witness :
  let R := Sample.remote_rejecting "B" in
  let batch := [Sample.payload "A"] ++ Sample.payload "B" :: [Sample.payload "C"] in
  exists s' calls lines,
    @Importer._send_batch R batch (Sample.start R tt) = (s', Ok tt)
    /\ @Inv.extends R (Sample.start R tt) s' calls lines []
    /\ map Payload.ProductItem batch
       ≡ₚ Inv.uploaded_items calls ++ Inv.rejected_items lines.
Proof.
  intros R batch.
  assert (Sample.payload "B" ∉ [Sample.payload "A"]) as HA.
  { intros Hin%list_elem_of_singleton.
    apply (f_equal Payload.productNumber) in Hin. discriminate. }
  assert (Sample.payload "B" ∉ [Sample.payload "C"]) as HC.
  { intros Hin%list_elem_of_singleton.
    apply (f_equal Payload.productNumber) in Hin. discriminate. }
  destruct (@send_batch_one_bad R (Sample.payload "B") (length batch)
              (remote_rejecting_rejects_exactly "B")
              [Sample.payload "A"] [Sample.payload "C"] (Sample.start R tt)
              (le_n _) HA HC) as (s' & e & Hrun & _).
  destruct (@send_batch_accounts_for_every_payload R batch (Sample.start R tt)
              s' Hrun) as (calls & lines & Hext & _ & Hperm & _).
  exists s', calls, lines. split; [exact Hrun|]. split; [exact Hext | exact Hperm].
Defined.

(** X14. [_send_batch] posts at most 2n - 1 calls for a batch of n
    payloads (none for an empty batch), each for the entity [product] with
    at least one and at most n items. An error it lets through is never a
    [SyncError] or an HTTP error: it is the outcome of the last call
    posted. *)
Theorem send_batch_calls `{Shopware.Remote}
        (batch : list Payload.t) (s : Importer.state) :
  exists calls,
    Shopware.posted (Importer.client (Importer._send_batch batch s).1)
    = Shopware.posted (Importer.client s) ++ calls
    /\ length calls <= 2 * length batch - 1
    /\ Forall (Inv.product_call (length batch)) calls
    /\ (forall e,
          (Importer._send_batch batch s).2 = Raise e ->
          Importer.caught e = false
          /\ exists before last,
              calls = before ++ [last] /\ Shopware.outcome last = Raise e).
Proof.
  destruct (send_batch_trace (length batch) batch s (le_n _))
    as (calls & lines & (Hposted & _) & _ & Hn & Hc & _ & _ & Hraise).
  exists calls. split; [exact Hposted|]. split; [exact Hn|].
  split; [exact Hc | exact Hraise].
Qed.

(** X15. When a run ends without error, every record of the store is
    accounted for exactly once. The records the payload builder turns down
    are, in the order of the store, the records of the error lines that
    report a record; the payloads built from the other records are, up to
    order, the items of the successful product calls together with the
    payloads of the error lines that report a payload. The counters of the
    returned statistics count exactly those. *)
Theorem import_accounts_for_every_record `{Shopware.Remote}
        (records : list Product.t) (settings : Config.Settings)
        (batch_size : Z) (s s' : Importer.state) (st : Importer.ImportStats) :
  Importer.import_products records settings batch_size s = (s', Ok st) ->
  exists currency_id tax_cache r0 r1 mcalls pcalls lines,
    Shopware.get_currency_id (Shopware.remote (Importer.client s))
      (Config.currency (Config.price_selector (Config.mapping settings)))
    = (r0, Ok currency_id)
    /\ Shopware.load_taxes r0 = (r1, Ok tax_cache)
    /\ Shopware.posted (Importer.client s')
       = Shopware.posted (Importer.client s) ++ mcalls ++ pcalls
    /\ Forall (fun c => Shopware.entity c = "product_manufacturer") mcalls
    /\ Forall (fun c => Shopware.entity c = "product") pcalls
    /\ Importer.errors_ndjson s' = Importer.errors_ndjson s ++ lines
    /\ Forall Inv.import_error lines
    /\ Inv.rejected_records lines
       = Inv.turned_down settings currency_id tax_cache records
    /\ map Payload.ProductItem (Inv.built settings currency_id tax_cache records)
       ≡ₚ Inv.uploaded_items pcalls ++ Inv.rejected_items lines
    /\ Importer.errors st = Z.of_nat (length lines)
    /\ Importer.products_uploaded st
       = Z.of_nat (length (Inv.uploaded_items pcalls)).
Proof.
  intros Hrun.
  destruct (import_products_trace records settings batch_size s)
    as (mcalls & pcalls & lines & media & Hposted & Hlines & _ & He & Hu & Hm
        & Hp & Hreason & Hok).
  rewrite Hrun in *. cbn [fst snd] in *.
  destruct (Hok st eq_refl)
    as (-> & _ & _ & currency_id & tax_cache & r0 & r1 & Hcur & Htax & _
        & Hturned & Hperm).
  exists currency_id, tax_cache, r0, r1, mcalls, pcalls, lines.
  split; [exact Hcur|]. split; [exact Htax|]. split; [exact Hposted|].
  split; [eapply Forall_impl; [exact Hm|]; now intros c [Hc _]|].
  split; [eapply Forall_impl; [exact Hp|]; now intros c [Hc _]|].
  split; [exact Hlines|]. split; [exact Hreason|]. split; [exact Hturned|].
  split; [exact Hperm|]. split; [exact He | exact Hu].
Qed.

Lemma import_accounts_for_every_record_witness :
  let R := Sample.remote_rejecting "B" in
  let records :=
    [ Sample.record (Some "A1") (Some "n") (Some "Acme") (VFloat (Sample.lit "10.0"));
      Sample.record (Some "A2") None None (VFloat (Sample.lit "10.0")) ] in
  exists s' st pcalls lines,
    @Importer.import_products R records (Sample.settings ∅) 250
      (Sample.start R tt) = (s', Ok st)
    /\ Inv.rejected_records lines
       = Inv.turned_down (Sample.settings ∅) "cur-eur" Sample.taxes records
    /\ map Payload.ProductItem
         (Inv.built (Sample.settings ∅) "cur-eur" Sample.taxes records)
       ≡ₚ Inv.uploaded_items pcalls ++ Inv.rejected_items lines
    /\ Importer.errors st = Z.of_nat (length lines)
    /\ Importer.products_uploaded st
       = Z.of_nat (length (Inv.uploaded_items pcalls)).
Proof.
  intros R records.
  assert (exists s' st,
             @Importer.import_products R records (Sample.settings ∅) 250
               (Sample.start R tt) = (s', Ok st)) as (s' & st & Hrun)
    by (eexists _, _; vm_compute; reflexivity).
  destruct (@import_accounts_for_every_record R records (Sample.settings ∅) 250
              (Sample.start R tt) s' st Hrun)
    as (currency_id & tax_cache & r0 & r1 & mcalls & pcalls & lines & Hcur & Htax
        & _ & _ & _ & _ & _ & Hturned & Hperm & He & Hu).
  injection Hcur as _ <-. injection Htax as _ <-.
  exists s', st, pcalls, lines. split; [exact Hrun|]. split; [exact Hturned|].
  split; [exact Hperm|]. split; [exact He | exact Hu].
Defined.

(** X16. Whatever the outcome of a run, the sync calls it posts are first
    those for manufacturers, then those for products; no call is empty, a
    manufacturer call carries at most 200 entities and a product call at
    most [batch_size] payloads (one, when [batch_size] is below 1). *)
Theorem import_call_sizes `{Shopware.Remote}
        (records : list Product.t) (settings : Config.Settings)
        (batch_size : Z) (s : Importer.state) :
  exists mcalls pcalls,
    Shopware.posted
      (Importer.client (Importer.import_products records settings batch_size s).1)
    = Shopware.posted (Importer.client s) ++ mcalls ++ pcalls
    /\ Forall (Inv.manufacturer_call 200) mcalls
    /\ Forall (Inv.product_call (Inv.batch_limit batch_size)) pcalls.
Proof.
  destruct (import_products_trace records settings batch_size s)
    as (mcalls & pcalls & lines & media & Hposted & _ & _ & _ & _ & Hm & Hp & _).
  exists mcalls, pcalls. split; [exact Hposted|]. split; [exact Hm | exact Hp].
Qed.

(** X17. When a run ends without error, the media queue has grown by one
    line for every record that has media and from which a payload was
    built, in the order of the store. The line is written before the upload,
    so a product that the remote system refuses still has its line. *)
Theorem import_media_queue `{Shopware.Remote}
        (records : list Product.t) (settings : Config.Settings)
        (batch_size : Z) (s s' : Importer.state) (st : Importer.ImportStats) :
  Importer.import_products records settings batch_size s = (s', Ok st) ->
  exists currency_id tax_cache r0 r1,
    Shopware.get_currency_id (Shopware.remote (Importer.client s))
      (Config.currency (Config.price_selector (Config.mapping settings)))
    = (r0, Ok currency_id)
    /\ Shopware.load_taxes r0 = (r1, Ok tax_cache)
    /\ Importer.media_queue_ndjson s'
       = Importer.media_queue_ndjson s
           ++ Inv.media_lines settings currency_id tax_cache records.
Proof.
  intros Hrun.
  destruct (import_products_trace records settings batch_size s)
    as (mcalls & pcalls & lines & media & _ & _ & Hmedia & _ & _ & _ & _ & _
        & Hok).
  rewrite Hrun in *. cbn [fst snd] in *.
  destruct (Hok st eq_refl)
    as (_ & _ & _ & currency_id & tax_cache & r0 & r1 & Hcur & Htax & -> & _).
  exists currency_id, tax_cache, r0, r1.
  split; [exact Hcur|]. split; [exact Htax | exact Hmedia].
Qed.

Lemma import_media_queue_witness :
  let R := Sample.remote_rejecting "B" in
  let records :=
    [ Fixture.record_with_media;
      Sample.record (Some "A2") None None (VFloat (Sample.lit "10.0")) ] in
  exists s' st,
    @Importer.import_products R records (Sample.settings ∅) 250
      (Sample.start R tt) = (s', Ok st)
    /\ Importer.media_queue_ndjson s'
       = Inv.media_lines (Sample.settings ∅) "cur-eur" Sample.taxes records.
Proof.
  intros R records.
  assert (exists s' st,
             @Importer.import_products R records (Sample.settings ∅) 250
               (Sample.start R tt) = (s', Ok st))
    as (s' & st & Hrun) by (eexists _, _; vm_compute; reflexivity).
  destruct (@import_media_queue R records (Sample.settings ∅) 250
              (Sample.start R tt) s' st Hrun)
    as (currency_id & tax_cache & r0 & r1 & Hcur & Htax & Hmedia).
  injection Hcur as _ <-. injection Htax as _ <-.
  exists s', st. split; [exact Hrun | exact Hmedia].
Defined.

(** X18. Whatever the outcome of a run, the error file and the media queue
    only grow; the error counter is the number of error lines the run has
    appended, each with the reason the importer gives, and the upload
    counter is the number of items in the product calls that succeeded. *)
Theorem import_counters_match_files `{Shopware.Remote}
        (records : list Product.t) (settings : Config.Settings)
        (batch_size : Z) (s : Importer.state) :
  let s' := (Importer.import_products records settings batch_size s).1 in
  exists mcalls pcalls lines media,
    Shopware.posted (Importer.client s')
    = Shopware.posted (Importer.client s) ++ mcalls ++ pcalls
    /\ Forall (fun c => Shopware.entity c = "product_manufacturer") mcalls
    /\ Forall (fun c => Shopware.entity c = "product") pcalls
    /\ Importer.errors_ndjson s' = Importer.errors_ndjson s ++ lines
    /\ Importer.media_queue_ndjson s' = Importer.media_queue_ndjson s ++ media
    /\ Forall Inv.import_error lines
    /\ Importer.errors (Importer.stats s') = Z.of_nat (length lines)
    /\ Importer.products_uploaded (Importer.stats s')
       = Z.of_nat (length (Inv.uploaded_items pcalls)).
Proof.
  intros s'. subst s'.
  destruct (import_products_trace records settings batch_size s)
    as (mcalls & pcalls & lines & media & Hposted & Hlines & Hmedia & He & Hu
        & Hm & Hp & Hreason & _).
  exists mcalls, pcalls, lines, media.
  split; [exact Hposted|].
  split; [eapply Forall_impl; [exact Hm|]; now intros c [Hc _]|].
  split; [eapply Forall_impl; [exact Hp|]; now intros c [Hc _]|].
  split; [exact Hlines|]. split; [exact Hmedia|]. split; [exact Hreason|].
  split; [exact He | exact Hu].
Qed.

Section FloatKeys.
Import PyFloat.

Lemma eqb_finite (s s' : bool) (m m' : positive) (e e' : Z) :
  eqb (S754_finite s m e) (S754_finite s' m' e') = true ->
  s = s' /\ m = m' /\ e = e'.
Proof.
  unfold eqb, SFeqb, SFcompare.
  change (PosDef.Pos.compare_cont Eq m m') with (Pos.compare m m').
  destruct s, s'; try discriminate;
    destruct (Z.compare_spec e e') as [->| |]; try discriminate;
    destruct (Pos.compare_spec m m') as [->| |]; try discriminate; auto.
Qed.

Lemma eqb_trans_l (k r q : float) :
  eqb k r = true -> eqb k q = eqb r q.
Proof.
  intros Hkr.
  destruct k as [sk|sk| |sk mk ek], r as [sr|sr| |sr mr er];
    try discriminate; try (destruct sk; discriminate);
    try (destruct sr; discriminate).
  - destruct q; reflexivity.
  - assert (sk = sr) as -> by (destruct sk, sr; try discriminate; reflexivity).
    reflexivity.
  - apply eqb_finite in Hkr as (-> & -> & ->). reflexivity.
Qed.

Lemma eqb_sym (x y : float) : eqb x y = eqb y x.
Proof.
  unfold eqb, SFeqb. rewrite (SFcompare_antisym x y).
  destruct (SFcompare x y) as [[]|]; reflexivity.
Qed.

End FloatKeys.

Section Dictionaries.

(** A key is the rate that is set when it equals it or both are NaN. *)
Lemma same_key_cases (k rate : PyFloat.float) :
  (Client.same_key k rate = true /\ PyFloat.eqb k rate = true)
  \/ (Client.same_key k rate = true /\ k = S754_nan /\ rate = S754_nan)
  \/ (Client.same_key k rate = false /\ PyFloat.eqb k rate = false).
Proof.
  destruct k as [sk|sk| |sk mk ek], rate as [sr|sr| |sr mr er];
    cbn [Client.same_key]; try (right; left; now auto);
    destruct (PyFloat.eqb _ _); auto.
Qed.

Lemma tax_get_set (taxes : Shopware.tax_table) (rate : PyFloat.float)
      (tax_id : string) (q : PyFloat.float) :
  Shopware.tax_get (Client.tax_set taxes rate tax_id) q
  = if PyFloat.eqb rate q then Some tax_id else Shopware.tax_get taxes q.
Proof.
  induction taxes as [|[k v] rest IH]; cbn [Client.tax_set Shopware.tax_get].
  - reflexivity.
  - destruct (same_key_cases k rate) as [[Hsame Hkr]|[[Hsame [-> ->]]|[Hsame Hkr]]];
      rewrite Hsame; cbn [Shopware.tax_get].
    + rewrite (eqb_trans_l k rate q Hkr). now destruct (PyFloat.eqb rate q).
    + reflexivity.
    + rewrite IH. destruct (PyFloat.eqb k q) eqn:Hkq; [|reflexivity].
      destruct (PyFloat.eqb rate q) eqn:Hrq; [|reflexivity].
      rewrite (eqb_trans_l k q rate Hkq), eqb_sym in Hkr. congruence.
Qed.

Lemma tax_set_not_empty (taxes : Shopware.tax_table) (rate : PyFloat.float)
      (tax_id : string) :
  Client.tax_set taxes rate tax_id <> [].
Proof.
  destruct taxes as [|[k v] rest]; cbn [Client.tax_set]; [discriminate|].
  destruct (Client.same_key k rate); discriminate.
Qed.

Lemma dict_lookup_set {V} (d : pydict V) (key : string) (value : V)
      (q : string) :
  dict_lookup (Client.dict_set d key value) q
  = if String.eqb key q then Some value else dict_lookup d q.
Proof.
  induction d as [|[k v] rest IH]; cbn [Client.dict_set dict_lookup].
  - reflexivity.
  - destruct (String.eqb_spec k key) as [->|Hk]; cbn [dict_lookup].
    + now destruct (String.eqb key q).
    + rewrite IH. destruct (String.eqb_spec k q) as [->|Hq]; [|reflexivity].
      destruct (String.eqb_spec key q) as [->|]; [contradiction | reflexivity].
Qed.

Lemma find_snoc {A} (p : A -> bool) (l : list A) (x : A) :
  List.find p (l ++ [x])
  = match List.find p l with
    | Some y => Some y
    | None => if p x then Some x else None
    end.
Proof.
  induction l as [|y l IH]; cbn; [reflexivity|]. now destruct (p y).
Qed.

End Dictionaries.

Section ClientState.
Context `{Client.Http}.
Import Client.

(** [_get_token] touches neither the configuration nor the caches. *)
Lemma get_token_keeps (c : t) :
  config (_get_token c).1 = config c
  /\ _currency_cache (_get_token c).1 = _currency_cache c
  /\ _tax_cache (_get_token c).1 = _tax_cache c.
Proof.
  unfold _get_token. destruct (PyStr.otruthy (_token c)); [auto|].
  destruct (negb _ || negb _); [auto|].
  destruct (fetch_token _ _ _) as [h [token|e]]; cbn; auto.
Qed.

Lemma request_keeps (c : t) (method path : string) (json : request_body) :
  config (_request c method path json).1 = config c
  /\ _currency_cache (_request c method path json).1 = _currency_cache c
  /\ _tax_cache (_request c method path json).1 = _tax_cache c.
Proof.
  unfold _request. pose proof (get_token_keeps c) as Hkeep.
  destruct (_get_token c) as [c1 [token|e]]; cbn [fst] in Hkeep; [|exact Hkeep].
  destruct (request _ _ _ _ _) as [h answered]. exact Hkeep.
Qed.

Lemma get_token_again (c c' : t) (token : string) :
  _get_token c = (c', Ok token) -> token <> "" ->
  _get_token c' = (c', Ok token).
Proof.
  unfold _get_token at 1.
  destruct (PyStr.otruthy (_token c)) eqn:Hcached.
  - intros [= <- <-] _. unfold _get_token. now rewrite Hcached.
  - destruct (negb _ || negb _); [discriminate|].
    destruct (fetch_token _ _ _) as [h [fetched|e]]; [|discriminate].
    intros [= <- <-] Hne. unfold _get_token. cbn [_token set_token].
    apply truthy_nonempty in Hne. cbn [PyStr.otruthy]. now rewrite Hne.
Qed.

Lemma get_token_refused (c : t) :
  ~ Spec.present (_token c) ->
  ~ Spec.present (Config.client_id (config c))
  \/ ~ Spec.present (Config.client_secret (config c)) ->
  _get_token c
  = (c, Raise (ValueError "Shopware auth requires token or client credentials.")).
Proof.
  intros Hno Hcred. unfold _get_token.
  assert (forall o, ~ Spec.present o -> PyStr.otruthy o = false) as Hfalse.
  { intros o Ho. destruct (PyStr.otruthy o) eqn:Htruthy; [|reflexivity].
    exfalso. apply Ho. now apply otruthy_present. }
  rewrite (Hfalse _ Hno).
  destruct Hcred as [Hc|Hc]; rewrite (Hfalse _ Hc); cbn [negb orb];
    [reflexivity | now rewrite orb_true_r].
Qed.

Lemma fill_taxes_lookup (items : list entity_json) :
  forall cache cache',
    fill_taxes items cache = (cache', Ok tt) ->
    forall q,
      Shopware.tax_get cache' q
      = match List.find (Inv.has_rate q) (rev items) with
        | Some item => e_id item
        | None => Shopware.tax_get cache q
        end.
Proof.
  induction items as [|item items IH]; intros cache cache'.
  - intros [= <-] q. reflexivity.
  - cbn [fill_taxes]. destruct (e_taxRate item) as [rate|] eqn:Hrate;
      [|discriminate].
    destruct (e_id item) as [tax_id|] eqn:Hid; [|discriminate].
    intros Hfill q. rewrite (IH _ _ Hfill q). cbn [rev].
    assert (Inv.has_rate q item = PyFloat.eqb rate q) as Hitem
      by (unfold Inv.has_rate; now rewrite Hrate).
    rewrite find_snoc, tax_get_set, Hitem.
    destruct (List.find (Inv.has_rate q) (rev items)); [reflexivity|].
    destruct (PyFloat.eqb rate q); [now rewrite Hid | reflexivity].
Qed.

(** Entities that all have a rate and an id fill the table without a
    failure. *)
Lemma fill_taxes_good (good : list entity_json) :
  Forall (fun item => is_Some (e_taxRate item) /\ is_Some (e_id item)) good ->
  forall cache, exists cache', fill_taxes good cache = (cache', Ok tt).
Proof.
  induction 1 as [|item good [[rate Hrate] [tax_id Hid]] _ IH]; intros cache.
  - exists cache. reflexivity.
  - cbn [fill_taxes]. rewrite Hrate, Hid. apply IH.
Qed.

(** The loop stops at the first entity without a rate or without an id,
    with what the entities before it have put into the table. *)
Lemma fill_taxes_stops (good : list entity_json) (bad : entity_json)
      (rest : list entity_json) :
  e_taxRate bad = None \/ e_id bad = None ->
  forall cache cache',
    fill_taxes good cache = (cache', Ok tt) ->
    fill_taxes (good ++ bad :: rest) cache
    = (cache', Raise (OtherError "KeyError")).
Proof.
  intros Hbad. induction good as [|item good IH]; intros cache cache'.
  - intros [= <-]. cbn [app fill_taxes].
    destruct Hbad as [->| ->]; [reflexivity|].
    now destruct (e_taxRate bad).
  - cbn [app fill_taxes]. destruct (e_taxRate item); [|discriminate].
    destruct (e_id item); [|discriminate]. apply IH.
Qed.

Lemma fill_taxes_not_empty (items : list entity_json) :
  forall cache cache' r,
    fill_taxes items cache = (cache', r) ->
    items <> [] \/ cache <> [] -> r = Ok tt -> cache' <> [].
Proof.
  induction items as [|item items IH]; intros cache cache' r.
  - intros [= <- <-] [Hne|Hne] _; [contradiction | exact Hne].
  - cbn [fill_taxes]. destruct (e_taxRate item) as [rate|];
      [|intros [= <- <-] _ [=]].
    destruct (e_id item) as [tax_id|]; [|intros [= <- <-] _ [=]].
    intros Hfill _ Hr. apply (IH _ _ _ Hfill); [|exact Hr].
    right. apply tax_set_not_empty.
Qed.

(** A table that is not empty is what [load_taxes] returns, and what
    [get_tax_id] answers from. *)
Lemma load_taxes_cached (c : t) :
  _tax_cache c <> [] ->
  load_taxes c = (c, Ok (_tax_cache c))
  /\ forall rate,
      get_tax_id c rate
      = (c, match Shopware.tax_get (_tax_cache c) rate with
            | Some tax_id => Ok tax_id
            | None => Raise (ValueError ("Tax rate " +:+ PyFloat.repr rate
                                           +:+ " not found in Shopware."))
            end).
Proof.
  intros Hne.
  assert (load_taxes c = (c, Ok (_tax_cache c))) as Hload.
  { unfold load_taxes. destruct (_tax_cache c); [contradiction | reflexivity]. }
  split; [exact Hload|]. intros rate. unfold get_tax_id.
  rewrite Hload. now destruct (Shopware.tax_get _ _).
Qed.

(** [load_taxes] on an empty table: one request, then the loop over the
    entities of the answer, whose table the client keeps either way. *)
Lemma load_taxes_fills (c c1 : t) (response : response) :
  _tax_cache c = [] ->
  _request c "POST" "/api/search/tax" (LimitBody 500) = (c1, Ok response) ->
  load_taxes c
  = let filled := fill_taxes (default [] (data (r_json response))) [] in
    (set_tax_cache filled.1 c1,
     match filled.2 with
     | Ok _ => Ok filled.1
     | Raise e => Raise e
     end).
Proof.
  intros Hempty Hrequest. unfold load_taxes. rewrite Hempty, Hrequest.
  pose proof (request_keeps c "POST" "/api/search/tax" (LimitBody 500))
    as (_ & _ & Hkeep).
  rewrite Hrequest in Hkeep. cbn [fst] in Hkeep. rewrite Hkeep, Hempty.
  destruct (fill_taxes _ _) as [cache [[]|e]]; reflexivity.
Qed.

End ClientState.

(** X19. [_get_token] answers from the client without a request when it
    holds a token; without a token and without both client credentials it
    raises the [ValueError] of the source and sends nothing. A token that
    was fetched is kept: the next call returns it unchanged, and nothing is
    sent for it. A failure leaves the token and the caches as they were. *)
Theorem get_token_cases `{Client.Http} (c : Client.t) :
  (Spec.present (Client._token c) ->
   Client._get_token c = (c, Ok (default "" (Client._token c))))
  /\ (~ Spec.present (Client._token c) ->
      ~ Spec.present (Config.client_id (Client.config c))
      \/ ~ Spec.present (Config.client_secret (Client.config c)) ->
      Client._get_token c
      = (c, Raise (ValueError
                     "Shopware auth requires token or client credentials.")))
  /\ (forall c' token,
        Client._get_token c = (c', Ok token) -> token <> "" ->
        Client._get_token c' = (c', Ok token))
  /\ (forall c' e,
        Client._get_token c = (c', Raise e) ->
        Client._token c' = Client._token c
        /\ Client._currency_cache c' = Client._currency_cache c
        /\ Client._tax_cache c' = Client._tax_cache c).
Proof.
  split; [|split; [|split]].
  - intros Hp. apply otruthy_present in Hp. unfold Client._get_token.
    now rewrite Hp.
  - apply get_token_refused.
  - intros c' token. apply get_token_again.
  - intros c' e. unfold Client._get_token.
    destruct (PyStr.otruthy (Client._token c)); [discriminate|].
    destruct (negb _ || negb _); [intros [= <- _]; auto|].
    destruct (Client.fetch_token _ _ _) as [h [token|e']]; [discriminate|].
    intros [= <- _]. auto.
Qed.

(** X20. [get_currency_id] answers from its cache without a request; an id
    it has looked up is cached, so asking again gives the same id and the
    same client, and what was cached before stays. An empty search result
    raises the [ValueError] of the source, and a failure leaves both caches
    as they were. *)
Theorem get_currency_id_cache `{Client.Http} (c : Client.t) (iso_code : string) :
  (forall currency_id,
      dict_lookup (Client._currency_cache c) iso_code = Some currency_id ->
      Client.get_currency_id c iso_code = (c, Ok currency_id))
  /\ (forall c' currency_id,
        Client.get_currency_id c iso_code = (c', Ok currency_id) ->
        Client.get_currency_id c' iso_code = (c', Ok currency_id)
        /\ forall key value,
            dict_lookup (Client._currency_cache c) key = Some value ->
            dict_lookup (Client._currency_cache c') key = Some value)
  /\ (forall c' e,
        Client.get_currency_id c iso_code = (c', Raise e) ->
        Client._currency_cache c' = Client._currency_cache c
        /\ Client._tax_cache c' = Client._tax_cache c)
  /\ (forall c1 response,
        dict_lookup (Client._currency_cache c) iso_code = None ->
        Client._request c "POST" "/api/search/currency"
          (Client.SearchBody "isoCode" iso_code 1) = (c1, Ok response) ->
        default [] (Client.data (Client.r_json response)) = [] ->
        Client.get_currency_id c iso_code
        = (c1, Raise (ValueError ("Currency " +:+ iso_code +:+ " not found.")))).
Proof.
  split; [|split; [|split]].
  - intros currency_id Hcached. unfold Client.get_currency_id.
    now rewrite Hcached.
  - intros c' currency_id. unfold Client.get_currency_id at 1.
    destruct (dict_lookup (Client._currency_cache c) iso_code) as [cached|]
      eqn:Hcached.
    { intros [= <- <-]. split; [|auto]. unfold Client.get_currency_id.
      now rewrite Hcached. }
    pose proof (request_keeps c "POST" "/api/search/currency"
                  (Client.SearchBody "isoCode" iso_code 1)) as (_ & Hcache & _).
    destruct (Client._request c _ _ _) as [c1 [response|e]]; [|discriminate].
    cbn [fst] in Hcache.
    destruct (default [] (Client.data (Client.r_json response)))
      as [|first rest]; [discriminate|].
    destruct (Client.e_id first) as [found|]; [|discriminate].
    intros [= <- <-]. split.
    + unfold Client.get_currency_id. cbn [Client._currency_cache
                                            Client.set_currency_cache].
      now rewrite dict_lookup_set, String.eqb_refl.
    + intros key value Hold. cbn [Client._currency_cache
                                     Client.set_currency_cache].
      rewrite dict_lookup_set, Hcache.
      destruct (String.eqb_spec iso_code key) as [->|]; [congruence | exact Hold].
  - intros c' e. unfold Client.get_currency_id.
    destruct (dict_lookup (Client._currency_cache c) iso_code); [discriminate|].
    pose proof (request_keeps c "POST" "/api/search/currency"
                  (Client.SearchBody "isoCode" iso_code 1)) as (_ & Hcache & Htax).
    destruct (Client._request c _ _ _) as [c1 [response|e1]]; cbn [fst] in *.
    + destruct (default [] (Client.data (Client.r_json response)))
        as [|first rest]; [intros [= <- _]; auto|].
      destruct (Client.e_id first); [discriminate | intros [= <- _]; auto].
    + intros [= <- _]. auto.
  - intros c1 response Hmiss Hrequest Hempty. unfold Client.get_currency_id.
    now rewrite Hmiss, Hrequest, Hempty.
Qed.

(** X21. [load_taxes] on a client without taxes asks for them once and
    returns a table in which the last entity of a rate wins: for every rate
    that is a number the table holds the id of the last entity of the answer
    whose rate equals it, and nothing when there is none (0.0 and -0.0 are
    one rate). The client keeps this table, and [get_tax_id] answers from it
    without another request. *)
Theorem tax_table_last_rate_wins `{Client.Http}
        (c c1 c' : Client.t) (response : Client.response)
        (taxes : Shopware.tax_table) :
  Client._tax_cache c = [] ->
  Client._request c "POST" "/api/search/tax" (Client.LimitBody 500)
  = (c1, Ok response) ->
  Client.load_taxes c = (c', Ok taxes) ->
  let items := default [] (Client.data (Client.r_json response)) in
  c' = Client.set_tax_cache taxes c1
  /\ (forall q,
        PyFloat.eqb q q = true ->
        Shopware.tax_get taxes q
        = match List.find (Inv.has_rate q) (rev items) with
          | Some item => Client.e_id item
          | None => None
          end)
  /\ (items <> [] ->
      forall q,
        PyFloat.eqb q q = true ->
        Client.get_tax_id c' q
        = (c', match List.find (Inv.has_rate q) (rev items) with
               | Some item =>
                   match Client.e_id item with
                   | Some tax_id => Ok tax_id
                   | None => Raise (ValueError
                                      ("Tax rate " +:+ PyFloat.repr q
                                         +:+ " not found in Shopware."))
                   end
               | None => Raise (ValueError
                                  ("Tax rate " +:+ PyFloat.repr q
                                     +:+ " not found in Shopware."))
               end)).
Proof.
  intros Hempty Hrequest Hload items.
  rewrite (load_taxes_fills c c1 response Hempty Hrequest) in Hload.
  fold items in Hload. cbv zeta in Hload.
  destruct (Client.fill_taxes items []) as [cache [[]|e]] eqn:Hfill;
    cbn [fst snd] in Hload; [|discriminate].
  injection Hload as <- <-.
  assert (forall q,
             Shopware.tax_get cache q
             = match List.find (Inv.has_rate q) (rev items) with
               | Some item => Client.e_id item
               | None => None
               end) as Hget.
  { intros q. rewrite (fill_taxes_lookup items [] cache Hfill q).
    now destruct (List.find _ _). }
  split; [reflexivity|]. split; [intros q _; apply Hget|].
  intros Hitems q _.
  assert (cache <> []) as Hne
    by (apply (fill_taxes_not_empty items [] cache (Ok tt) Hfill); auto).
  destruct (load_taxes_cached (Client.set_tax_cache cache c1) Hne) as [_ Hanswer].
  rewrite Hanswer. cbn [Client._tax_cache Client.set_tax_cache]. rewrite Hget.
  destruct (List.find _ _) as [item|]; [|reflexivity].
  now destruct (Client.e_id item).
Qed.

Lemma tax_table_last_rate_wins_witness :
  let H := Fixture.http Fixture.repeated_taxes in
  let c := @Client.init H (Config.shopware (Sample.settings ∅)) 0 in
  exists c' taxes,
    @Client.load_taxes H c = (c', Ok taxes)
    /\ Shopware.tax_get taxes (Sample.lit "19") = Some "tax-19b"
    /\ Shopware.tax_get taxes (Sample.lit "7") = Some "tax-7"
    /\ Shopware.tax_get taxes (Sample.lit "16") = None
    /\ @Client.get_tax_id H c' (Sample.lit "19") = (c', Ok "tax-19b").
Proof.
  intros H c.
  assert (exists c1 response,
             @Client._request H c "POST" "/api/search/tax" (Client.LimitBody 500)
             = (c1, Ok response)
             /\ default [] (Client.data (Client.r_json response))
                = Fixture.repeated_taxes)
    as (c1 & response & Hrequest & Hitems)
    by (eexists _, _; split; vm_compute; reflexivity).
  assert (exists c' taxes, @Client.load_taxes H c = (c', Ok taxes))
    as (c' & taxes & Hload) by (eexists _, _; vm_compute; reflexivity).
  destruct (@tax_table_last_rate_wins H c c1 c' response taxes eq_refl
              Hrequest Hload) as (_ & Hget & Hanswer).
  rewrite Hitems in Hget, Hanswer.
  exists c', taxes. split; [exact Hload|].
  split; [rewrite Hget; vm_compute; reflexivity|].
  split; [rewrite Hget; vm_compute; reflexivity|].
  split; [rewrite Hget; vm_compute; reflexivity|].
  rewrite Hanswer; [vm_compute; reflexivity | discriminate | vm_compute; reflexivity].
Defined.

(** X22. [load_taxes] sends no request when the table is not empty. The
    table it returns is the one the client keeps, so a second call returns
    the same table and the same client, unless the table came back empty. *)
Theorem load_taxes_cache `{Client.Http} (c : Client.t) :
  (Client._tax_cache c <> [] ->
   Client.load_taxes c = (c, Ok (Client._tax_cache c)))
  /\ (forall c' taxes,
        Client.load_taxes c = (c', Ok taxes) ->
        Client._tax_cache c' = taxes
        /\ Client._currency_cache c' = Client._currency_cache c
        /\ (taxes <> [] -> Client.load_taxes c' = (c', Ok taxes))).
Proof.
  assert (forall c0 : Client.t,
             Client._tax_cache c0 <> [] ->
             Client.load_taxes c0 = (c0, Ok (Client._tax_cache c0))) as Hfull.
  { intros c0 Hne. unfold Client.load_taxes.
    destruct (Client._tax_cache c0); [contradiction | reflexivity]. }
  split; [apply Hfull|].
  intros c' taxes. unfold Client.load_taxes at 1.
  destruct (Client._tax_cache c) as [|entry cache] eqn:Hcache.
  2: { intros [= <- <-]. split; [exact Hcache|]. split; [reflexivity|].
       intros _. rewrite <- Hcache. apply Hfull. rewrite Hcache. discriminate. }
  pose proof (request_keeps c "POST" "/api/search/tax" (Client.LimitBody 500))
    as (_ & Hcur & _).
  destruct (Client._request c _ _ _) as [c1 [response|e]]; [|discriminate].
  cbn [fst] in Hcur.
  destruct (Client.fill_taxes _ _) as [filled [[]|e]]; [|discriminate].
  intros [= <- <-]. split; [reflexivity|]. split; [exact Hcur|].
  intros Hne. apply (Hfull (Client.set_tax_cache filled c1)). exact Hne.
Qed.

(** X23. When [load_taxes], on a client without taxes, meets an entity
    without a rate or without an id, it fails with a [KeyError] and the
    client keeps the entries made for the entities before it. If there are
    any, the next call returns this partial table as if it were complete,
    without a request, and [get_tax_id] answers from it for every rate that
    is a number: the rates of the entities before the failing one are found,
    the others are reported as not in Shopware. *)
Theorem load_taxes_failure_leaves_partial_table `{Client.Http}
        (c c1 : Client.t) (response : Client.response)
        (good : list Client.entity_json) (bad : Client.entity_json)
        (rest : list Client.entity_json) :
  Client._tax_cache c = [] ->
  Client._request c "POST" "/api/search/tax" (Client.LimitBody 500)
  = (c1, Ok response) ->
  default [] (Client.data (Client.r_json response)) = good ++ bad :: rest ->
  Forall (fun item => is_Some (Client.e_taxRate item)
                      /\ is_Some (Client.e_id item)) good ->
  Client.e_taxRate bad = None \/ Client.e_id bad = None ->
  exists partial,
    let c' := Client.set_tax_cache partial c1 in
    Client.fill_taxes good [] = (partial, Ok tt)
    /\ Client.load_taxes c = (c', Raise (OtherError "KeyError"))
    /\ (forall q,
          PyFloat.eqb q q = true ->
          Shopware.tax_get partial q
          = match List.find (Inv.has_rate q) (rev good) with
            | Some item => Client.e_id item
            | None => None
            end)
    /\ (good <> [] ->
        partial <> []
        /\ Client.load_taxes c' = (c', Ok partial)
        /\ forall rate,
            PyFloat.eqb rate rate = true ->
            Client.get_tax_id c' rate
            = (c', match Shopware.tax_get partial rate with
                   | Some tax_id => Ok tax_id
                   | None => Raise (ValueError
                                      ("Tax rate " +:+ PyFloat.repr rate
                                         +:+ " not found in Shopware."))
                   end)).
Proof.
  intros Hempty Hrequest Hitems Hgood Hbad.
  destruct (fill_taxes_good good Hgood []) as [partial Hfill].
  exists partial. cbv zeta. split; [exact Hfill|]. split; [|split].
  - rewrite (load_taxes_fills c c1 response Hempty Hrequest), Hitems.
    cbv zeta. now rewrite (fill_taxes_stops good bad rest Hbad [] partial Hfill).
  - intros q _. rewrite (fill_taxes_lookup good [] partial Hfill q).
    now destruct (List.find _ _).
  - intros Hne.
    assert (partial <> []) as Hpartial
      by (apply (fill_taxes_not_empty good [] partial (Ok tt) Hfill); auto).
    split; [exact Hpartial|].
    destruct (load_taxes_cached (Client.set_tax_cache partial c1) Hpartial)
      as [Hagain Hanswer].
    split; [exact Hagain|]. intros rate _. apply Hanswer.
Qed.

Lemma load_taxes_failure_leaves_partial_table_witness :
  let H := Fixture.http Fixture.broken_taxes in
  let c := @Client.init H (Config.shopware (Sample.settings ∅)) 0 in
  exists c',
    @Client.load_taxes H c = (c', Raise (OtherError "KeyError"))
    /\ @Client._tax_cache H c' = [(Sample.lit "19", "tax-19")]
    /\ @Client.http H c' = 1
    /\ @Client.load_taxes H c' = (c', Ok [(Sample.lit "19", "tax-19")])
    /\ @Client.get_tax_id H c' (Sample.lit "19") = (c', Ok "tax-19").
Proof.
  intros H c.
  assert (exists c1 response,
             @Client._request H c "POST" "/api/search/tax" (Client.LimitBody 500)
             = (c1, Ok response)
             /\ default [] (Client.data (Client.r_json response))
                = take 1 Fixture.broken_taxes
                    ++ default {| Client.e_id := None; Client.e_taxRate := None |}
                         (Fixture.broken_taxes !! 1%nat) :: []
             /\ @Client.http H c1 = 1)
    as (c1 & response & Hrequest & Hitems & Hsent)
    by (eexists _, _; split; [|split]; vm_compute; reflexivity).
  destruct (@load_taxes_failure_leaves_partial_table H c c1 response _ _ _
              eq_refl Hrequest Hitems)
    as (partial & Hfill & Hfail & _ & Hnext).
  { repeat constructor; vm_compute; eauto. }
  { right. reflexivity. }
  assert (partial = [(Sample.lit "19", "tax-19")]) as ->
    by (vm_compute in Hfill; injection Hfill as <-; vm_compute; reflexivity).
  destruct Hnext as (_ & Hagain & Hget); [discriminate|].
  eexists. split; [exact Hfail|]. split; [reflexivity|].
  split; [exact Hsent|]. split; [exact Hagain|].
  rewrite (Hget (Sample.lit "19")); vm_compute; reflexivity.
Defined.

(** X24. A run whose settings hold neither a token nor both client
    credentials ends with the [ValueError] of [_get_token] before anything
    is sent: the connection is untouched, no sync call is posted, no record
    is processed and no file grows. *)
Theorem import_without_credentials `{Client.Http}
        (records : list Product.t) (settings : Config.Settings)
        (batch_size : Z) (h : Client.http_state)
        (s : @Importer.state Client.remote) :
  Shopware.remote (Importer.client s)
  = Client.init (Config.shopware settings) h ->
  ~ Spec.present (Config.token (Config.shopware settings)) ->
  ~ Spec.present (Config.client_id (Config.shopware settings))
  \/ ~ Spec.present (Config.client_secret (Config.shopware settings)) ->
  exists s',
    @Importer.import_products Client.remote records settings batch_size s
    = (s', Raise (ValueError
                    "Shopware auth requires token or client credentials."))
    /\ Shopware.remote (Importer.client s')
       = Client.init (Config.shopware settings) h
    /\ Shopware.posted (Importer.client s')
       = Shopware.posted (Importer.client s)
    /\ Importer.errors_ndjson s' = Importer.errors_ndjson s
    /\ Importer.media_queue_ndjson s' = Importer.media_queue_ndjson s
    /\ Importer.stats s' = Importer.zero_stats.
Proof.
  intros Hinit Htoken Hcred.
  set (c := Client.init (Config.shopware settings) h) in *.
  pose proof (get_token_refused c Htoken Hcred) as Hrefuse.
  unfold Importer.import_products.
  cbn [Importer.client Importer.set_stats Importer.set_client Shopware.remote
       Shopware.posted Shopware.get_currency_id Client.remote].
  rewrite Hinit. unfold Client.get_currency_id.
  cbn [Client._currency_cache c Client.init dict_lookup].
  unfold Client._request. fold c. rewrite Hrefuse.
  eexists. split; [reflexivity|]. cbn.
  split; [reflexivity|]. split; [reflexivity|]. split; [reflexivity|].
  split; reflexivity.
Qed.

Lemma import_without_credentials_witness :
  let H := Fixture.http [] in
  let R := @Client.remote H in
  let s := Sample.start R
             (@Client.init H
                (Config.shopware Fixture.settings_without_credentials) 0) in
  exists s',
    @Importer.import_products R [Fixture.record_with_media]
      Fixture.settings_without_credentials 250 s
    = (s', Raise (ValueError
                    "Shopware auth requires token or client credentials."))
    /\ @Client.http H (Shopware.remote (Importer.client s')) = 0
    /\ Shopware.posted (Importer.client s') = []
    /\ Importer.stats s' = Importer.zero_stats.
Proof.
  intros H R s.
  assert (~ Spec.present
            (Config.token (Config.shopware Fixture.settings_without_credentials)))
    as Htoken by (intros (v & Hv & _); discriminate).
  assert (~ Spec.present
            (Config.client_secret
               (Config.shopware Fixture.settings_without_credentials)))
    as Hsecret by (intros (v & Hv & _); discriminate).
  destruct (@import_without_credentials H [Fixture.record_with_media]
              Fixture.settings_without_credentials 250 0 s eq_refl Htoken
              (or_intror Hsecret))
    as (s' & Hrun & Hremote & Hposted & _ & _ & Hstats).
  exists s'. split; [exact Hrun|].
  split; [exact (f_equal (@Client.http H) Hremote)|].
  split; [exact Hposted | exact Hstats].
Defined.

(** X25. [shopware_import_cmd] lets an error of the run escape and prints
    nothing then. Otherwise it prints the three counters, which balance
    (every record of the store was processed, and uploaded or counted as an
    error), and it leaves through [sys.exit(1)] exactly when the run has
    appended a line to the error file; when it returns, every record was
    uploaded. *)
Theorem import_cmd_ending `{Shopware.Remote}
        (records : list Product.t) (settings : Config.Settings)
        (batch_size : Z) (s : Importer.state) (stdout : list string) :
  let run := Importer.import_products records settings batch_size s in
  let cmd := Cli.shopware_import_cmd records settings batch_size s stdout in
  cmd.1.1 = run.1
  /\ (forall e, run.2 = Raise e -> cmd.2 = Cli.Uncaught e /\ cmd.1.2 = stdout)
  /\ (forall st, run.2 = Ok st ->
        cmd.1.2 = stdout ++ [Cli.summary st]
        /\ Importer.products_processed st = Z.of_nat (length records)
        /\ (Importer.products_processed st
            = Importer.products_uploaded st + Importer.errors st)%Z
        /\ (cmd.2 = Cli.Returned \/ cmd.2 = Cli.SystemExit 1)
        /\ (cmd.2 = Cli.SystemExit 1
            <-> Importer.errors_ndjson run.1 <> Importer.errors_ndjson s)
        /\ (cmd.2 = Cli.Returned ->
            Importer.products_uploaded st = Z.of_nat (length records))).
Proof.
  intros run cmd. subst run cmd. unfold Cli.shopware_import_cmd.
  destruct (import_products_trace records settings batch_size s)
    as (mcalls & pcalls & lines & media & _ & Hlines & _ & He & _ & _ & _ & _
        & Hok).
  destruct (Importer.import_products records settings batch_size s)
    as [s' [st|e]]; cbn [fst snd] in *.
  - split; [reflexivity|]. split; [discriminate|].
    intros st' [= <-]. destruct (Hok st eq_refl) as (-> & Hp & Hbalance & _).
    split; [reflexivity|]. split; [exact Hp|]. split; [exact Hbalance|].
    assert (Importer.errors_ndjson s' <> Importer.errors_ndjson s
            <-> Importer.errors (Importer.stats s') <> 0%Z) as Hgrown.
    { rewrite Hlines, He. destruct lines as [|l lines].
      - rewrite app_nil_r. cbn. split; [congruence | lia].
      - split; [cbn [length]; lia|]. intros _ Heq.
        apply (f_equal (@length _)) in Heq. rewrite length_app in Heq.
        cbn [length] in Heq. lia. }
    rewrite Hgrown.
    destruct (Z.eqb_spec (Importer.errors (Importer.stats s')) 0) as [Hz|Hnz].
    + split; [now left|]. split; [split; [discriminate | congruence]|].
      intros _. lia.
    + split; [now right|]. split; [split; [congruence | reflexivity]|].
      discriminate.
  - split; [reflexivity|]. split; [|discriminate].
    intros e' [= <-]. split; reflexivity.
Qed.

Section Handled.
Import Shopware Importer.
Context `{Remote}.

(** An error of [sync_upsert] is the one of the request, or one of the two
    it raises itself. *)
Lemma sync_upsert_raises (entity : string) (payload : list Payload.item)
      (c : client_state) (e : exn) :
  (sync_upsert entity payload c).2 = Raise e ->
  (_request_sync (remote c) entity payload).2 = Raise e
  \/ exists response,
      (_request_sync (remote c) entity payload).2 = Ok response
      /\ ((400 <= status_code response)%Z
          /\ e = HTTPError ("Sync request failed with status "
                              +:+ str_of_int (status_code response))
          \/ (status_code response < 400)%Z
             /\ json_errors response <> []
             /\ e = SyncError "Sync returned errors").
Proof.
  unfold sync_upsert. destruct payload as [|x payload]; [intros [=]|].
  destruct (_request_sync (remote c) entity (x :: payload)) as [r [response|e']];
    cbn [fst snd].
  - destruct (Z.leb_spec 400 (status_code response)) as [Hhigh|Hlow].
    + intros [= <-]. right. exists response. split; [reflexivity|]. left. auto.
    + destruct (json_errors response) as [|err errs] eqn:Herrors;
        [intros [=]|].
      intros [= <-]. right. exists response. split; [reflexivity|]. right.
      split; [exact Hlow|]. split; [rewrite Herrors; discriminate | reflexivity].
  - intros [= <-]. now left.
Qed.

Lemma send_batch_returns (n : nat) :
  (forall r entity payload e,
      (_request_sync r entity payload).2 = Raise e -> caught e = true) ->
  forall (batch : list Payload.t) (s : state),
    length batch <= n -> (_send_batch batch s).2 = Ok tt.
Proof.
  intros Hhttp. induction n as [|n IH]; intros batch s Hlen;
    rewrite _send_batch_eq.
  all: pose proof (sync_upsert_raises "product"
                     (map Payload.ProductItem batch) (client s)) as Hraises.
  all: destruct (sync_upsert "product" (map Payload.ProductItem batch) (client s))
    as [c [[]|exc]] eqn:Hcall; cbn [fst snd] in *; [reflexivity|].
  all: assert (caught exc = true) as ->
      by (destruct (Hraises exc eq_refl)
            as [Hr|(response & _ & [[_ ->]|(_ & _ & ->)])];
          [exact (Hhttp _ _ _ _ Hr) | reflexivity | reflexivity]).
  all: destruct batch as [|first batch]; [discriminate Hcall|].
  all: cbn [length] in Hlen; try lia.
  destruct batch as [|second batch]; [reflexivity|].
  replace (length (first :: second :: batch) =? 1)%nat with false by reflexivity.
  set (whole := first :: second :: batch) in *.
  set (mid := (length whole / 2)%nat).
  assert (1 <= mid /\ mid < length whole)%nat as Hmid.
  { subst mid. assert (2 <= length whole)%nat by (subst whole; cbn; lia).
    pose proof (Nat.div_lt (length whole) 2).
    pose proof (Nat.div_str_pos (length whole) 2). lia. }
  assert (length whole <= S n)%nat as Hwhole
    by (subst whole; cbn [length] in *; lia).
  pose proof (IH (take mid whole) (set_client c s)) as Hfirst.
  destruct (_send_batch (take mid whole) (set_client c s)) as [s1 [[]|e1]].
  - apply IH. rewrite length_drop. lia.
  - cbn [snd] in Hfirst. rewrite length_take in Hfirst.
    discriminate Hfirst. lia.
Qed.

End Handled.

(** X26. [sync_upsert] turns a status of 400 or more into an HTTP error and
    a body with errors into a [SyncError]; [_send_batch] handles both. So
    when the request itself fails only with errors that [_send_batch]
    handles (HTTP errors), every error of [sync_upsert] is a handled one and
    [_send_batch] always returns: a refused batch ends in error lines, never
    in an exception. *)
Theorem send_batch_handles_remote_errors `{Shopware.Remote}
        (batch : list Payload.t) (s : Importer.state) :
  (forall r entity payload e,
      (Shopware._request_sync r entity payload).2 = Raise e ->
      Importer.caught e = true) ->
  (forall entity payload c e,
      (Shopware.sync_upsert entity payload c).2 = Raise e ->
      Importer.caught e = true)
  /\ (Importer._send_batch batch s).2 = Ok tt.
Proof.
  intros Hhttp. split.
  - intros entity payload c e Hraise.
    destruct (sync_upsert_raises entity payload c e Hraise)
      as [Hr|(response & _ & [[_ ->]|(_ & _ & ->)])];
      [exact (Hhttp _ _ _ _ Hr) | reflexivity | reflexivity].
  - apply (send_batch_returns (length batch) Hhttp). lia.
Qed.

Lemma send_batch_handles_remote_errors_witness :
  let R := Sample.remote_rejecting "B" in
  (@Importer._send_batch R
     [Sample.payload "A"; Sample.payload "B"; Sample.payload "C"]
     (Sample.start R tt)).2 = Ok tt.
Proof.
  intros R.
  apply (@send_batch_handles_remote_errors R
           [Sample.payload "A"; Sample.payload "B"; Sample.payload "C"]
           (Sample.start R tt)).
  intros r entity payload e Hraise. discriminate Hraise.
Defined.
